(** * The Erbil airport flight API: a shallow embedding and its properties

    The repository holds several variants of one small service: a scraper
    that turns the rows of a flight table into records, a cache in front of
    it, and an HTTP handler that filters and serves the cache.

    - [IndexJs]    : src/index.js, the serverless handler with
                     [scrapeFlights], [getCachedFlights] and a time-to-live;
    - [FlightsJs]  : src/flights.js, the handler whose [scrapeFlightData]
                     swallows failures and whose filters match keywords of
                     the status text;
    - [IndexJsV2]  : src/index.js, lines 199-354, the earlier handler kept
                     in the same file;
    - [ServerCron] : src/unnamed/part_000, the Express server refreshed by a
                     cron job, with the [isFetching] guard and sample data;
    - [ServerSim]  : src/server.js and src/unnamed/part_001, the server that
                     makes its flights up;
    - [IndexHeap]  : the cache of src/index.js once more, over an explicit
                     store of objects, for what depends on sharing.

    Definitions come first, the properties follow in the second part. *)

From Stdlib Require Import ZArith List String Ascii Bool Lia Sorted Permutation
  DecimalString.
From stdpp Require Import base list strings.
Import ListNotations.

#[local] Open Scope string_scope.
#[local] Open Scope list_scope.
#[local] Open Scope Z_scope.

(** ** The parts of the JavaScript runtime the handlers rely on *)

Module JS.

(** How a JavaScript computation completes: normally with a value, or by
    throwing.  Every value thrown in this code base is an [Error] of which
    only [message] is ever read, so a thrown value is its message. *)
Inductive completion (A : Type) : Type :=
| Normal (a : A)
| Throw (message : string).
Arguments Normal {A} a.
Arguments Throw {A} message.

#[global] Instance completion_ret : MRet completion := @Normal.
#[global] Instance completion_bind : MBind completion :=
  fun A B f m => match m with Normal a => f a | Throw e => Throw e end.

(** [try { body } catch (error) { handler(error.message) }] *)
Definition tryCatch {A} (body : completion A) (handler : string -> completion A)
  : completion A :=
  match body with Normal a => Normal a | Throw e => handler e end.

Definition isNormal {A} (c : completion A) : bool :=
  match c with Normal _ => true | Throw _ => false end.

(** A computation over module-level state [S]: it reads and assigns the
    state and completes normally or by throwing; what was assigned before a
    throw stays assigned. *)
Definition Eff (S A : Type) : Type := S -> completion A * S.

#[global] Instance Eff_ret {S} : MRet (Eff S) := fun A a s => (Normal a, s).
#[global] Instance Eff_bind {S} : MBind (Eff S) :=
  fun A B f m s =>
    match m s with
    | (Normal a, s') => f a s'
    | (Throw e, s') => (Throw e, s')
    end.

Definition getState {S} : Eff S S := fun s => (Normal s, s).
Definition assign {S} (f : S -> S) : Eff S unit := fun s => (Normal tt, f s).
Definition throw {S A} (error : string) : Eff S A := fun s => (Throw error, s).
(** [await promise], the promise settling to [settled]. *)
Definition await {S A} (settled : completion A) : Eff S A := fun s => (settled, s).
Definition tryCatchE {S A} (body : Eff S A) (handler : string -> Eff S A) : Eff S A :=
  fun s =>
    match body s with
    | (Normal a, s') => (Normal a, s')
    | (Throw e, s') => handler e s'
    end.
(** [try { body } finally { finalizer }] *)
Definition tryFinally {S A} (body : Eff S A) (finalizer : Eff S unit) : Eff S A :=
  fun s =>
    let '(r, s') := body s in
    match finalizer s' with
    | (Normal _, s'') => (r, s'')
    | (Throw e, s'') => (Throw e, s'')
    end.

(** *** Strings.  The texts are modelled as [string]s of single-byte
    characters; [toLowerCase] maps A-Z to a-z and leaves every other
    character alone, as JavaScript does on such texts. *)

Definition startsWith (s p : string) : bool := String.prefix p s.

Definition endsWith (s suffix : string) : bool :=
  let n := String.length s in
  let k := String.length suffix in
  (k <=? n)%nat && String.eqb (String.substring (n - k) k s) suffix.

Fixpoint includes (s keyword : string) : bool :=
  String.prefix keyword s
  || match s with
     | EmptyString => false
     | String _ rest => includes rest keyword
     end.

Definition lowerChar (c : ascii) : ascii :=
  let n := nat_of_ascii c in
  if ((65 <=? n) && (n <=? 90))%nat then ascii_of_nat (n + 32) else c.

Fixpoint toLowerCase (s : string) : string :=
  match s with
  | EmptyString => EmptyString
  | String c rest => String (lowerChar c) (toLowerCase rest)
  end.

(** [s.split(sep)] for a one-character separator: never empty, and
    [''.split(':')] is [['']]. *)
Fixpoint split (sep : ascii) (s : string) : list string :=
  match s with
  | EmptyString => [EmptyString]
  | String c rest =>
      if Ascii.eqb c sep then EmptyString :: split sep rest
      else match split sep rest with
           | part :: parts => String c part :: parts
           | [] => [String c EmptyString]
           end
  end.

(** A string is truthy when it is not empty. *)
Definition truthy (s : string) : bool := negb (String.eqb s "").

(** [s || fallback] on strings. *)
Definition orElse (s fallback : string) : string :=
  if truthy s then s else fallback.

(** [Number] on a text of decimal digits and on the empty text, for the
    worked examples; JavaScript's [Number] reads more texts than these. *)
Fixpoint digitsValue (acc : Z) (s : string) : option Z :=
  match s with
  | EmptyString => Some acc
  | String c rest =>
      let n := nat_of_ascii c in
      if ((48 <=? n) && (n <=? 57))%nat
      then digitsValue (10 * acc + Z.of_nat (n - 48)) rest
      else None
  end.

Definition decimalNumber (s : string) : option Z := digitsValue 0 s.

(** *** Numbers and dates.

    A number handed to the [Date] constructor is either not finite ([NaN],
    an infinity: [None]) or is truncated to an integer there.  A [Date] holds
    a time value, milliseconds since the epoch in UTC, or is an Invalid Date
    ([None]).  An ISO-8601 text as [toISOString] prints it and [new Date(text)]
    reads it back denotes exactly one time value, and is represented by it. *)
Definition num := option Z.
Definition date := option Z.
Definition isoString := Z.

Definition msPerMinute : Z := 60000.
Definition msPerHour : Z := 3600000.
Definition msPerDay : Z := 86400000.
Definition maxTime : Z := 8640000000000000.

Definition TimeClip (t : Z) : date :=
  if Z.abs t <=? maxTime then Some t else None.

(** [MakeTime(hour, min, 0, 0)] on integral arguments. *)
Definition MakeTime (hour minute : Z) : Z := hour * msPerHour + minute * msPerMinute.

Definition Day (t : Z) : Z := t / msPerDay.
Definition TimeWithinDay (t : Z) : Z := t mod msPerDay.

(** [date.toISOString()] throws a RangeError on an Invalid Date. *)
Definition toISOString (d : date) : completion isoString :=
  match d with
  | Some t => Normal t
  | None => Throw "Invalid time value"
  end.

(** [date < now]: a comparison with [NaN] is false. *)
Definition dateLt (d : date) (now : Z) : bool :=
  match d with
  | Some t => t <? now
  | None => false
  end.

(** The calendar of the language: day numbers, year numbers, months and
    dates of a time value, as the rules for Date objects define them. *)
Definition DaysInYear (y : Z) : Z :=
  if negb (y mod 4 =? 0) then 365
  else if negb (y mod 100 =? 0) then 366
  else if negb (y mod 400 =? 0) then 365
  else 366.

(** The day number of the first day of year [y]. *)
Definition DayFromYear (y : Z) : Z :=
  365 * (y - 1970) + (y - 1969) / 4 - (y - 1901) / 100 + (y - 1601) / 400.

Definition TimeFromYear (y : Z) : Z := msPerDay * DayFromYear y.

(** The largest [y] with [TimeFromYear y <= t]: the average year has
    146097 / 400 days, which gives the year to within one. *)
Definition YearFromTime (t : Z) : Z :=
  let y := 1970 + (400 * Day t) / 146097 in
  if TimeFromYear (y + 1) <=? t then y + 1
  else if TimeFromYear y <=? t then y
  else y - 1.

Definition InLeapYear (t : Z) : Z :=
  if DaysInYear (YearFromTime t) =? 366 then 1 else 0.

Definition DayWithinYear (t : Z) : Z := Day t - DayFromYear (YearFromTime t).

(** The month (0 to 11) of day [d] of a year, and the days of the year
    before a month. *)
Definition monthOfDay (d leap : Z) : Z :=
  if d <? 31 then 0
  else if d <? 59 + leap then 1
  else if d <? 90 + leap then 2
  else if d <? 120 + leap then 3
  else if d <? 151 + leap then 4
  else if d <? 181 + leap then 5
  else if d <? 212 + leap then 6
  else if d <? 243 + leap then 7
  else if d <? 273 + leap then 8
  else if d <? 304 + leap then 9
  else if d <? 334 + leap then 10
  else 11.

Definition daysBeforeMonth (month leap : Z) : Z :=
  if month =? 0 then 0
  else if month =? 1 then 31
  else if month =? 2 then 59 + leap
  else if month =? 3 then 90 + leap
  else if month =? 4 then 120 + leap
  else if month =? 5 then 151 + leap
  else if month =? 6 then 181 + leap
  else if month =? 7 then 212 + leap
  else if month =? 8 then 243 + leap
  else if month =? 9 then 273 + leap
  else if month =? 10 then 304 + leap
  else 334 + leap.

Definition MonthFromTime (t : Z) : Z := monthOfDay (DayWithinYear t) (InLeapYear t).

Definition DateFromTime (t : Z) : Z :=
  DayWithinYear t - daysBeforeMonth (MonthFromTime t) (InLeapYear t) + 1.

(** [MakeDay(year, month, date)] on integral arguments: the day number of
    the first of the month, the month carried into the year, moved by the
    date. *)
Definition MakeDay (year month date : Z) : Z :=
  let ym := year + month / 12 in
  let mn := month mod 12 in
  let leap := if DaysInYear ym =? 366 then 1 else 0 in
  DayFromYear ym + daysBeforeMonth mn leap + date - 1.

Definition MakeDate (day time : Z) : Z := day * msPerDay + time.

Section LocalTime.

(** The local time zone, as a fixed offset from UTC in milliseconds (local
    = UTC + [tz]); calendar dates are counted in local days since the epoch.
    Daylight-saving transitions are outside the model. *)
Variable tz : Z.

Definition LocalTime (t : Z) : Z := t + tz.
Definition UTC (t : Z) : Z := t - tz.

(** The local calendar date and the local clock time of an instant. *)
Definition localDate (t : Z) : Z := Day (LocalTime t).
Definition localClock (t : Z) : Z := TimeWithinDay (LocalTime t).

(** [d.getFullYear()], [d.getMonth()] and [d.getDate()] of a valid date. *)
Definition getFullYear (t : Z) : Z := YearFromTime (LocalTime t).
Definition getMonth (t : Z) : Z := MonthFromTime (LocalTime t).
Definition getDate (t : Z) : Z := DateFromTime (LocalTime t).

(** [new Date(year, month, day, hours, minutes, 0)] on an integral year,
    month and day: a year from 0 to 99 is read as 1900 + year. *)
Definition newDate (year month day : Z) (hours minutes : num) : date :=
  match hours, minutes with
  | Some h, Some m =>
      let yr := if (0 <=? year) && (year <=? 99) then 1900 + year else year in
      TimeClip (UTC (MakeDate (MakeDay yr month day) (MakeTime h m)))
  | _, _ => None
  end.

(** [new Date(now.getFullYear(), now.getMonth(), now.getDate(), hour, minute, 0)] *)
Definition newDateToday (now : Z) (hour minute : num) : date :=
  newDate (getFullYear now) (getMonth now) (getDate now) hour minute.

(** [d.setDate(date)]: year, month and time within the day stay. *)
Definition setDate (dt : Z) (d : date) : date :=
  match d with
  | Some t =>
      let t := LocalTime t in
      TimeClip (UTC (MakeDate (MakeDay (YearFromTime t) (MonthFromTime t) dt)
                       (TimeWithinDay t)))
  | None => None
  end.

(** [d.setDate(d.getDate() + 1)] *)
Definition setDateNextDay (d : date) : date :=
  match d with
  | Some t => setDate (getDate t + 1) d
  | None => None
  end.

End LocalTime.

(** [array.sort(compare)]: the sort is stable; an element stays before the
    elements it does not compare greater than. *)
Fixpoint insertSorted {A} (compare : A -> A -> Z) (x : A) (l : list A) : list A :=
  match l with
  | [] => [x]
  | y :: rest =>
      if compare x y <=? 0 then x :: y :: rest
      else y :: insertSorted compare x rest
  end.

Fixpoint sort {A} (compare : A -> A -> Z) (l : list A) : list A :=
  match l with
  | [] => []
  | x :: rest => insertSorted compare x (sort compare rest)
  end.

(** Two selections [xs] and [ys] of [all] split it: together they hold
    the elements of [all], each as often as [all] does, and every element of
    [all] is in exactly one of them. *)
Definition partitions {A} (xs ys all : list A) : Prop :=
  Permutation (xs ++ ys) all
  /\ forall x, In x all -> (In x xs /\ ~ In x ys) \/ (~ In x xs /\ In x ys).

Definition upperChar (c : ascii) : ascii :=
  let n := nat_of_ascii c in
  if ((97 <=? n) && (n <=? 122))%nat then ascii_of_nat (n - 32) else c.

Fixpoint toUpperCase (s : string) : string :=
  match s with
  | EmptyString => EmptyString
  | String c rest => String (upperChar c) (toUpperCase rest)
  end.

(** A computation that may throw, run where state is around. *)
Definition evaluate {S A} (c : completion A) : Eff S A := fun s => (c, s).

Section LocalSetters.

Variable tz : Z.

(** [d.getHours()] and [d.getMinutes()] of a valid date. *)
Definition getHours (t : Z) : Z := localClock tz t / msPerHour.
Definition getMinutes (t : Z) : Z := (localClock tz t mod msPerHour) / msPerMinute.

(** [d.setHours(hour)]: the local date, minutes, seconds and milliseconds
    stay, and an hour outside 0..23 carries into the date. *)
Definition setHours (hour : Z) (d : date) : date :=
  match d with
  | Some t =>
      TimeClip (UTC tz (localDate tz t * msPerDay
                        + (hour * msPerHour + localClock tz t mod msPerHour)))
  | None => None
  end.

(** [d.setMinutes(minute)]: the local date, hour, seconds and milliseconds
    stay. *)
Definition setMinutes (minute : Z) (d : date) : date :=
  match d with
  | Some t =>
      TimeClip (UTC tz (localDate tz t * msPerDay
                        + (getHours t * msPerHour + minute * msPerMinute
                           + localClock tz t mod msPerMinute)))
  | None => None
  end.

End LocalSetters.

(** Whether the character occurs in the text. *)
Fixpoint hasChar (c : ascii) (s : string) : bool :=
  match s with
  | EmptyString => false
  | String d rest => Ascii.eqb d c || hasChar c rest
  end.

End JS.

Import JS.

(** ** src/index.js: scraper, cache and handler *)

Module IndexJs.

Record Flight := mkFlight {
  type : string;
  scheduled : isoString;
  flightNo : string;
  city : string;
  airline : string;
  status : string;
}.

(** A row matched by [$('#FlightGrid tr[class*="FlightRow"]')]: its class
    list and, for each [td] below it, the trimmed text of the cell. *)
Record Row := mkRow {
  classes : list string;
  tds : list string;
}.

Definition hasClass (row : Row) (name : string) : bool :=
  existsb (String.eqb name) (classes row).

(** [cells.eq(i).text().trim()] *)
Definition cellText (row : Row) (i : nat) : string := nth i (tds row) "".

Section Scraper.

Variable tz : Z.
(** JavaScript's [Number] on a text, as the [Date] constructor then reads it
    ([None] when the result is not finite). *)
Variable Number : string -> num.

(** Lines 54-62: today's date at the scheduled clock time, moved to the
    next day when that instant is already past. *)
Definition resolveScheduled (now : Z) (hour minute : num) : date :=
  let scheduledDate := newDateToday tz now hour minute in
  if dateLt scheduledDate now then setDateNextDay tz scheduledDate
  else scheduledDate.

(** Lines 44-71, the body of the per-row [try]. *)
Definition rowBody (now : Z) (row : Row) : completion Flight :=
  let flightType :=
    if hasClass row "ArrivalsFlightRow" then "Arrival" else "Departure" in
  let scheduledTime := cellText row 0 in
  let flightNo := cellText row 1 in
  let city := cellText row 2 in
  let airline := cellText row 3 in
  let status := cellText row 5 in
  let parts := map Number (split ":" scheduledTime) in
  let hour := nth 0 parts None in
  let minute := nth 1 parts None in
  let scheduledDate := resolveScheduled now hour minute in
  iso ← toISOString scheduledDate;
  mret (mkFlight flightType iso flightNo city airline status).

(** Lines 40-76, one call of the [each] callback: [flights] is the array
    filled so far. *)
Definition rowCallback (now : Z) (row : Row) (flights : list Flight)
  : completion (list Flight) :=
  if (length (tds row) =? 6)%nat then
    tryCatch (flight ← rowBody now row; mret (flights ++ [flight]))
             (fun rowError => mret flights)
  else mret flights.

(** [flightRows.each(callback)]; [clock i] is what [new Date()] reads while
    row [i] is processed. *)
Fixpoint each (clock : nat -> Z) (i : nat) (rows : list Row) (flights : list Flight)
  : completion (list Flight) :=
  match rows with
  | [] => mret flights
  | row :: rest =>
      flights' ← rowCallback (clock i) row flights;
      each clock (S i) rest flights'
  end.

(** Lines 33-79, the row extractor. *)
Definition extractRows (clock : nat -> Z) (flightRows : list Row)
  : completion (list Flight) :=
  if (length flightRows =? 0)%nat then mret []
  else each clock 0 flightRows [].

(** [scrapeFlights]: [response] is what the awaited request and the parse
    of its body come to, the rows the selector finds or the failure. *)
Definition scrapeFlights (clock : nat -> Z) (response : completion (list Row))
  : completion (list Flight) :=
  tryCatch (flightRows ← response; extractRows clock flightRows)
           (fun message =>
              Throw ("Failed to access or parse the source website: " +:+ message)).

(** What one row contributes to the result: its record when it has six
    cells and its time converts, nothing otherwise. *)
Definition rowYield (now : Z) (row : Row) : list Flight :=
  if (length (tds row) =? 6)%nat then
    match rowBody now row with
    | Normal flight => [flight]
    | Throw _ => []
    end
  else [].

Fixpoint rowsYield (clock : nat -> Z) (i : nat) (rows : list Row) : list Flight :=
  match rows with
  | [] => []
  | row :: rest => rowYield (clock i) row ++ rowsYield clock (S i) rest
  end.

End Scraper.

(** *** The cache (lines 4-11 and 87-117) *)

Record FlightCache := mkCache {
  data : list Flight;
  lastFetched : Z;
  isStale : bool;
}.

Definition flightCache0 : FlightCache := mkCache [] 0 true.

Definition CACHE_LIFETIME : Z := 15 * 60 * 1000.

Definition set_data (v : list Flight) (c : FlightCache) : FlightCache :=
  mkCache v (lastFetched c) (isStale c).
Definition set_lastFetched (v : Z) (c : FlightCache) : FlightCache :=
  mkCache (data c) v (isStale c).
Definition set_isStale (v : bool) (c : FlightCache) : FlightCache :=
  mkCache (data c) (lastFetched c) v.

(** Line 94: whether this call goes to the scraper. *)
Definition updateNeeded (forceRefresh : bool) (now : Z) (c : FlightCache) : bool :=
  let cacheExpired := now - lastFetched c >? CACHE_LIFETIME in
  forceRefresh || cacheExpired || isStale c.

(** [getCachedFlights(forceRefresh)] is written in the three stretches its
    [await] cuts it into.  [now] is what [Date.now()] reads on entry and
    [scrape] what the awaited [scrapeFlights()] settles to.

    Up to the [await] (lines 91-97): nothing is assigned; the answer is
    whether [scrapeFlights()] is called. *)
Definition getCachedFlights_enter (forceRefresh : bool) (now : Z)
  : Eff FlightCache bool :=
  flightCache ← getState;
  mret (updateNeeded forceRefresh now flightCache).

(** From the [await] to the end of the [try] statement (lines 97-110). *)
Definition getCachedFlights_update (forceRefresh : bool) (now : Z)
    (scrape : completion (list Flight)) : Eff FlightCache unit :=
  tryCatchE
    (flights ← await scrape;
     assign (set_data flights);;
     assign (set_lastFetched now);;
     assign (set_isStale false))
    (fun error =>
       flightCache ← getState;
       if (0 <? length (data flightCache))%nat && negb forceRefresh
       then assign (set_isStale true)
       else throw error).

(** The whole call, with nothing in between.  The value returned is the
    copy made by [JSON.parse(JSON.stringify(flightCache))] (line 116). *)
Definition getCachedFlights (forceRefresh : bool) (now : Z)
    (scrape : completion (list Flight)) : Eff FlightCache FlightCache :=
  needed ← getCachedFlights_enter forceRefresh now;
  (if needed : bool then getCachedFlights_update forceRefresh now scrape
   else mret tt);;
  getState.

(** Calls that overlap: the cache, the calls waiting for their scrape (each
    with its [forceRefresh] and its [now]), and how many times the scraper
    was called. *)
Record System := mkSystem {
  cache : FlightCache;
  awaiting : list (bool * Z);
  scrapes : nat;
}.

Inductive Event :=
| Call (forceRefresh : bool) (now : Z)
| Settle (scrape : completion (list Flight)).

(** One turn of the event loop: a call runs to its [await] (or to its end
    when no update is needed), or the scrape of the call that waited longest
    settles and that call runs to its end. *)
Definition step (e : Event) (sys : System) : option System :=
  match e with
  | Call forceRefresh now =>
      match getCachedFlights_enter forceRefresh now (cache sys) with
      | (Normal true, c) =>
          Some (mkSystem c (awaiting sys ++ [(forceRefresh, now)]) (S (scrapes sys)))
      | (Normal false, c) => Some (mkSystem c (awaiting sys) (scrapes sys))
      | (Throw _, _) => None
      end
  | Settle scrape =>
      match awaiting sys with
      | [] => None
      | (forceRefresh, now) :: rest =>
          Some (mkSystem
                  (snd (getCachedFlights_update forceRefresh now scrape (cache sys)))
                  rest (scrapes sys))
      end
  end.

Fixpoint run (events : list Event) (sys : System) : option System :=
  match events with
  | [] => Some sys
  | e :: rest =>
      match step e sys with
      | Some sys' => run rest sys'
      | None => None
      end
  end.

(** A sequence of calls served one after the other, and beside the cache
    the records of the most recent scrape that succeeded ([[]] before the
    first). *)
Record Refresh := mkRefresh {
  forced : bool;
  calledAt : Z;
  settled : completion (list Flight);
}.

Definition replayOne (k : Refresh) (st : FlightCache * list Flight)
  : FlightCache * list Flight :=
  let '(c, latest) := st in
  (snd (getCachedFlights (forced k) (calledAt k) (settled k) c),
   if updateNeeded (forced k) (calledAt k) c then
     match settled k with
     | Normal flights => flights
     | Throw _ => latest
     end
   else latest).

Definition replay (calls : list Refresh) : FlightCache * list Flight :=
  fold_left (fun st k => replayOne k st) calls (flightCache0, []).

(** *** The handler (lines 121-198) *)

(** A request whose URL parses: its method and the path name of the URL. *)
Record Request := mkRequest {
  method : string;
  path : string;
}.

Inductive Body :=
| NoBody
| RefreshBody (success : bool) (message : string) (lastFetched : isoString)
| FlightsBody (flights : list Flight) (type : string) (lastFetched : isoString)
    (cacheStatus : string)
| ErrorBody (error message : string) (details : option string).

Record Response := mkResponse {
  statusCode : Z;
  body : Body;
}.

(** [(a, b) => new Date(a.scheduled) - new Date(b.scheduled)] *)
Definition compareScheduled (a b : Flight) : Z := scheduled a - scheduled b.

(** The order the responses are to be in. *)
Definition notLater (a b : Flight) : Prop := scheduled a <= scheduled b.

(** The two values [type] takes in a scraped record. *)
Definition wellTyped (f : Flight) : Prop :=
  type f = "Arrival" \/ type f = "Departure".

Definition isArrival (f : Flight) : bool := String.eqb (type f) "Arrival".
Definition isDeparture (f : Flight) : bool := String.eqb (type f) "Departure".

(** Lines 160-170: the list the route selects and the label it answers with. *)
Definition selectFlights (path : string) (allFlights : list Flight)
  : list Flight * string :=
  if endsWith path "/arrivals" then (List.filter isArrival allFlights, "arrivals")
  else if endsWith path "/departures" then
    (List.filter isDeparture allFlights, "departures")
  else (allFlights, "all").

Definition isRefreshRequest (req : Request) : bool :=
  String.eqb (method req) "POST" && String.eqb (path req) "/api/flights/refresh".

Definition isFlightsRequest (req : Request) : bool :=
  String.eqb (method req) "GET" && startsWith (path req) "/api/flights".

Definition handler (req : Request) (now : Z) (scrape : completion (list Flight))
  : Eff FlightCache Response :=
  if String.eqb (method req) "OPTIONS" then mret (mkResponse 204 NoBody)
  else
    tryCatchE
      (if isRefreshRequest req then
         getCachedFlights true now scrape;;
         flightCache ← getState;
         mret (mkResponse 200
                 (RefreshBody true "Flight data refresh attempted."
                    (lastFetched flightCache)))
       else if isFlightsRequest req then
         cacheResult ← getCachedFlights false now scrape;
         let allFlights := data cacheResult in
         let lastFetchedTime := lastFetched cacheResult in
         let '(filteredFlights, type) := selectFlights (path req) allFlights in
         let filteredFlights := sort compareScheduled filteredFlights in
         mret (mkResponse 200
                 (FlightsBody filteredFlights type lastFetchedTime
                    (if isStale cacheResult then "Stale" else "Fresh")))
       else
         mret (mkResponse 404 (ErrorBody "Not Found" "Endpoint not supported." None)))
      (fun error =>
         mret (mkResponse 500
                 (ErrorBody "Internal Server Error"
                    "A critical error occurred while processing the request."
                    (Some error)))).

(** The request as the platform hands it over: its method, its request
    target and its Host header (the text 'undefined' when there is none). *)
Record IncomingMessage := mkIncomingMessage {
  httpMethod : string;
  url : string;
  host : string;
}.

Section Respond.

(** [new URL(url, base).pathname]: the path name of the target resolved
    against the base, or the TypeError the constructor throws when the two
    do not make a URL. *)
Variable pathname : string -> string -> completion string.

(** Lines 121-198 with the URL parsed where the code parses it, inside the
    [try] (line 137): [handler] above is what is left of it once the URL has
    parsed. *)
Definition respond (req : IncomingMessage) (now : Z)
    (scrape : completion (list Flight)) : Eff FlightCache Response :=
  if String.eqb (httpMethod req) "OPTIONS" then mret (mkResponse 204 NoBody)
  else
    tryCatchE
      (path ← evaluate (pathname (url req) ("http://" +:+ host req));
       let parsed := mkRequest (httpMethod req) path in
       if isRefreshRequest parsed then
         getCachedFlights true now scrape;;
         flightCache ← getState;
         mret (mkResponse 200
                 (RefreshBody true "Flight data refresh attempted."
                    (lastFetched flightCache)))
       else if isFlightsRequest parsed then
         cacheResult ← getCachedFlights false now scrape;
         let allFlights := data cacheResult in
         let lastFetchedTime := lastFetched cacheResult in
         let '(filteredFlights, type) := selectFlights path allFlights in
         let filteredFlights := sort compareScheduled filteredFlights in
         mret (mkResponse 200
                 (FlightsBody filteredFlights type lastFetchedTime
                    (if isStale cacheResult then "Stale" else "Fresh")))
       else
         mret (mkResponse 404 (ErrorBody "Not Found" "Endpoint not supported." None)))
      (fun error =>
         mret (mkResponse 500
                 (ErrorBody "Internal Server Error"
                    "A critical error occurred while processing the request."
                    (Some error)))).

End Respond.

(** The states the cache can be in: it starts as [flightCache0] and is only
    touched by the handler, each time with whatever the scraper makes of the
    page it was served. *)
Inductive reachable (tz : Z) (Number : string -> num) : FlightCache -> Prop :=
| reachable_start : reachable tz Number flightCache0
| reachable_request c req now clock response :
    reachable tz Number c ->
    reachable tz Number
      (snd (handler req now (scrapeFlights tz Number clock response) c)).

End IndexJs.

(** ** src/flights.js: the handler that swallows scrape failures *)

Module FlightsJs.

Record Flight := mkFlight {
  scheduled : string;
  city : string;
  flightNo : string;
  airline : string;
  status : string;
}.

Inductive CacheStatus := stale | fetching | ready.

Record FlightDataCache := mkCache {
  flights : list Flight;
  lastFetched : option isoString;
  cacheStatus : CacheStatus;
}.

Definition flightDataCache0 : FlightDataCache := mkCache [] None stale.

Definition MAX_CACHE_AGE_MS : Z := 15 * 60 * 1000.

Definition set_flights (v : list Flight) (c : FlightDataCache) : FlightDataCache :=
  mkCache v (lastFetched c) (cacheStatus c).
Definition set_lastFetched (v : option isoString) (c : FlightDataCache)
  : FlightDataCache :=
  mkCache (flights c) v (cacheStatus c).
Definition set_cacheStatus (v : CacheStatus) (c : FlightDataCache) : FlightDataCache :=
  mkCache (flights c) (lastFetched c) v.

Definition isReady (c : FlightDataCache) : bool :=
  match cacheStatus c with ready => true | _ => false end.

(** Lines 48-70, the [each] callback on one row of '.table-flight-info tbody
    tr', given the trimmed texts of its cells. *)
Definition rowFlights (columns : list string) : list Flight :=
  if (5 <=? length columns)%nat then
    let scheduled := nth 0 columns "" in
    let city := nth 1 columns "" in
    let flightNo := nth 2 columns "" in
    let airline := nth 3 columns "" in
    let status := nth 4 columns "" in
    if truthy scheduled && truthy flightNo && truthy status
    then [mkFlight scheduled city flightNo airline status]
    else []
  else [].

(** [scrapeFlightData()]: [response] is what the awaited request and the
    selection of the table rows come to, [fetchedAt] what [new Date()] reads
    after a successful scrape. *)
Definition scrapeFlightData (fetchedAt : Z)
    (response : completion (list (list string))) : Eff FlightDataCache (list Flight) :=
  assign (set_cacheStatus fetching);;
  tryCatchE
    (tableRows ← await response;
     let flights := flat_map rowFlights tableRows in
     assign (set_flights flights);;
     assign (set_lastFetched (Some fetchedAt));;
     assign (set_cacheStatus ready);;
     mret flights)
    (fun error =>
       assign (set_cacheStatus stale);;
       flightDataCache ← getState;
       mret (flights flightDataCache)).

Record Request := mkRequest {
  method : string;
  url : string;
}.

Inductive Body :=
| NoBody
| RefreshBody (message : string) (lastFetched : option isoString)
| FlightsBody (flights : list Flight) (lastFetched : option isoString)
    (type source : string).

Record Response := mkResponse {
  statusCode : Z;
  body : Body;
}.

(** The keyword tests of lines 123 and 126. *)
Definition mentionsArrival (f : Flight) : bool :=
  includes (toLowerCase (status f)) "arrival"
  || includes (toLowerCase (status f)) "landed".
Definition mentionsDeparture (f : Flight) : bool :=
  includes (toLowerCase (status f)) "departure"
  || includes (toLowerCase (status f)) "scheduled".

(** A status text that names exactly one of the two kinds. *)
Definition unambiguous (f : Flight) : Prop :=
  xorb (mentionsArrival f) (mentionsDeparture f) = true.

Definition arrivals (l : list Flight) : list Flight := List.filter mentionsArrival l.
Definition departures (l : list Flight) : list Flight := List.filter mentionsDeparture l.

(** [urlParts[urlParts.length - 1].toLowerCase()] *)
Definition filterTypeOf (url : string) : string :=
  toLowerCase (List.last (split "/" url) "").

Definition filterBy (filterType : string) (l : list Flight) : list Flight :=
  if String.eqb filterType "arrivals" then arrivals l
  else if String.eqb filterType "departures" then departures l
  else l.

Definition flightTypeOf (filterType : string) : string :=
  if String.eqb filterType "arrivals" then "Arrivals"
  else if String.eqb filterType "departures" then "Departures"
  else "all".

Definition isRefreshRequest (req : Request) : bool :=
  endsWith (url req) "/refresh" && String.eqb (method req) "POST".

(** Lines 92-158; [now] is what [Date.now()] reads at line 130. *)
Definition handler (req : Request) (now fetchedAt : Z)
    (response : completion (list (list string))) : Eff FlightDataCache Response :=
  if String.eqb (method req) "OPTIONS" then mret (mkResponse 204 NoBody)
  else if isRefreshRequest req then
    scrapeFlightData fetchedAt response;;
    flightDataCache ← getState;
    mret (mkResponse 200
            (RefreshBody "Refresh requested and data scrape initiated/completed."
               (lastFetched flightDataCache)))
  else
    flightDataCache ← getState;
    let filterType := filterTypeOf (url req) in
    let flightType := flightTypeOf filterType in
    let filteredFlights := filterBy filterType (flights flightDataCache) in
    let lastFetchedTime :=
      match lastFetched flightDataCache with Some t => t | None => 0 end in
    let isCacheExpired := now - lastFetchedTime >? MAX_CACHE_AGE_MS in
    filteredFlights ←
      (if isCacheExpired || negb (isReady flightDataCache) then
         scrapeFlightData fetchedAt response;;
         flightDataCache ← getState;
         if isReady flightDataCache
         then mret (filterBy filterType (flights flightDataCache))
         else mret filteredFlights
       else mret filteredFlights);
    flightDataCache ← getState;
    mret (mkResponse 200
            (FlightsBody filteredFlights (lastFetched flightDataCache) flightType
               "Erbil Airport")).

(** *** A read cut at its [await]

    While a read awaits [scrapeFlightData()] (line 135) other requests run,
    and [scrapeFlightData] itself is cut at the [await] of its request
    (line 37); [handler] above is a request that nothing overlaps. *)

(** [scrapeFlightData] up to its [await], and from there on. *)
Definition scrapeFlightData_enter : Eff FlightDataCache unit :=
  assign (set_cacheStatus fetching).

Definition scrapeFlightData_resume (fetchedAt : Z)
    (response : completion (list (list string))) : Eff FlightDataCache (list Flight) :=
  tryCatchE
    (tableRows ← await response;
     let flights := flat_map rowFlights tableRows in
     assign (set_flights flights);;
     assign (set_lastFetched (Some fetchedAt));;
     assign (set_cacheStatus ready);;
     mret flights)
    (fun error =>
       assign (set_cacheStatus stale);;
       flightDataCache ← getState;
       mret (flights flightDataCache)).

(** The locals a read carries across the [await]. *)
Record Locals := mkLocals {
  filterType : string;
  flightType : string;
  filteredFlights : list Flight;
}.

(** Step 6, lines 150-157. *)
Definition send (locals : Locals) : Eff FlightDataCache Response :=
  flightDataCache ← getState;
  mret (mkResponse 200
          (FlightsBody (filteredFlights locals) (lastFetched flightDataCache)
             (flightType locals) "Erbil Airport")).

(** A read from line 115 to the [await] of line 135, or to its end when no
    scrape is due: the locals, and the answer when it was given. *)
Definition read_enter (req : Request) (now : Z)
  : Eff FlightDataCache (Locals * option Response) :=
  flightDataCache ← getState;
  let filterType := filterTypeOf (url req) in
  let flightType := flightTypeOf filterType in
  let filteredFlights := filterBy filterType (flights flightDataCache) in
  let locals := mkLocals filterType flightType filteredFlights in
  let lastFetchedTime :=
    match lastFetched flightDataCache with Some t => t | None => 0 end in
  let isCacheExpired := now - lastFetchedTime >? MAX_CACHE_AGE_MS in
  if isCacheExpired || negb (isReady flightDataCache) then
    scrapeFlightData_enter;;
    mret (locals, None)
  else
    response ← send locals;
    mret (locals, Some response).

(** The read from the moment its request to the airport site settles:
    [scrapeFlightData] runs to its end, and then lines 137-157. *)
Definition read_resume (locals : Locals) (fetchedAt : Z)
    (response : completion (list (list string))) : Eff FlightDataCache Response :=
  scrapeFlightData_resume fetchedAt response;;
  flightDataCache ← getState;
  filteredFlights ←
    (if isReady flightDataCache
     then mret (filterBy (filterType locals) (flights flightDataCache))
     else mret (filteredFlights locals));
  send (mkLocals (filterType locals) (flightType locals) filteredFlights).

End FlightsJs.

(** ** src/index.js, lines 199-354: the earlier handler kept in the same file

    Its cache, its records and its [scrapeFlightData] (lines 231-292) are
    those of src/flights.js, the request headers apart; the handler checks
    the cache before it filters, and looks for the keywords as they are
    spelt. *)

Module IndexJsV2.

Import FlightsJs.

(** The keyword tests of lines 337 and 340. *)
Definition namesArrival (f : Flight) : bool :=
  includes (status f) "Arrival" || includes (status f) "Landed".
Definition namesDeparture (f : Flight) : bool :=
  includes (status f) "Departure" || includes (status f) "Scheduled".

(** [pathParts[pathParts.length - 1]] with
    [pathParts = req.url.split('/').filter(p => p)]; [None] is [undefined]. *)
Definition lastPartOf (url : string) : option string :=
  List.last (map Some (List.filter truthy (split "/" url))) None.

(** Lines 329-341: the label and the list for the last part of the path. *)
Definition selectFlights (lastPart : option string) (l : list Flight)
  : string * list Flight :=
  match lastPart with
  | Some part =>
      if String.eqb part "arrivals" then ("Arrivals", List.filter namesArrival l)
      else if String.eqb part "departures"
           then ("Departures", List.filter namesDeparture l)
           else ("all", l)
  | None => ("all", l)
  end.

(** Lines 297-354. *)
Definition handler (req : Request) (now fetchedAt : Z)
    (response : completion (list (list string))) : Eff FlightDataCache Response :=
  if String.eqb (method req) "OPTIONS" then mret (mkResponse 204 NoBody)
  else if isRefreshRequest req then
    scrapeFlightData fetchedAt response;;
    flightDataCache ← getState;
    mret (mkResponse 200
            (RefreshBody "Refresh requested and data scrape initiated/completed."
               (lastFetched flightDataCache)))
  else
    flightDataCache ← getState;
    let lastFetchedTime :=
      match lastFetched flightDataCache with Some t => t | None => 0 end in
    let isCacheExpired := now - lastFetchedTime >? MAX_CACHE_AGE_MS in
    (if isCacheExpired || negb (isReady flightDataCache)
     then scrapeFlightData fetchedAt response;; mret tt
     else mret tt);;
    flightDataCache ← getState;
    let '(flightType, filteredFlights) :=
      selectFlights (lastPartOf (url req)) (flights flightDataCache) in
    mret (mkResponse 200
            (FlightsBody filteredFlights (lastFetched flightDataCache) flightType
               "Erbil Airport")).

End IndexJsV2.

(** ** src/unnamed/part_000: the Express server refreshed by a cron job *)

Module ServerCron.

Record Flight := mkFlight {
  id : string;
  type : string;
  airline : string;
  flightNo : string;
  city : string;
  scheduled : string;
  status : string;
  lastUpdated : isoString;
}.

Record State := mkState {
  flightData : list Flight;
  lastFetched : option Z;
  isFetching : bool;
}.

Definition state0 : State := mkState [] None false.

Definition set_flightData (v : list Flight) (s : State) : State :=
  mkState v (lastFetched s) (isFetching s).
Definition set_lastFetched (v : option Z) (s : State) : State :=
  mkState (flightData s) v (isFetching s).
Definition set_isFetching (v : bool) (s : State) : State :=
  mkState (flightData s) (lastFetched s) v.

(** How a template literal prints an integral number. *)
Definition showNumber (n : Z) : string :=
  DecimalString.NilZero.string_of_int (Z.to_int n).

(** What the clock reads in one synchronous stretch of the server, at each
    place a reading is kept: [Date.now()] in the id and [new Date()] in
    [lastUpdated] of the record made from row [i] (lines 79 and 86; the rows
    are counted through both tables), [new Date()] of line 141, and [new
    Date()] in record [i] of the sample data (lines 169-172).  The readings
    taken for the log lines are kept nowhere. *)
Record Clock := mkClock {
  idAt : nat -> Z;
  updatedAt : nat -> Z;
  fetchedAt : Z;
  sampleAt : nat -> Z;
}.

(** A clock that reads [now] throughout the stretch. *)
Definition standing (now : Z) : Clock :=
  mkClock (fun _ => now) (fun _ => now) now (fun _ => now).

(** [parseFlightRow($, element, type)], given the trimmed texts of the
    row's cells; [None] is the [null] of a row that is no data row.
    [idNow] is what [Date.now()] reads at line 79 and [updatedNow] what [new
    Date()] reads at line 86. *)
Definition parseFlightRow (idNow updatedNow : Z) (tds : list string) (type : string)
  : option Flight :=
  if (length tds <? 5)%nat then None
  else
    let airline := nth 0 tds "" in
    let flightNo := nth 1 tds "" in
    let city := nth 2 tds "" in
    let scheduled := nth 3 tds "" in
    let status := nth 4 tds "" in
    Some (mkFlight (flightNo +:+ "-" +:+ scheduled +:+ "-" +:+ showNumber idNow)
            type
            (orElse airline "N/A")
            (orElse flightNo "N/A")
            (orElse city "N/A")
            (orElse scheduled "N/A")
            (orElse status "Scheduled")
            updatedNow).

(** [getSampleData()]; [readings i] is what [new Date()] reads for record
    [i]. *)
Definition getSampleData (readings : nat -> Z) : list Flight :=
  [ mkFlight "IA220-1000" "Arrival" "Iraqi Airways" "IA220" "Baghdad" "10:00" "Landed"
      (readings 0%nat);
    mkFlight "QR441-1130" "Arrival" "Qatar Airways" "QR441" "Doha" "11:30" "Delayed"
      (readings 1%nat);
    mkFlight "TK316-1415" "Departure" "Turkish Airlines" "TK316" "Istanbul" "14:15"
      "Boarding" (readings 2%nat);
    mkFlight "FZ206-1600" "Departure" "FlyDubai" "FZ206" "Dubai" "16:00" "Scheduled"
      (readings 3%nat) ].

(** The fetched page: the cell texts of the rows under each of the two
    table selectors. *)
Record Page := mkPage {
  arrivalRows : list (list string);
  departureRows : list (list string);
}.

(** [rows.each((i, el) => ...)] of lines 118-121 and 128-131: what is pushed
    to [newFlights], the first row being row [i] of the page. *)
Fixpoint eachRow (clock : Clock) (i : nat) (type : string) (rows : list (list string))
  : list Flight :=
  match rows with
  | [] => []
  | el :: rest =>
      match parseFlightRow (idAt clock i) (updatedAt clock i) el type with
      | Some flight => [flight]
      | None => []
      end ++ eachRow clock (S i) type rest
  end.

(** Lines 116-122 and 126-132: the rows of one table that parse. *)
Definition tableFlights (clock : Clock) (i : nat) (type : string)
    (rows : list (list string)) : list Flight :=
  if (0 <? length rows)%nat then eachRow clock i type rows else [].

Definition scrapedFlights (clock : Clock) (page : Page) : list Flight :=
  tableFlights clock 0 "Arrival" (arrivalRows page)
  ++ tableFlights clock (length (arrivalRows page)) "Departure" (departureRows page).

Definition sampleIfEmpty (clock : Clock) : Eff State unit :=
  s ← getState;
  if (length (flightData s) =? 0)%nat
  then assign (set_flightData (getSampleData (sampleAt clock)))
  else mret tt.

(** [fetchFlights] up to its [await]: the guard, and the flag raised when a
    request goes out ([true]: a request was issued). *)
Definition fetchFlights_enter : Eff State bool :=
  s ← getState;
  if isFetching s then mret false
  else assign (set_isFetching true);; mret true.

(** [fetchFlights] from its [await] on: [response] is what the request and
    the parse of the page come to, [clock] the readings of the clock in
    this synchronous stretch. *)
Definition fetchFlights_resume (clock : Clock) (response : completion Page)
  : Eff State unit :=
  tryFinally
    (tryCatchE
       (page ← await response;
        let newFlights := scrapedFlights clock page in
        if (0 <? length newFlights)%nat then
          assign (set_flightData newFlights);;
          assign (set_lastFetched (Some (fetchedAt clock)))
        else sampleIfEmpty clock)
       (fun error => sampleIfEmpty clock))
    (assign (set_isFetching false)).

(** The attempt brought nothing: the request or the parse failed, or no
    row of either table parsed. *)
Definition fetchedNothing (clock : Clock) (response : completion Page) : bool :=
  match response with
  | Normal page => (length (scrapedFlights clock page) =? 0)%nat
  | Throw _ => true
  end.

(** One call of [fetchFlights] run to its end with nothing in between. *)
Definition fetchFlights (clock : Clock) (response : completion Page) : Eff State unit :=
  issued ← fetchFlights_enter;
  if issued : bool then fetchFlights_resume clock response else mret tt.

(** The three read routes (lines 180-209). *)
Inductive Route := AllFlights | Arrivals | Departures.

Record ApiResponse := mkApiResponse {
  flights : list Flight;
  lastFetchedIso : option isoString;
  responseStatus : string;
}.

Definition routeFlights (route : Route) (flightData : list Flight) : list Flight :=
  match route with
  | AllFlights => flightData
  | Arrivals => List.filter (fun f => String.eqb (type f) "Arrival") flightData
  | Departures => List.filter (fun f => String.eqb (type f) "Departure") flightData
  end.

Definition get (route : Route) (s : State) : ApiResponse :=
  let selected := routeFlights route (flightData s) in
  mkApiResponse selected (lastFetched s)
    (if (0 <? length selected)%nat then "OK" else "No Data").

(** The server between two turns of the event loop: its state, the
    requests to the airport site that have not settled yet, and how many
    were issued so far. *)
Record System := mkSystem {
  state : State;
  pending : nat;
  issued : nat;
}.

Definition system0 : System := mkSystem state0 0 0.

(** The flag tells whether a request is out. *)
Definition guarded (sys : System) : Prop :=
  pending sys = if isFetching (state sys) then 1%nat else 0%nat.

Inductive Event :=
| Invoke
| Settle (clock : Clock) (response : completion Page)
| Read (route : Route).

(** One turn.  [Invoke]: [fetchFlights] is called (by the cron tick, by POST
    /api/flights/refresh, at start-up) and runs to its [await] or its early
    [return].  [Settle]: a pending request settles and the call that awaits
    it runs to its end; there must be one.  [Read]: a read route answers. *)
Definition step (e : Event) (sys : System) : option System :=
  match e with
  | Invoke =>
      match fetchFlights_enter (state sys) with
      | (Normal true, s) => Some (mkSystem s (S (pending sys)) (S (issued sys)))
      | (Normal false, s) => Some (mkSystem s (pending sys) (issued sys))
      | (Throw _, _) => None
      end
  | Settle clock response =>
      match pending sys with
      | O => None
      | S n =>
          Some (mkSystem (snd (fetchFlights_resume clock response (state sys)))
                  n (issued sys))
      end
  | Read route => Some sys
  end.

Fixpoint run (events : list Event) (sys : System) : option System :=
  match events with
  | [] => Some sys
  | e :: rest =>
      match step e sys with
      | Some sys' => run rest sys'
      | None => None
      end
  end.

(** POST /api/flights/refresh (lines 212-216), the call of [fetchFlights]
    run to its end. *)
Record RefreshResponse := mkRefreshResponse {
  message : string;
  flightCount : nat;
}.

Definition postRefresh (clock : Clock) (response : completion Page)
  : Eff State RefreshResponse :=
  fetchFlights clock response;;
  s ← getState;
  mret (mkRefreshResponse "Refresh complete." (length (flightData s))).

(** The [origin] function handed to [cors] (lines 39-49): what it passes to
    its callback, an error or none and whether the origin is allowed.
    [None] is a request without an Origin header. *)
Definition corsOrigin (allowedOrigins : list string) (origin : option string)
  : option string * bool :=
  match origin with
  | None => (None, true)
  | Some o =>
      if negb (truthy o) then (None, true)
      else if existsb (String.eqb o) allowedOrigins
              || (length allowedOrigins =? 0)%nat
           then (None, true)
           else (None, true)
  end.

Definition allowedOrigins : list string :=
  ["http://localhost:3000"; "http://127.0.0.1:5500"].

(** Whether a request has settled among the events. *)
Definition hasSettled (events : list Event) : bool :=
  existsb (fun e => match e with Settle _ _ => true | _ => false end) events.

(** The two values [type] takes, and a record with nothing left blank. *)
Definition wellTyped (f : Flight) : Prop :=
  type f = "Arrival" \/ type f = "Departure".

Definition filledIn (f : Flight) : Prop :=
  airline f <> "" /\ flightNo f <> "" /\ city f <> "" /\ scheduled f <> ""
  /\ status f <> "".

(** The record a data row gives, the clock readings apart: each field is
    the text of its cell, or what stands in for a blank cell. *)
Definition madeFrom (table : string) (tds : list string) (f : Flight) : Prop :=
  type f = table
  /\ airline f = (if String.eqb (nth 0 tds "") "" then "N/A" else nth 0 tds "")
  /\ flightNo f = (if String.eqb (nth 1 tds "") "" then "N/A" else nth 1 tds "")
  /\ city f = (if String.eqb (nth 2 tds "") "" then "N/A" else nth 2 tds "")
  /\ scheduled f = (if String.eqb (nth 3 tds "") "" then "N/A" else nth 3 tds "")
  /\ status f = (if String.eqb (nth 4 tds "") "" then "Scheduled" else nth 4 tds "")
  /\ exists idNow,
       id f = nth 1 tds "" +:+ "-" +:+ nth 3 tds "" +:+ "-" +:+ showNumber idNow.

(** A row with the five cells of a data row. *)
Definition isDataRow (tds : list string) : bool := (5 <=? length tds)%nat.

End ServerCron.

(** ** src/server.js and src/unnamed/part_001: the server with made-up flights

    The two files differ in comments, in one log line and in the message of
    the refresh route; the model follows src/server.js. *)

Module ServerSim.

Record Flight := mkFlight {
  id : string;
  type : string;
  flightNo : string;
  city : string;
  airline : string;
  scheduled : isoString;
  status : string;
}.

Record FlightDataCache := mkCache {
  flights : list Flight;
  lastFetched : option isoString;
}.

Definition flightDataCache0 : FlightDataCache := mkCache [] None.

(** What the six calls of [Math.random()] in one [generateFlight] come to,
    each already as [Math.floor(Math.random() * n)]: a whole number from 0
    to [n - 1], for n = 7, 7, 4, 5, 60 and 900. *)
Record Draws := mkDraws {
  cityDraw : nat;
  airlineDraw : nat;
  statusDraw : nat;
  hourDraw : Z;
  minuteDraw : Z;
  numberDraw : Z;
}.

Definition inRange (d : Draws) : Prop :=
  (cityDraw d < 7)%nat /\ (airlineDraw d < 7)%nat /\ (statusDraw d < 4)%nat
  /\ 0 <= hourDraw d < 5 /\ 0 <= minuteDraw d < 60 /\ 0 <= numberDraw d < 900.

Definition airlines : list string :=
  ["Emirates"; "Turkish Airlines"; "Qatar Airways"; "Royal Jordanian";
   "Lufthansa"; "Austrian Airlines"; "Fly Baghdad"].

Definition citiesOf (isDeparture : bool) : list string :=
  if isDeparture
  then ["Dubai"; "Istanbul"; "Doha"; "Amman"; "Frankfurt"; "Vienna"; "Suleimaniyah"]
  else ["Cairo"; "Beirut"; "London"; "Moscow"; "Munich"; "Baghdad"; "Stockholm"].

Definition statusesOf (isDeparture : bool) : list string :=
  if isDeparture
  then ["Scheduled"; "Boarding"; "Delayed"; "Cancelled"]
  else ["Scheduled"; "Delayed"; "Landed"; "Cancelled"].

(** How a template literal prints an integral number. *)
Definition showNumber (n : Z) : string :=
  DecimalString.NilZero.string_of_int (Z.to_int n).

Section Generator.

Variable tz : Z.

(** [generateFlight(type, id)]; [now] is what [new Date()] reads, [d] the
    random draws of this call, in the order they are made. *)
Definition generateFlight (type id : string) (now : Z) (d : Draws)
  : completion Flight :=
  let isDeparture := String.eqb type "departures" in
  let cities := citiesOf isDeparture in
  let statuses := statusesOf isDeparture in
  let city := nth (cityDraw d) cities "" in
  let airline := nth (airlineDraw d) airlines "" in
  let status := nth (statusDraw d) statuses "" in
  let time := Some now in
  let time := setHours tz (getHours tz now + hourDraw d - 2) time in
  let time := setMinutes tz (minuteDraw d) time in
  iso ← toISOString time;
  mret (mkFlight id
          (if isDeparture then "Departure" else "Arrival")
          (toUpperCase (String.substring 0 2 airline)
           +:+ showNumber (numberDraw d + 100))
          city airline iso status).

(** The loop of [refreshCache]: [i] runs from 1 to 8; the calls of
    [generateFlight] are numbered from 0 in the order they are made, and
    [clock] and [draws] give each its time and its draws. *)
Fixpoint generatePairs (clock : nat -> Z) (draws : nat -> Draws) (i rounds : nat)
    (newFlights : list Flight) : completion (list Flight) :=
  match rounds with
  | O => mret newFlights
  | S rest =>
      let call := (2 * (i - 1))%nat in
      arrival ← generateFlight "arrivals" ("A" +:+ showNumber (Z.of_nat i))
                  (clock call) (draws call);
      departure ← generateFlight "departures" ("D" +:+ showNumber (Z.of_nat i))
                    (clock (S call)) (draws (S call));
      generatePairs clock draws (S i) rest (newFlights ++ [arrival; departure])
  end.

(** [(a, b) => new Date(a.scheduled) - new Date(b.scheduled)] *)
Definition compareScheduled (a b : Flight) : Z := scheduled a - scheduled b.

(** [refreshCache()]; [fetchedAt] is what [new Date()] reads at the end. *)
Definition refreshCache (clock : nat -> Z) (draws : nat -> Draws) (fetchedAt : Z)
  : Eff FlightDataCache unit :=
  newFlights ← evaluate (generatePairs clock draws 1 8 []);
  let newFlights := sort compareScheduled newFlights in
  assign (fun c => mkCache newFlights (lastFetched c));;
  assign (fun c => mkCache (flights c) (Some fetchedAt)).

End Generator.

(** The routes. *)
Inductive Route := AllFlights | Arrivals | Departures.

Definition isArrival (f : Flight) : bool := String.eqb (type f) "Arrival".
Definition isDeparture (f : Flight) : bool := String.eqb (type f) "Departure".

(** GET /api/flights answers with the cache, the two other routes with the
    cache and [flights] overridden by the filtered list. *)
Definition get (route : Route) (c : FlightDataCache) : FlightDataCache :=
  match route with
  | AllFlights => c
  | Arrivals => mkCache (List.filter isArrival (flights c)) (lastFetched c)
  | Departures => mkCache (List.filter isDeparture (flights c)) (lastFetched c)
  end.

Record RefreshResponse := mkRefreshResponse {
  success : bool;
  message : string;
}.

(** POST /api/flights/refresh *)
Definition postRefresh (tz : Z) (clock : nat -> Z) (draws : nat -> Draws)
    (fetchedAt : Z) : Eff FlightDataCache RefreshResponse :=
  refreshCache tz clock draws fetchedAt;;
  mret (mkRefreshResponse true "Refreshed").

Definition notLater (a b : Flight) : Prop := scheduled a <= scheduled b.

(** The flight a call of [generateFlight] makes when its date stays valid:
    the hour moved by the draw less two, the minute replaced by the draw. *)
Definition generated (tz : Z) (type id : string) (now : Z) (d : Draws) : Flight :=
  let isDeparture := String.eqb type "departures" in
  mkFlight id
    (if isDeparture then "Departure" else "Arrival")
    (toUpperCase (String.substring 0 2 (nth (airlineDraw d) airlines ""))
     +:+ showNumber (numberDraw d + 100))
    (nth (cityDraw d) (citiesOf isDeparture) "")
    (nth (airlineDraw d) airlines "")
    (now + (hourDraw d - 2) * msPerHour
     + (minuteDraw d - getMinutes tz now) * msPerMinute)
    (nth (statusDraw d) (statusesOf isDeparture) "").

(** The flights of rounds [i], [i + 1], ... in the order they are made. *)
Definition generatedPairs (tz : Z) (clock : nat -> Z) (draws : nat -> Draws)
    (i rounds : nat) : list Flight :=
  flat_map (fun i =>
              let call := (2 * (i - 1))%nat in
              [generated tz "arrivals" ("A" +:+ showNumber (Z.of_nat i))
                 (clock call) (draws call);
               generated tz "departures" ("D" +:+ showNumber (Z.of_nat i))
                 (clock (S call)) (draws (S call))])
           (seq i rounds).

(** The clock readings and draws of the sixteen calls are what a clock and
    [Math.random()] can give. *)
Definition plausible (tz : Z) (clock : nat -> Z) (draws : nat -> Draws) : Prop :=
  Z.abs tz <= msPerDay
  /\ forall call, (call < 16)%nat ->
       Z.abs (clock call) <= maxTime - 3 * msPerDay /\ inRange (draws call).

End ServerSim.

(** ** src/index.js once more, with the objects in a store

    [getCachedFlights] ends in [JSON.parse(JSON.stringify(flightCache))].
    What that copy is good for shows only when objects have an identity:
    here the cache object, its [data] array and the flight records are
    objects in a store, held by reference, and an assignment or an in-place
    sort changes the object every holder of the reference sees. *)

Module IndexHeap.

Import IndexJs.

(** A reference is the rank of the object among all objects ever created;
    nothing is ever freed. *)
Abbreviation loc := nat (only parsing).

Inductive obj :=
| OFlight (f : Flight)
| OArray (elems : list loc)
| OCache (data : loc) (lastFetched : Z) (isStale : bool).

Abbreviation heap := (list obj) (only parsing).

(** *** Reading a value out of the store *)

Definition readFlight (h : heap) (l : loc) : option Flight :=
  match h !! l with
  | Some (OFlight f) => Some f
  | _ => None
  end.

Fixpoint readFlights (h : heap) (ls : list loc) : option (list Flight) :=
  match ls with
  | [] => Some []
  | l :: rest =>
      match readFlight h l, readFlights h rest with
      | Some f, Some fs => Some (f :: fs)
      | _, _ => None
      end
  end.

Definition readArray (h : heap) (l : loc) : option (list Flight) :=
  match h !! l with
  | Some (OArray elems) => readFlights h elems
  | _ => None
  end.

(** The cache value held at [l]: what the handlers of [IndexJs] compute
    with. *)
Definition readCache (h : heap) (l : loc) : option FlightCache :=
  match h !! l with
  | Some (OCache data lastFetched isStale) =>
      match readArray h data with
      | Some flights => Some (mkCache flights lastFetched isStale)
      | None => None
      end
  | _ => None
  end.

(** The objects a cache value is made of: the cache object, its array and
    the records in it. *)
Definition footprint (h : heap) (l : loc) : list loc :=
  match h !! l with
  | Some (OCache data _ _) =>
      l :: data :: match h !! data with
                   | Some (OArray elems) => elems
                   | _ => []
                   end
  | _ => [l]
  end.

(** *** Creating and assigning *)

Definition new (o : obj) : Eff heap loc := fun h => (Normal (length h), h ++ [o]).

Definition store (l : loc) (o : obj) : Eff heap unit :=
  assign (fun h => <[l := o]> h).

Fixpoint newFlights (flights : list Flight) : Eff heap (list loc) :=
  match flights with
  | [] => mret []
  | f :: rest =>
      l ← new (OFlight f);
      ls ← newFlights rest;
      mret (l :: ls)
  end.

(** An array of freshly created records, as [scrapeFlights] and
    [JSON.parse] build one. *)
Definition newArray (flights : list Flight) : Eff heap loc :=
  ls ← newFlights flights;
  new (OArray ls).

Definition loadCache (l : loc) : Eff heap (loc * Z * bool) :=
  fun h =>
    match h !! l with
    | Some (OCache data lastFetched isStale) => (Normal (data, lastFetched, isStale), h)
    | _ => (Throw "TypeError", h)
    end.

Definition arrayLength (l : loc) : Eff heap nat :=
  fun h =>
    match h !! l with
    | Some (OArray elems) => (Normal (length elems), h)
    | _ => (Throw "TypeError", h)
    end.

(** [flightCache.data = v], [flightCache.lastFetched = v],
    [flightCache.isStale = v] *)
Definition setData (l : loc) (v : loc) : Eff heap unit :=
  '(_, lastFetched, isStale) ← loadCache l;
  store l (OCache v lastFetched isStale).
Definition setLastFetched (l : loc) (v : Z) : Eff heap unit :=
  '(data, _, isStale) ← loadCache l;
  store l (OCache data v isStale).
Definition setIsStale (l : loc) (v : bool) : Eff heap unit :=
  '(data, lastFetched, _) ← loadCache l;
  store l (OCache data lastFetched v).

(** [JSON.parse(text)] for the text of a cache value: all objects new. *)
Definition parse (c : FlightCache) : Eff heap loc :=
  arr ← newArray (data c);
  new (OCache arr (lastFetched c) (isStale c)).

(** [JSON.parse(JSON.stringify(flightCache))]; the text is the value it
    denotes. *)
Definition deepCopy (l : loc) : Eff heap loc :=
  h ← getState;
  match readCache h l with
  | Some c => parse c
  | None => throw "TypeError"
  end.

(** [getCachedFlights(forceRefresh)] on the cache object at [flightCache];
    the array of the scraper is created when its result arrives. *)
Definition getCachedFlights (flightCache : loc) (forceRefresh : bool) (now : Z)
    (scrape : completion (list Flight)) : Eff heap loc :=
  '(_, lastFetched, isStale) ← loadCache flightCache;
  let cacheExpired := now - lastFetched >? CACHE_LIFETIME in
  (if forceRefresh || cacheExpired || isStale then
     tryCatchE
       (flights ← await scrape;
        flights ← newArray flights;
        setData flightCache flights;;
        setLastFetched flightCache now;;
        setIsStale flightCache false)
       (fun error =>
          '(data, _, _) ← loadCache flightCache;
          n ← arrayLength data;
          if (0 <? n)%nat && negb forceRefresh
          then setIsStale flightCache true
          else throw error)
   else mret tt);;
  deepCopy flightCache.

(** [array.sort((a, b) => new Date(a.scheduled) - new Date(b.scheduled))] on
    the array object at [arr]: its elements are rearranged in place. *)
Definition compareAt (h : heap) (a b : loc) : Z :=
  match readFlight h a, readFlight h b with
  | Some fa, Some fb => compareScheduled fa fb
  | _, _ => 0
  end.

Definition sortInPlace (arr : loc) : Eff heap unit :=
  h ← getState;
  match h !! arr with
  | Some (OArray elems) => store arr (OArray (sort (compareAt h) elems))
  | _ => throw "TypeError"
  end.

(** The store after one more call, and after a sequence of calls. *)
Definition serve (flightCache : loc) (h : heap) (k : Refresh) : heap :=
  snd (getCachedFlights flightCache (forced k) (calledAt k) (settled k) h).

Definition serveAll (flightCache : loc) (calls : list Refresh) (h : heap) : heap :=
  fold_left (serve flightCache) calls h.

(** Anything that may happen to the store later on: an object is created,
    or the object at some reference is assigned to. *)
Inductive mutation :=
| Create (o : obj)
| Assign (l : loc) (o : obj).

Definition mutate (h : heap) (m : mutation) : heap :=
  match m with
  | Create o => h ++ [o]
  | Assign l o => <[l := o]> h
  end.

(** The mutation leaves the objects at [ls] alone. *)
Definition spares (ls : list loc) (m : mutation) : Prop :=
  match m with
  | Create _ => True
  | Assign l _ => ~ In l ls
  end.

(** The store a copy of [c] is added to [h] in, and where the copy is. *)
Definition copied (c : FlightCache) (h : heap) : heap :=
  h ++ map OFlight (data c)
    ++ [OArray (seq (length h) (length (data c)));
        OCache (length h + length (data c))%nat (lastFetched c) (isStale c)].
Definition copyOf (c : FlightCache) (h : heap) : loc :=
  S (length h + length (data c)).

End IndexHeap.

(** * Part II: properties *)

(** Unfolds the effect combinators so that a handler computes. *)
Ltac run_eff :=
  unfold mbind, mret, Eff_bind, Eff_ret, getState, assign, throw, await,
    tryCatchE, tryFinally in *;
  simpl in *.

(** ** The calendar

    [YearFromTime] computes what the language rules define, the largest
    year that starts no later than the time value, and [MakeDay] finds the
    first day of the month it is asked for; taking a time value apart into
    year, month and date and putting it together again gives its day. *)

Lemma DayFromYear_next y : DayFromYear (y + 1) = DayFromYear y + DaysInYear y.
Proof.
  unfold DayFromYear, DaysInYear.
  destruct (Z.eqb_spec (y mod 4) 0), (Z.eqb_spec (y mod 100) 0),
    (Z.eqb_spec (y mod 400) 0); cbn [negb]; Z.div_mod_to_equations; lia.
Qed.

Lemma YearFromTime_spec t :
  TimeFromYear (YearFromTime t) <= t < TimeFromYear (YearFromTime t + 1).
Proof.
  unfold YearFromTime, TimeFromYear, Day, msPerDay.
  set (y := 1970 + 400 * (t / 86400000) / 146097).
  destruct (Z.leb_spec (86400000 * DayFromYear (y + 1)) t) as [H1|H1].
  - split; [exact H1|].
    unfold DayFromYear in *. subst y. Z.div_mod_to_equations. lia.
  - destruct (Z.leb_spec (86400000 * DayFromYear y) t) as [H2|H2].
    + split; [exact H2 | exact H1].
    + split; [| now replace (y - 1 + 1) with y by lia].
      unfold DayFromYear in *. subst y. Z.div_mod_to_equations. lia.
Qed.

Lemma DaysInYear_pos y : 365 <= DaysInYear y <= 366.
Proof.
  unfold DaysInYear.
  destruct (negb _); [lia|]. destruct (negb _); [lia|]. destruct (negb _); lia.
Qed.

Lemma DayFromYear_mono a b : a <= b -> DayFromYear a <= DayFromYear b.
Proof. unfold DayFromYear. intros H. Z.div_mod_to_equations. lia. Qed.

Lemma YearFromTime_largest t y : TimeFromYear y <= t <-> y <= YearFromTime t.
Proof.
  pose proof (YearFromTime_spec t) as [Hle Hlt]. unfold TimeFromYear, msPerDay in *.
  split; intros H.
  - destruct (Z.le_gt_cases y (YearFromTime t)) as [|Hgt]; [assumption|].
    pose proof (DayFromYear_mono (YearFromTime t + 1) y ltac:(lia)). lia.
  - pose proof (DayFromYear_mono y (YearFromTime t) H). lia.
Qed.

Lemma monthOfDay_range d leap : 0 <= monthOfDay d leap <= 11.
Proof. unfold monthOfDay. repeat (destruct (_ <? _); [lia|]). lia. Qed.

Lemma MakeDay_of_parts t dt :
  MakeDay (YearFromTime t) (MonthFromTime t) dt = Day t + (dt - DateFromTime t).
Proof.
  unfold MakeDay, DateFromTime, DayWithinYear.
  pose proof (monthOfDay_range (DayWithinYear t) (InLeapYear t)) as Hm.
  fold (MonthFromTime t) in Hm.
  rewrite (Z.div_small (MonthFromTime t) 12), (Z.mod_small (MonthFromTime t) 12) by lia.
  rewrite Z.add_0_r. fold (InLeapYear t). lia.
Qed.

Lemma DayWithinYear_range t : 0 <= DayWithinYear t < 365 + InLeapYear t.
Proof.
  unfold DayWithinYear, InLeapYear.
  pose proof (YearFromTime_spec t) as [Hle Hlt].
  unfold TimeFromYear in *. rewrite DayFromYear_next in Hlt.
  pose proof (DaysInYear_pos (YearFromTime t)).
  assert (DaysInYear (YearFromTime t) = 365 + (if DaysInYear (YearFromTime t) =? 366 then 1 else 0)) as Hd
    by (destruct (Z.eqb_spec (DaysInYear (YearFromTime t)) 366); lia).
  unfold Day, msPerDay in *. 
  set (dfy := DayFromYear (YearFromTime t)) in *.
  set (diy := DaysInYear (YearFromTime t)) in *.
  clearbody dfy diy.
  destruct (diy =? 366); Z.div_mod_to_equations; lia.
Qed.

Lemma DateFromTime_range t : 1 <= DateFromTime t <= 31.
Proof.
  pose proof (DayWithinYear_range t) as Hd.
  assert (0 <= InLeapYear t <= 1) as Hl
    by (unfold InLeapYear; destruct (_ =? _); lia).
  unfold DateFromTime, MonthFromTime, monthOfDay.
  generalize dependent (InLeapYear t). generalize (DayWithinYear t).
  intros d l Hd Hl.
  repeat match goal with
         | |- context [?a <? ?b] => destruct (Z.ltb_spec a b)
         end;
    cbn [daysBeforeMonth Z.eqb Pos.eqb]; lia.
Qed.

Lemma YearFromTime_unique t y :
  TimeFromYear y <= t < TimeFromYear (y + 1) -> YearFromTime t = y.
Proof.
  intros [Hle Hlt].
  apply YearFromTime_largest in Hle.
  destruct (Z.le_gt_cases (y + 1) (YearFromTime t)) as [H|H]; [|lia].
  apply YearFromTime_largest in H. lia.
Qed.

Lemma month_cases m : 0 <= m <= 11 ->
  m = 0 \/ m = 1 \/ m = 2 \/ m = 3 \/ m = 4 \/ m = 5 \/ m = 6 \/ m = 7 \/ m = 8
  \/ m = 9 \/ m = 10 \/ m = 11.
Proof. lia. Qed.

Lemma monthOfDay_first m leap :
  0 <= m <= 11 -> 0 <= leap <= 1 ->
  monthOfDay (daysBeforeMonth m leap) leap = m
  /\ 0 <= daysBeforeMonth m leap < 365.
Proof.
  intros Hm Hl. assert (leap = 0 \/ leap = 1) as [-> | ->] by lia;
    destruct (month_cases m Hm) as [->|[->|[->|[->|[->|[->|[->|[->|[->|[->|[->| ->]]]]]]]]]]];
    (split; [reflexivity | cbn; lia]).
Qed.

(** [MakeDay] finds the day the language rules ask for: the first of the
    month [mn] of the year [ym], moved by the date. *)

Lemma MakeDay_first_of_month year month :
  let t := MakeDay year month 1 * msPerDay in
  YearFromTime t = year + month / 12
  /\ MonthFromTime t = month mod 12
  /\ DateFromTime t = 1.
Proof.
  cbv zeta. set (ym := year + month / 12). set (mn := month mod 12).
  assert (Hmn : 0 <= mn <= 11) by (unfold mn; Z.div_mod_to_equations; lia).
  set (leap := if DaysInYear ym =? 366 then 1 else 0).
  assert (Hleap : 0 <= leap <= 1) by (unfold leap; destruct (_ =? _); lia).
  destruct (monthOfDay_first mn leap Hmn Hleap) as [Hfirst Hrange].
  assert (Hday : Day (MakeDay year month 1 * msPerDay)
                 = DayFromYear ym + daysBeforeMonth mn leap).
  { unfold Day, MakeDay. fold ym mn leap. rewrite Z.div_mul by (unfold msPerDay; lia).
    lia. }
  assert (Hyear : YearFromTime (MakeDay year month 1 * msPerDay) = ym).
  { apply YearFromTime_unique. unfold TimeFromYear. rewrite DayFromYear_next.
    unfold MakeDay. fold ym mn leap.
    pose proof (DaysInYear_pos ym). unfold msPerDay. lia. }
  split; [exact Hyear|].
  assert (Hwithin : DayWithinYear (MakeDay year month 1 * msPerDay)
                    = daysBeforeMonth mn leap)
    by (unfold DayWithinYear; rewrite Hday, Hyear; lia).
  assert (Hin : InLeapYear (MakeDay year month 1 * msPerDay) = leap)
    by (unfold InLeapYear; now rewrite Hyear).
  unfold DateFromTime, MonthFromTime. rewrite Hwithin, Hin, Hfirst. lia.
Qed.

(** 14 November 2023, 22:13:20 UTC; 29 February 2024; the last day of
    1969; and the first day of the year 50. *)
Example calendar_of_known_instants :
  (YearFromTime 1700000000000, MonthFromTime 1700000000000,
   DateFromTime 1700000000000) = (2023, 10, 14)
  /\ (YearFromTime 1709164800000, MonthFromTime 1709164800000,
      DateFromTime 1709164800000) = (2024, 1, 29)
  /\ (YearFromTime (-1), MonthFromTime (-1), DateFromTime (-1)) = (1969, 11, 31)
  /\ MakeDay 50 0 1 = -701265
  /\ MakeDay 1950 0 1 = -7305
  /\ MakeDay 2023 12 1 = MakeDay 2024 0 1.
Proof. repeat split. Qed.

Lemma newDateToday_value tz now h m :
  getFullYear tz now < 0 \/ 99 < getFullYear tz now ->
  newDateToday tz now (Some h) (Some m)
  = TimeClip (UTC tz (localDate tz now * msPerDay + MakeTime h m)).
Proof.
  intros Hyear. unfold newDateToday, newDate.
  replace ((0 <=? getFullYear tz now) && (getFullYear tz now <=? 99)) with false
    by (symmetry; apply andb_false_iff; rewrite Z.leb_gt, Z.leb_gt; lia).
  unfold getFullYear, getMonth, getDate, MakeDate.
  rewrite MakeDay_of_parts. unfold localDate. do 3 f_equal. lia.
Qed.

Lemma setDateNextDay_value tz t :
  setDateNextDay tz (Some t)
  = TimeClip (UTC tz ((localDate tz t + 1) * msPerDay + localClock tz t)).
Proof.
  unfold setDateNextDay, setDate, getDate, MakeDate.
  rewrite MakeDay_of_parts. unfold localDate, localClock. do 4 f_equal. lia.
Qed.

(** ** The row extractor of src/index.js *)

Section ExtractorProperties.

Import IndexJs.

Variable tz : Z.
Variable Number : string -> num.

Lemma rowCallback_yield now row flights :
  rowCallback tz Number now row flights
  = Normal (flights ++ rowYield tz Number now row).
Proof.
  unfold rowCallback, rowYield.
  destruct (length (tds row) =? 6)%nat.
  - destruct (rowBody tz Number now row); simpl; [reflexivity|].
    now rewrite app_nil_r.
  - simpl. now rewrite app_nil_r.
Qed.

Lemma each_yield clock rows : forall i flights,
  each tz Number clock i rows flights
  = Normal (flights ++ rowsYield tz Number clock i rows).
Proof.
  induction rows as [|row rest IH]; intros i flights; simpl.
  - now rewrite app_nil_r.
  - rewrite rowCallback_yield. simpl. rewrite IH. now rewrite <- app_assoc.
Qed.

Lemma extractRows_yield clock rows :
  extractRows tz Number clock rows = Normal (rowsYield tz Number clock 0 rows).
Proof.
  unfold extractRows. destruct rows as [|row rest]; [reflexivity|].
  cbn [length Nat.eqb]. now rewrite each_yield.
Qed.

Lemma in_rowYield now row f :
  In f (rowYield tz Number now row)
  <-> length (tds row) = 6%nat /\ rowBody tz Number now row = Normal f.
Proof.
  unfold rowYield. destruct (Nat.eqb_spec (length (tds row)) 6) as [E|E].
  - destruct (rowBody tz Number now row) as [g|e]; simpl; split.
    + intros [->|[]]. now split.
    + intros [_ H]. injection H as ->. now left.
    + intros [].
    + intros [_ H]. discriminate H.
  - simpl. split; [intros []|]. intros [H _]. contradiction.
Qed.

Lemma in_rowsYield clock rows : forall k f,
  In f (rowsYield tz Number clock k rows)
  <-> exists i row, nth_error rows i = Some row
        /\ length (tds row) = 6%nat
        /\ rowBody tz Number (clock (k + i)%nat) row = Normal f.
Proof.
  induction rows as [|row rest IH]; intros k f; simpl.
  - split; [intros []|]. intros (i & r & H & _). destruct i; discriminate H.
  - rewrite in_app_iff, in_rowYield, IH. split.
    + intros [[H1 H2]|(i & r & H1 & H2 & H3)].
      * exists 0%nat, row. rewrite Nat.add_0_r. now repeat split.
      * exists (S i), r. rewrite Nat.add_succ_r. now repeat split.
    + intros (i & r & H1 & H2 & H3). destruct i as [|i]; simpl in H1.
      * injection H1 as ->. rewrite Nat.add_0_r in H3. left. now split.
      * right. exists i, r. rewrite Nat.add_succ_r in H3. now repeat split.
Qed.

(** C8.  The row extractor never throws, whatever rows the selector found:
    the result holds, in page order, exactly the records of the rows that
    have six cells and whose conversion goes through.  A row with another
    number of cells or with a time that does not convert adds nothing and
    stops nothing, and no rows at all give the empty list. *)
Theorem extractRows_never_throws (clock : nat -> Z) (rows : list Row) :
  exists flights,
    extractRows tz Number clock rows = Normal flights
    /\ flights = rowsYield tz Number clock 0 rows
    /\ (forall f, In f flights
          <-> exists i row, nth_error rows i = Some row
                /\ length (tds row) = 6%nat
                /\ rowBody tz Number (clock i) row = Normal f)
    /\ ((forall i row, nth_error rows i = Some row ->
            length (tds row) <> 6%nat
            \/ isNormal (rowBody tz Number (clock i) row) = false) ->
        flights = []).
Proof.
  exists (rowsYield tz Number clock 0 rows).
  split; [apply extractRows_yield|]. split; [reflexivity|]. split.
  - intros f. apply (in_rowsYield clock rows 0).
  - intros Hall. destruct (rowsYield tz Number clock 0 rows) as [|f l] eqn:E;
      [reflexivity|].
    assert (Hin : In f (rowsYield tz Number clock 0 rows))
      by (rewrite E; now left).
    apply in_rowsYield in Hin. destruct Hin as (i & row & Hnth & Hlen & Hrow).
    destruct (Hall i row Hnth) as [H|H]; [contradiction|].
    simpl in Hrow. rewrite Hrow in H. discriminate H.
Qed.

(** A page with a good row, a row whose time does not read as a number, a
    row with five cells and another good row: the two good rows come out,
    in page order. *)
Example extraction_skips_what_does_not_convert :
  extractRows 10800000 decimalNumber (fun _ => 1700000000000)
    [mkRow ["ArrivalsFlightRow"]
       ["10:00"; "IA220"; "Baghdad"; "Iraqi Airways"; ""; "Landed"];
     mkRow ["DeparturesFlightRow"]
       ["soon"; "TK316"; "Istanbul"; "Turkish Airlines"; ""; "Boarding"];
     mkRow ["DeparturesFlightRow"]
       ["14:15"; "QR441"; "Doha"; "Qatar Airways"; "Delayed"];
     mkRow ["DeparturesFlightRow"]
       ["16:00"; "FZ206"; "Dubai"; "FlyDubai"; ""; "Scheduled"]]
  = Normal [mkFlight "Arrival" 1700031600000 "IA220" "Baghdad" "Iraqi Airways" "Landed";
            mkFlight "Departure" 1700053200000 "FZ206" "Dubai" "FlyDubai" "Scheduled"]
  /\ extractRows 10800000 decimalNumber (fun _ => 1700000000000) [] = Normal [].
Proof. split; reflexivity. Qed.

(** *** Resolving a clock time *)

Lemma TimeClip_in_range t : Z.abs t <= maxTime -> TimeClip t = Some t.
Proof. unfold TimeClip. intros H. apply Z.leb_le in H. now rewrite H. Qed.

Lemma MakeTime_within_day h m :
  0 <= h < 24 -> 0 <= m < 60 -> 0 <= MakeTime h m < msPerDay.
Proof. unfold MakeTime, msPerHour, msPerMinute, msPerDay. lia. Qed.

Lemma local_parts t : LocalTime tz t = localDate tz t * msPerDay + localClock tz t.
Proof.
  unfold localDate, localClock, Day, TimeWithinDay, msPerDay.
  pose proof (Z.div_mod (LocalTime tz t) 86400000). lia.
Qed.

Lemma localClock_range t : 0 <= localClock tz t < msPerDay.
Proof.
  unfold localClock, TimeWithinDay, msPerDay. apply Z.mod_pos_bound. lia.
Qed.

Lemma local_of_parts d c t :
  0 <= c < msPerDay -> LocalTime tz t = d * msPerDay + c ->
  localDate tz t = d /\ localClock tz t = c.
Proof.
  unfold localDate, localClock, Day, TimeWithinDay, msPerDay. intros Hc ->.
  split.
  - symmetry. apply (Z.div_unique _ _ d c); lia.
  - symmetry. apply (Z.mod_unique _ _ d c); lia.
Qed.

Lemma resolveScheduled_value now h m :
  Z.abs tz <= msPerDay -> Z.abs now <= maxTime - 3 * msPerDay ->
  getFullYear tz now < 0 \/ 99 < getFullYear tz now ->
  0 <= h < 24 -> 0 <= m < 60 ->
  resolveScheduled tz now (Some h) (Some m)
  = Some (UTC tz ((localDate tz now
                   + (if MakeTime h m <? localClock tz now then 1 else 0)) * msPerDay
                  + MakeTime h m)).
Proof.
  intros Htz Hnow Hyear Hh Hm.
  pose proof (MakeTime_within_day h m Hh Hm) as Hc.
  pose proof (local_parts now) as Hparts.
  pose proof (localClock_range now) as Hclock.
  unfold resolveScheduled. rewrite (newDateToday_value tz now h m Hyear).
  set (today := UTC tz (localDate tz now * msPerDay + MakeTime h m)).
  assert (Htoday : LocalTime tz today = localDate tz now * msPerDay + MakeTime h m)
    by (unfold today, LocalTime, UTC; lia).
  unfold LocalTime in Hparts. unfold maxTime, msPerDay in *.
  rewrite TimeClip_in_range
    by (unfold maxTime, today, UTC; lia).
  cbn [dateLt].
  assert (Hlt : (today <? now) = (MakeTime h m <? localClock tz now)).
  { unfold today, UTC.
    destruct (Z.ltb_spec (MakeTime h m) (localClock tz now));
      [apply Z.ltb_lt | apply Z.ltb_ge]; lia. }
  rewrite Hlt. destruct (MakeTime h m <? localClock tz now) eqn:E.
  - rewrite setDateNextDay_value.
    destruct (local_of_parts (localDate tz now) (MakeTime h m) today)
      as [-> ->]; [unfold msPerDay; lia | exact Htoday |].
    apply Z.ltb_lt in E.
    rewrite TimeClip_in_range by (unfold maxTime, UTC, msPerDay; lia).
    reflexivity.
  - unfold today. do 3 f_equal. lia.
Qed.


End ExtractorProperties.



Example a_row_of_the_past_hour_is_tomorrow :
  IndexJs.resolveScheduled 10800000 1700000000000
    (decimalNumber "01") (decimalNumber "13")
  = Some (1700000000000 - 20000 + msPerDay)
  /\ IndexJs.resolveScheduled 10800000 1700000000000
       (decimalNumber "01") (decimalNumber "14")
     = Some (1700000000000 + 40000).
Proof. split; reflexivity. Qed.

(** ** The cache and the handler of src/index.js *)

Section IndexCache.

Import IndexJs.

Lemma getCachedFlights_fresh forceRefresh now scrape c :
  updateNeeded forceRefresh now c = false ->
  getCachedFlights forceRefresh now scrape c = (Normal c, c).
Proof.
  intros H. unfold getCachedFlights, getCachedFlights_enter. run_eff.
  now rewrite H.
Qed.

Lemma getCachedFlights_success forceRefresh now flights c :
  updateNeeded forceRefresh now c = true ->
  getCachedFlights forceRefresh now (Normal flights) c
  = (Normal (mkCache flights now false), mkCache flights now false).
Proof.
  intros H.
  unfold getCachedFlights, getCachedFlights_enter, getCachedFlights_update.
  run_eff. now rewrite H.
Qed.

Lemma getCachedFlights_failure forceRefresh now error c :
  updateNeeded forceRefresh now c = true ->
  getCachedFlights forceRefresh now (Throw error) c
  = if (0 <? length (data c))%nat && negb forceRefresh
    then (Normal (set_isStale true c), set_isStale true c)
    else (Throw error, c).
Proof.
  intros H.
  unfold getCachedFlights, getCachedFlights_enter, getCachedFlights_update.
  run_eff. rewrite H.
  now destruct ((0 <? length (data c))%nat && negb forceRefresh).
Qed.

Lemma nonempty_length {A} (l : list A) : l <> [] <-> (0 <? length l)%nat = true.
Proof.
  destruct l; simpl; split; intros H; try congruence; try reflexivity.
  discriminate H.
Qed.

(** C1.  A fetch that fails never touches the cached records or the time of
    the last successful fetch; and when the failed refresh was not forced
    and records are cached, the call returns normally, the copy it returns
    being the cache as it was with the stale flag set. *)
Theorem failed_refresh_keeps_records (forceRefresh : bool) (now : Z)
    (error : string) (c : FlightCache) :
  let after := snd (getCachedFlights forceRefresh now (Throw error) c) in
  data after = data c
  /\ lastFetched after = lastFetched c
  /\ (updateNeeded forceRefresh now c = true -> forceRefresh = false ->
      data c <> [] ->
      getCachedFlights forceRefresh now (Throw error) c = (Normal after, after)
      /\ isStale after = true).
Proof.
  cbv zeta. destruct (updateNeeded forceRefresh now c) eqn:E.
  - rewrite (getCachedFlights_failure _ _ _ _ E).
    destruct ((0 <? length (data c))%nat && negb forceRefresh) eqn:G; simpl.
    + repeat split; reflexivity.
    + split; [reflexivity|]. split; [reflexivity|]. intros _ -> Hne.
      apply nonempty_length in Hne. rewrite Hne in G. discriminate G.
  - rewrite (getCachedFlights_fresh _ _ _ _ E). simpl.
    repeat split; try reflexivity; discriminate.
Qed.

(** Over any sequence of calls, with scrapes succeeding and failing in any
    order, the records in the cache are those of the most recent scrape
    that succeeded. *)
Lemma records_are_the_latest_successful_fetch (calls : list Refresh) :
  data (fst (replay calls)) = snd (replay calls).
Proof.
  unfold replay.
  assert (H : forall st : FlightCache * list Flight,
             data (fst st) = snd st ->
             data (fst (fold_left (fun st k => replayOne k st) calls st))
             = snd (fold_left (fun st k => replayOne k st) calls st)).
  { induction calls as [|k calls IH]; intros [c latest] Hst; simpl in *;
      [exact Hst|].
    apply IH. simpl.
    destruct (updateNeeded (forced k) (calledAt k) c) eqn:E.
    - destruct (settled k) as [flights|error].
      + now rewrite getCachedFlights_success.
      + rewrite getCachedFlights_failure by exact E.
        now destruct (_ && _).
    - now rewrite getCachedFlights_fresh. }
  now apply H.
Qed.

Lemma failed_refresh_keeps_records_witness :
  let c := mkCache [mkFlight "Arrival" 7200000 "IA220" "Baghdad" "Iraqi Airways" "Landed"]
             1000 false in
  getCachedFlights false 1000000 (Throw "timeout") c
  = (Normal (set_isStale true c), set_isStale true c).
Proof.
  cbv zeta.
  match goal with |- getCachedFlights ?f ?n (Throw ?e) ?c = _ =>
    destruct (failed_refresh_keeps_records f n e c) as (_ & _ & H);
    destruct H as [H _]; [reflexivity | reflexivity | discriminate | exact H]
  end.
Defined.

(** C2.  A refresh that fails while no records are cached throws to its
    caller, forced or not, and so does every forced refresh that fails;
    the cache is as before. *)
Theorem failed_refresh_without_records_throws (forceRefresh : bool) (now : Z)
    (error : string) (c : FlightCache) :
  updateNeeded forceRefresh now c = true ->
  data c = [] \/ forceRefresh = true ->
  getCachedFlights forceRefresh now (Throw error) c = (Throw error, c).
Proof.
  intros E H. rewrite (getCachedFlights_failure _ _ _ _ E).
  destruct H as [-> | ->]; simpl; [reflexivity|].
  now rewrite andb_false_r.
Qed.

Lemma failed_refresh_without_records_throws_witness :
  getCachedFlights true 5 (Throw "timeout") flightCache0
  = (Throw "timeout", flightCache0)
  /\ getCachedFlights false 5 (Throw "timeout") flightCache0
     = (Throw "timeout", flightCache0).
Proof.
  split; apply failed_refresh_without_records_throws;
    solve [reflexivity | left; reflexivity].
Defined.

End IndexCache.

Section IndexHandler.

Import IndexJs.

Lemma refresh_is_not_options req :
  isRefreshRequest req = true -> String.eqb (method req) "OPTIONS" = false.
Proof.
  unfold isRefreshRequest. intros H. apply andb_prop in H as [H _].
  apply String.eqb_eq in H. now rewrite H.
Qed.

Lemma flights_is_not_options req :
  isFlightsRequest req = true ->
  String.eqb (method req) "OPTIONS" = false /\ isRefreshRequest req = false.
Proof.
  unfold isFlightsRequest, isRefreshRequest. intros H.
  apply andb_prop in H as [H _]. apply String.eqb_eq in H. now rewrite H.
Qed.

(** What the handler answers to POST /api/flights/refresh. *)
Lemma handler_refresh req now scrape c :
  isRefreshRequest req = true ->
  handler req now scrape c
  = match scrape with
    | Normal flights =>
        (Normal (mkResponse 200
                   (RefreshBody true "Flight data refresh attempted." now)),
         mkCache flights now false)
    | Throw error =>
        (Normal (mkResponse 500
                   (ErrorBody "Internal Server Error"
                      "A critical error occurred while processing the request."
                      (Some error))),
         c)
    end.
Proof.
  intros H. unfold handler. rewrite (refresh_is_not_options _ H), H.
  destruct scrape as [flights|error].
  - unfold tryCatchE, mbind, Eff_bind.
    rewrite getCachedFlights_success by reflexivity. reflexivity.
  - unfold tryCatchE, mbind, Eff_bind.
    rewrite getCachedFlights_failure by reflexivity.
    simpl. now rewrite andb_false_r.
Qed.

(** What the handler answers to GET /api/flights and the two filtered
    routes, in terms of the refresh it runs first. *)
Lemma handler_flights req now scrape c :
  isFlightsRequest req = true ->
  handler req now scrape c
  = match getCachedFlights false now scrape c with
    | (Normal cacheResult, c') =>
        (Normal (mkResponse 200
                   (FlightsBody
                      (sort compareScheduled
                         (fst (selectFlights (path req) (data cacheResult))))
                      (snd (selectFlights (path req) (data cacheResult)))
                      (lastFetched cacheResult)
                      (if isStale cacheResult then "Stale" else "Fresh"))),
         c')
    | (Throw error, c') =>
        (Normal (mkResponse 500
                   (ErrorBody "Internal Server Error"
                      "A critical error occurred while processing the request."
                      (Some error))),
         c')
    end.
Proof.
  intros H. unfold handler.
  destruct (flights_is_not_options _ H) as [-> ->]. rewrite H.
  unfold tryCatchE, mbind, Eff_bind.
  destruct (getCachedFlights false now scrape c) as [[cacheResult|error] c'];
    [|reflexivity].
  now destruct (selectFlights (path req) (data cacheResult)).
Qed.

(** The copy returned by [getCachedFlights] is the cache it leaves. *)
Lemma getCachedFlights_returns_cache forceRefresh now scrape c r c' :
  getCachedFlights forceRefresh now scrape c = (Normal r, c') -> r = c'.
Proof.
  destruct (updateNeeded forceRefresh now c) eqn:E.
  - destruct scrape as [flights|error].
    + rewrite getCachedFlights_success by exact E. congruence.
    + rewrite getCachedFlights_failure by exact E.
      destruct (_ && _); congruence.
  - rewrite getCachedFlights_fresh by exact E. congruence.
Qed.

(** *** Sorting *)

Lemma insertSorted_perm (x : Flight) l :
  Permutation (insertSorted compareScheduled x l) (x :: l).
Proof.
  induction l as [|y l IH]; simpl; [reflexivity|].
  destruct (compareScheduled x y <=? 0); [reflexivity|].
  rewrite IH. apply perm_swap.
Qed.

Lemma sort_perm (l : list Flight) : Permutation (sort compareScheduled l) l.
Proof.
  induction l as [|x l IH]; simpl; [constructor|].
  rewrite insertSorted_perm. now constructor.
Qed.

Lemma insertSorted_sorted x l :
  StronglySorted notLater l ->
  StronglySorted notLater (insertSorted compareScheduled x l).
Proof.
  induction 1 as [|y l Hs IH Hy]; simpl.
  - repeat constructor.
  - unfold compareScheduled at 1.
    destruct (Z.leb_spec (scheduled x - scheduled y) 0) as [Hle|Hgt].
    + constructor; [now constructor|].
      constructor; [unfold notLater; lia|].
      rewrite List.Forall_forall in Hy |- *. intros z Hz.
      specialize (Hy z Hz). unfold notLater in *. lia.
    + constructor; [exact IH|].
      rewrite List.Forall_forall in Hy |- *. intros z Hz.
      apply (Permutation_in _ (insertSorted_perm x l)) in Hz.
      destruct Hz as [<-|Hz]; [unfold notLater; lia | now apply Hy].
Qed.

Lemma sort_sorted (l : list Flight) :
  StronglySorted notLater (sort compareScheduled l).
Proof.
  induction l as [|x l IH]; simpl; [constructor|].
  now apply insertSorted_sorted.
Qed.

End IndexHandler.

Section IndexResponses.

Import IndexJs.




Lemma selectFlights_routes (l : list Flight) :
  selectFlights "/api/flights" l = (l, "all")
  /\ selectFlights "/api/flights/arrivals" l = (List.filter isArrival l, "arrivals")
  /\ selectFlights "/api/flights/departures" l
     = (List.filter isDeparture l, "departures").
Proof. repeat split. Qed.

(** C4.  Every list of flights the handler sends is in non-decreasing order
    of [scheduled]: it is the route's selection from the cache (all of it,
    the arrivals, the departures), sorted after the selection was made.  A
    list is sent whenever the refresh before it does not throw. *)
Theorem flights_response_is_sorted (req : Request) (now : Z)
    (scrape : completion (list Flight)) (c : FlightCache) :
  isFlightsRequest req = true ->
  let answer := fst (handler req now scrape c) in
  let c' := snd (handler req now scrape c) in
  (forall r flights type lastFetched cacheStatus,
      answer = Normal r ->
      body r = FlightsBody flights type lastFetched cacheStatus ->
      statusCode r = 200
      /\ flights = sort compareScheduled (fst (selectFlights (path req) (data c')))
      /\ StronglySorted notLater flights
      /\ Permutation flights (fst (selectFlights (path req) (data c'))))
  /\ (isNormal scrape = true \/ data c <> [] \/ updateNeeded false now c = false ->
      exists flights type lastFetched cacheStatus,
        answer = Normal (mkResponse 200
                           (FlightsBody flights type lastFetched cacheStatus))).
Proof.
  intros H. cbv zeta. rewrite (handler_flights _ _ _ _ H).
  destruct (getCachedFlights false now scrape c) as [[r0|error] c'] eqn:E.
  - apply getCachedFlights_returns_cache in E as ->. simpl. split.
    + intros r flights ty lf cs [= <-]. simpl. intros [= <- _ _ _].
      split; [reflexivity|]. split; [reflexivity|].
      split; [apply sort_sorted | apply sort_perm].
    + intros _. now repeat eexists.
  - simpl. split.
    + intros r flights ty lf cs [= <-]. simpl. discriminate.
    + intros Hok. exfalso.
      destruct (updateNeeded false now c) eqn:U.
      * destruct scrape as [fl|err].
        -- rewrite getCachedFlights_success in E by exact U. discriminate E.
        -- rewrite getCachedFlights_failure in E by exact U.
           destruct Hok as [Hok|[Hok|Hok]]; try discriminate Hok.
           apply nonempty_length in Hok. rewrite Hok in E. discriminate E.
      * rewrite getCachedFlights_fresh in E by exact U. discriminate E.
Qed.

Example arrivals_come_out_in_order :
  fst (handler (mkRequest "GET" "/api/flights/arrivals") 1000
         (Normal [mkFlight "Arrival" 9000 "QR441" "Doha" "Qatar Airways" "Delayed";
                  mkFlight "Departure" 8000 "TK316" "Istanbul" "Turkish Airlines" "Boarding";
                  mkFlight "Arrival" 7000 "IA220" "Baghdad" "Iraqi Airways" "Landed"])
         flightCache0)
  = Normal (mkResponse 200
              (FlightsBody
                 [mkFlight "Arrival" 7000 "IA220" "Baghdad" "Iraqi Airways" "Landed";
                  mkFlight "Arrival" 9000 "QR441" "Doha" "Qatar Airways" "Delayed"]
                 "arrivals" 1000 "Fresh")).
Proof. reflexivity. Qed.

Lemma flights_response_is_sorted_witness :
  exists flights type lastFetched cacheStatus,
    fst (handler (mkRequest "GET" "/api/flights/arrivals") 1000
           (Normal [mkFlight "Arrival" 9000 "QR441" "Doha" "Qatar Airways" "Delayed";
                    mkFlight "Departure" 8000 "TK316" "Istanbul" "Turkish Airlines" "Boarding";
                    mkFlight "Arrival" 7000 "IA220" "Baghdad" "Iraqi Airways" "Landed"])
           flightCache0)
    = Normal (mkResponse 200 (FlightsBody flights type lastFetched cacheStatus)).
Proof.
  apply (flights_response_is_sorted (mkRequest "GET" "/api/flights/arrivals") 1000).
  - reflexivity.
  - left. reflexivity.
Defined.

End IndexResponses.

(** ** Arrivals and departures *)

Section Partition.

Context {A : Type} (p q : A -> bool).

Lemma filters_perm (l : list A) :
  Forall (fun x => xorb (p x) (q x) = true) l ->
  Permutation (List.filter p l ++ List.filter q l) l.
Proof.
  induction 1 as [|x l Hx _ IH]; simpl; [constructor|].
  destruct (p x), (q x); try discriminate Hx; simpl.
  - now constructor.
  - symmetry. etransitivity; [|apply Permutation_middle].
    constructor. now symmetry.
Qed.

Lemma filters_partition (l : list A) :
  Forall (fun x => xorb (p x) (q x) = true) l
  <-> partitions (List.filter p l) (List.filter q l) l.
Proof.
  split.
  - intros H. split; [now apply filters_perm|].
    intros x Hx. rewrite !List.filter_In.
    rewrite List.Forall_forall in H. specialize (H x Hx).
    destruct (p x), (q x); try discriminate H.
    + left. split; [now split | intros [_ F]; discriminate F].
    + right. split; [intros [_ F]; discriminate F | now split].
  - intros [_ H]. rewrite List.Forall_forall. intros x Hx.
    destruct (H x Hx) as [[H1 H2]|[H1 H2]];
      rewrite !List.filter_In in H1, H2;
      destruct (p x), (q x); try reflexivity; exfalso; tauto.
Qed.

End Partition.

Section IndexTypes.

Import IndexJs.

Variable tz : Z.
Variable Number : string -> num.

Lemma rowBody_wellTyped now row f :
  rowBody tz Number now row = Normal f -> wellTyped f.
Proof.
  unfold rowBody.
  destruct (toISOString _) as [iso|e]; simpl; [|discriminate].
  intros [= <-]. unfold wellTyped. simpl.
  destruct (hasClass row "ArrivalsFlightRow"); [now left | now right].
Qed.

Lemma scrapeFlights_wellTyped clock response flights :
  scrapeFlights tz Number clock response = Normal flights ->
  Forall wellTyped flights.
Proof.
  unfold scrapeFlights. destruct response as [rows|e]; simpl; [|discriminate].
  rewrite extractRows_yield. simpl. intros [= <-].
  rewrite List.Forall_forall. intros f Hf.
  apply in_rowsYield in Hf as (i & row & _ & _ & Hf).
  now apply rowBody_wellTyped in Hf.
Qed.

Lemma getCachedFlights_wellTyped forceRefresh now scrape c :
  (forall flights, scrape = Normal flights -> Forall wellTyped flights) ->
  Forall wellTyped (data c) ->
  Forall wellTyped (data (snd (getCachedFlights forceRefresh now scrape c))).
Proof.
  intros Hs Hc. destruct (updateNeeded forceRefresh now c) eqn:E.
  - destruct scrape as [flights|error].
    + rewrite getCachedFlights_success by exact E. simpl. now apply Hs.
    + rewrite getCachedFlights_failure by exact E.
      now destruct (_ && _).
  - now rewrite getCachedFlights_fresh by exact E.
Qed.

(** The handler touches the cache only through [getCachedFlights]. *)
Lemma handler_cache req now scrape c :
  snd (handler req now scrape c) = c
  \/ exists forceRefresh,
       snd (handler req now scrape c)
       = snd (getCachedFlights forceRefresh now scrape c).
Proof.
  unfold handler. destruct (String.eqb (method req) "OPTIONS"); [now left|].
  destruct (isRefreshRequest req).
  - right. exists true. unfold tryCatchE, mbind, Eff_bind.
    now destruct (getCachedFlights true now scrape c) as [[r|e] c'].
  - destruct (isFlightsRequest req); [|now left].
    right. exists false. unfold tryCatchE, mbind, Eff_bind.
    destruct (getCachedFlights false now scrape c) as [[r|e] c']; [|reflexivity].
    now destruct (selectFlights (path req) (data r)).
Qed.

Lemma reachable_wellTyped c :
  reachable tz Number c -> Forall wellTyped (data c).
Proof.
  induction 1 as [|c req now clock response _ IH]; [constructor|].
  destruct (handler_cache req now (scrapeFlights tz Number clock response) c)
    as [->|[forceRefresh ->]]; [exact IH|].
  apply getCachedFlights_wellTyped; [|exact IH].
  intros flights. apply scrapeFlights_wellTyped.
Qed.

Lemma wellTyped_one_kind f :
  wellTyped f -> xorb (isArrival f) (isDeparture f) = true.
Proof. unfold isArrival, isDeparture. now intros [-> | ->]. Qed.

End IndexTypes.

(** C5, as the code has it.  In src/index.js, where a record's [type] comes
    from the class of its row, the arrivals and the departures split every
    list the cache can hold.  In src/flights.js, where the two filters look
    for keywords in the status text, they split a list exactly when every
    status in it names one kind and not the other. *)
Theorem filters_partition_unambiguous_records :
  (forall tz Number c,
      IndexJs.reachable tz Number c ->
      partitions (List.filter IndexJs.isArrival (IndexJs.data c))
                 (List.filter IndexJs.isDeparture (IndexJs.data c))
                 (IndexJs.data c))
  /\ (forall l,
        Forall FlightsJs.unambiguous l
        <-> partitions (FlightsJs.arrivals l) (FlightsJs.departures l) l).
Proof.
  split.
  - intros tz Number c H. apply filters_partition.
    apply reachable_wellTyped in H. revert H. apply List.Forall_impl.
    apply wellTyped_one_kind.
  - intros l. apply filters_partition.
Qed.

Lemma filters_partition_unambiguous_records_witness :
  partitions
    (List.filter IndexJs.isArrival
       (IndexJs.data
          (snd (IndexJs.handler (IndexJs.mkRequest "GET" "/api/flights") 1000
                  (IndexJs.scrapeFlights 0 (fun _ => Some 7) (fun _ => 1000)
                     (Normal [IndexJs.mkRow ["ArrivalsFlightRow"]
                                ["07:07"; "IA220"; "Baghdad"; "Iraqi Airways"; ""; "Landed"];
                              IndexJs.mkRow ["DeparturesFlightRow"]
                                ["07:07"; "TK316"; "Istanbul"; "Turkish Airlines"; ""; "Boarding"]]))
                  IndexJs.flightCache0))))
    (List.filter IndexJs.isDeparture
       (IndexJs.data
          (snd (IndexJs.handler (IndexJs.mkRequest "GET" "/api/flights") 1000
                  (IndexJs.scrapeFlights 0 (fun _ => Some 7) (fun _ => 1000)
                     (Normal [IndexJs.mkRow ["ArrivalsFlightRow"]
                                ["07:07"; "IA220"; "Baghdad"; "Iraqi Airways"; ""; "Landed"];
                              IndexJs.mkRow ["DeparturesFlightRow"]
                                ["07:07"; "TK316"; "Istanbul"; "Turkish Airlines"; ""; "Boarding"]]))
                  IndexJs.flightCache0))))
    (IndexJs.data
       (snd (IndexJs.handler (IndexJs.mkRequest "GET" "/api/flights") 1000
               (IndexJs.scrapeFlights 0 (fun _ => Some 7) (fun _ => 1000)
                  (Normal [IndexJs.mkRow ["ArrivalsFlightRow"]
                             ["07:07"; "IA220"; "Baghdad"; "Iraqi Airways"; ""; "Landed"];
                           IndexJs.mkRow ["DeparturesFlightRow"]
                             ["07:07"; "TK316"; "Istanbul"; "Turkish Airlines"; ""; "Boarding"]]))
               IndexJs.flightCache0)))
  /\ partitions
       (FlightsJs.arrivals
          [FlightsJs.mkFlight "10:00" "Baghdad" "IA220" "Iraqi Airways" "Landed";
           FlightsJs.mkFlight "16:00" "Dubai" "FZ206" "FlyDubai" "Scheduled"])
       (FlightsJs.departures
          [FlightsJs.mkFlight "10:00" "Baghdad" "IA220" "Iraqi Airways" "Landed";
           FlightsJs.mkFlight "16:00" "Dubai" "FZ206" "FlyDubai" "Scheduled"])
       [FlightsJs.mkFlight "10:00" "Baghdad" "IA220" "Iraqi Airways" "Landed";
        FlightsJs.mkFlight "16:00" "Dubai" "FZ206" "FlyDubai" "Scheduled"].
Proof.
  split.
  - apply (proj1 filters_partition_unambiguous_records 0 (fun _ => Some 7)).
    apply IndexJs.reachable_request. apply IndexJs.reachable_start.
  - apply (proj2 filters_partition_unambiguous_records).
    repeat constructor.
Defined.

(** The claim as written fails in src/flights.js: after a scrape of a page
    with a delayed flight and with a landed flight whose next departure is
    scheduled, the first is in neither filtered list and the second is in
    both. *)
Lemma keyword_filters_do_not_partition :
  let page := [["11:30"; "Doha"; "QR441"; "Qatar Airways"; "Delayed"];
               ["10:00"; "Baghdad"; "IA220"; "Iraqi Airways";
                "Landed - departure scheduled 12:00"]] in
  let cached :=
    FlightsJs.flights
      (snd (FlightsJs.handler (FlightsJs.mkRequest "GET" "/api/flights") 1000 1001
              (Normal page) FlightsJs.flightDataCache0)) in
  cached = [FlightsJs.mkFlight "11:30" "Doha" "QR441" "Qatar Airways" "Delayed";
            FlightsJs.mkFlight "10:00" "Baghdad" "IA220" "Iraqi Airways"
              "Landed - departure scheduled 12:00"]
  /\ FlightsJs.arrivals cached
     = [FlightsJs.mkFlight "10:00" "Baghdad" "IA220" "Iraqi Airways"
          "Landed - departure scheduled 12:00"]
  /\ FlightsJs.departures cached
     = [FlightsJs.mkFlight "10:00" "Baghdad" "IA220" "Iraqi Airways"
          "Landed - departure scheduled 12:00"]
  /\ ~ partitions (FlightsJs.arrivals cached) (FlightsJs.departures cached) cached.
Proof.
  cbv zeta. split; [reflexivity|]. split; [reflexivity|]. split; [reflexivity|].
  intros [_ H].
  destruct (H (FlightsJs.mkFlight "11:30" "Doha" "QR441" "Qatar Airways" "Delayed"))
    as [[F _]|[_ F]]; [now left | | ]; vm_compute in F;
    destruct F as [F|[]]; discriminate F.
Qed.

(** ** src/unnamed/part_000: the guard and the sample data *)

Section CronServer.

Import ServerCron.

Lemma enter_idle s :
  isFetching s = false ->
  fetchFlights_enter s = (Normal true, set_isFetching true s).
Proof. intros H. unfold fetchFlights_enter. run_eff. now rewrite H. Qed.

Lemma enter_busy s :
  isFetching s = true -> fetchFlights_enter s = (Normal false, s).
Proof. intros H. unfold fetchFlights_enter. run_eff. now rewrite H. Qed.

Lemma sampleIfEmpty_normal clock s :
  sampleIfEmpty clock s
  = (Normal tt,
     if (length (flightData s) =? 0)%nat
     then set_flightData (getSampleData (sampleAt clock)) s else s).
Proof.
  unfold sampleIfEmpty. run_eff. now destruct (length (flightData s) =? 0)%nat.
Qed.

(** What the stretch after the [await] leaves, case by case. *)
Lemma resume_result clock response s :
  fetchFlights_resume clock response s
  = (Normal tt,
     set_isFetching false
       (if fetchedNothing clock response then
          if (length (flightData s) =? 0)%nat
          then set_flightData (getSampleData (sampleAt clock)) s else s
        else match response with
             | Normal page =>
                 set_lastFetched (Some (fetchedAt clock))
                   (set_flightData (scrapedFlights clock page) s)
             | Throw _ => s
             end)).
Proof.
  unfold fetchFlights_resume, tryFinally, tryCatchE, fetchedNothing.
  destruct response as [page|error].
  - unfold mbind at 1. unfold Eff_bind, await.
    destruct (scrapedFlights clock page) as [|f l] eqn:E; cbn [length Nat.ltb Nat.leb Nat.eqb].
    + now rewrite sampleIfEmpty_normal.
    + reflexivity.
  - unfold mbind, Eff_bind, await. now rewrite sampleIfEmpty_normal.
Qed.

Lemma resume_resets_flag clock response s :
  fst (fetchFlights_resume clock response s) = Normal tt
  /\ isFetching (snd (fetchFlights_resume clock response s)) = false.
Proof. now rewrite resume_result. Qed.

Lemma step_guarded e sys sys' :
  guarded sys -> step e sys = Some sys' -> guarded sys'.
Proof.
  unfold guarded. intros G. destruct e as [|clock response|route]; simpl.
  - destruct (isFetching (state sys)) eqn:F.
    + rewrite enter_busy by exact F. intros [= <-]. simpl. now rewrite F.
    + rewrite enter_idle by exact F. intros [= <-]. simpl. now rewrite G.
  - destruct (pending sys) as [|n] eqn:P; [discriminate|]. intros [= <-].
    cbn [pending state]. rewrite (proj2 (resume_resets_flag _ _ _)).
    destruct (isFetching (state sys)); congruence.
  - now intros [= <-].
Qed.

Lemma run_guarded events : forall sys sys',
  guarded sys -> run events sys = Some sys' -> guarded sys'.
Proof.
  induction events as [|e rest IH]; intros sys sys' G; simpl.
  - now intros [= <-].
  - destruct (step e sys) as [sys1|] eqn:E; [|discriminate].
    apply IH. now apply (step_guarded e sys).
Qed.

Lemma invoke_while_fetching sys :
  isFetching (state sys) = true -> step Invoke sys = Some sys.
Proof. intros F. simpl. rewrite enter_busy by exact F. now destruct sys. Qed.

Lemma invokes_while_fetching n sys :
  isFetching (state sys) = true -> run (repeat Invoke n) sys = Some sys.
Proof.
  intros F. induction n as [|n IH]; simpl; [reflexivity|].
  rewrite enter_busy by exact F. destruct sys; simpl in *. exact IH.
Qed.

(** C7, as the code has it.  At most one request to the airport site is out
    at any time.  A call of [fetchFlights] made while the flag is set
    starts nothing and changes nothing; the stretch after the [await]
    always ends normally with the flag reset, whether the request failed or
    not; so calls of [fetchFlights] that overlap, however many, put out
    exactly one request between them.  The read routes never call
    [fetchFlights]. *)
Theorem at_most_one_fetch_in_progress :
  (forall sys, isFetching (state sys) = true -> step Invoke sys = Some sys)
  /\ (forall clock response s,
        fst (fetchFlights_resume clock response s) = Normal tt
        /\ isFetching (snd (fetchFlights_resume clock response s)) = false)
  /\ (forall events sys,
        run events system0 = Some sys ->
        (pending sys <= 1)%nat
        /\ (isFetching (state sys) = true <-> pending sys = 1%nat))
  /\ (forall n sys,
        isFetching (state sys) = false ->
        exists sys',
          run (repeat Invoke (S n)) sys = Some sys'
          /\ issued sys' = S (issued sys)
          /\ pending sys' = S (pending sys)
          /\ state sys' = set_isFetching true (state sys))
  /\ (forall route sys, step (Read route) sys = Some sys).
Proof.
  split; [exact invoke_while_fetching|].
  split; [exact resume_resets_flag|].
  split; [|split].
  - intros events sys R.
    assert (G : guarded sys) by (apply (run_guarded events system0); [reflexivity|exact R]).
    unfold guarded in G. rewrite G.
    destruct (isFetching (state sys)); split; try lia; split; congruence.
  - intros n sys F. eexists. cbn [repeat run step].
    rewrite enter_idle by exact F.
    rewrite invokes_while_fetching by reflexivity.
    repeat split; reflexivity.
  - reflexivity.
Qed.

Lemma at_most_one_fetch_in_progress_witness :
  (exists sys',
      run [Invoke; Invoke] system0 = Some sys'
      /\ issued sys' = 1%nat /\ pending sys' = 1%nat
      /\ state sys' = set_isFetching true state0)
  /\ (exists sys,
        run [Invoke; Invoke; Settle (standing 1000) (Throw "timeout"); Invoke; Invoke]
          system0
        = Some sys
        /\ issued sys = 2%nat
        /\ (pending sys <= 1)%nat
        /\ (isFetching (state sys) = true <-> pending sys = 1%nat)).
Proof.
  split.
  - apply (proj1 (proj2 (proj2 (proj2 at_most_one_fetch_in_progress))) 1%nat system0).
    reflexivity.
  - eexists. split; [reflexivity|]. split; [reflexivity|].
    apply (proj1 (proj2 (proj2 at_most_one_fetch_in_progress))
             [Invoke; Invoke; Settle (standing 1000) (Throw "timeout"); Invoke;
              Invoke]).
    reflexivity.
Defined.

(** The last clause of the claim as written fails.  In part_000 reads never
    fetch: two reads put out no request, however old the data.  In
    src/index.js, where a read of an expired cache does fetch, there is no
    guard: two reads that overlap call the scraper twice. *)
Lemma two_reads_are_not_one_fetch :
  (exists sys,
      run [Read AllFlights; Read AllFlights] system0 = Some sys
      /\ issued sys = 0%nat)
  /\ (exists sys,
        IndexJs.run [IndexJs.Call false 1000000; IndexJs.Call false 1000001]
          (IndexJs.mkSystem (IndexJs.mkCache [] 1000 false) [] 0) = Some sys
        /\ IndexJs.updateNeeded false 1000000 (IndexJs.mkCache [] 1000 false) = true
        /\ IndexJs.scrapes sys = 2%nat).
Proof. split; eexists; repeat split. Qed.

Lemma length_nonempty {A} (l : list A) : l <> [] -> (length l =? 0)%nat = false.
Proof. destruct l; [congruence | reflexivity]. Qed.

(** C10.  When an attempt of [fetchFlights] brings nothing - the request
    fails or no row parses - and no flights are held, the four sample
    records become the data: every read route then answers 'OK' with
    sample records only, and [lastFetched] stays as it was.  When flights
    are held, an attempt that brings nothing leaves them as they are. *)
Theorem sample_data_fills_empty_cache (clock : Clock) (response : completion Page)
    (s : State) :
  isFetching s = false ->
  fetchedNothing clock response = true ->
  let s' := snd (fetchFlights clock response s) in
  lastFetched s' = lastFetched s
  /\ isFetching s' = false
  /\ (flightData s = [] ->
      flightData s' = getSampleData (sampleAt clock)
      /\ length (flightData s') = 4%nat
      /\ forall route,
           responseStatus (get route s') = "OK"
           /\ flights (get route s') <> []
           /\ incl (flights (get route s')) (getSampleData (sampleAt clock)))
  /\ (flightData s <> [] -> flightData s' = flightData s).
Proof.
  intros F N. cbv zeta. unfold fetchFlights, mbind, Eff_bind.
  rewrite enter_idle by exact F. rewrite resume_result, N. cbn [snd].
  change (flightData (set_isFetching true s)) with (flightData s).
  split; [now destruct (length (flightData s) =? 0)%nat|].
  split; [reflexivity|]. split.
  - intros E. rewrite E. cbn [length Nat.eqb].
    split; [reflexivity|]. split; [reflexivity|].
    intros route. unfold get. cbn [flightData set_isFetching set_flightData].
    destruct route; (split; [reflexivity|]); (split; [discriminate|]);
      cbn; intros f Hf; unfold getSampleData; simpl in *; tauto.
  - intros E. rewrite (length_nonempty _ E). reflexivity.
Qed.

Lemma sample_data_fills_empty_cache_witness :
  flightData (snd (fetchFlights (standing 1000) (Throw "timeout") state0))
  = getSampleData (fun _ => 1000)
  /\ flightData (snd (fetchFlights (standing 1000)
                        (Normal (mkPage [["not a"; "data row"]] [])) state0))
     = getSampleData (fun _ => 1000).
Proof.
  split.
  - apply (sample_data_fills_empty_cache (standing 1000) (Throw "timeout") state0);
      reflexivity.
  - apply (sample_data_fills_empty_cache (standing 1000)
             (Normal (mkPage [["not a"; "data row"]] [])) state0);
      reflexivity.
Defined.

End CronServer.

(** ** The copy returned by [getCachedFlights] (src/index.js, line 116) *)

Section Isolation.

Import IndexJs IndexHeap.

(** *** A value read depends on the objects of its footprint only *)

Lemma readFlights_agree (h1 h2 : heap) ls :
  (forall l, In l ls -> h2 !! l = h1 !! l) ->
  readFlights h2 ls = readFlights h1 ls.
Proof.
  induction ls as [|l ls IH]; intros H; simpl; [reflexivity|].
  unfold readFlight. rewrite (H l) by now left.
  rewrite IH; [reflexivity|]. intros l' Hl'. apply H. now right.
Qed.

Lemma readCache_agree (h1 h2 : heap) r c :
  readCache h1 r = Some c ->
  (forall l, In l (footprint h1 r) -> h2 !! l = h1 !! l) ->
  readCache h2 r = Some c /\ footprint h2 r = footprint h1 r.
Proof.
  unfold readCache, footprint, readArray. intros Hr H.
  destruct (h1 !! r) as [[|?|d lf st]|] eqn:E1; try discriminate Hr.
  assert (E2 : h2 !! r = Some (OCache d lf st))
    by (rewrite <- E1; apply H; now left).
  rewrite E2.
  destruct (h1 !! d) as [[|elems|]|] eqn:D1; try discriminate Hr.
  assert (D2 : h2 !! d = Some (OArray elems))
    by (rewrite <- D1; apply H; right; now left).
  rewrite D2. split; [|reflexivity].
  rewrite (readFlights_agree h1 h2); [exact Hr|].
  intros l Hl. apply H. now do 2 right.
Qed.

Lemma readFlights_allocated (h : heap) ls fs :
  readFlights h ls = Some fs -> forall l, In l ls -> (l < length h)%nat.
Proof.
  revert fs. induction ls as [|l0 ls IH]; intros fs Hr l; simpl; [intros []|].
  simpl in Hr. unfold readFlight in Hr.
  destruct (h !! l0) as [[f| |]|] eqn:E; try discriminate Hr.
  destruct (readFlights h ls) as [fs'|] eqn:R; [|discriminate Hr].
  intros [<-|Hl]; [now apply lookup_lt_Some in E | now apply (IH fs')].
Qed.

Lemma footprint_allocated (h : heap) r c :
  readCache h r = Some c -> forall l, In l (footprint h r) -> (l < length h)%nat.
Proof.
  unfold readCache, footprint, readArray. intros Hr.
  destruct (h !! r) as [[|?|d lf st]|] eqn:E1; try discriminate Hr.
  destruct (h !! d) as [[|elems|]|] eqn:D1; try discriminate Hr.
  destruct (readFlights h elems) as [fs|] eqn:R; [|discriminate Hr].
  intros l [<-|[<-|Hl]].
  - now apply lookup_lt_Some in E1.
  - now apply lookup_lt_Some in D1.
  - now apply (readFlights_allocated h elems fs).
Qed.

Lemma readFlights_length (h : heap) ls fs :
  readFlights h ls = Some fs -> length ls = length fs.
Proof.
  revert fs. induction ls as [|l ls IH]; intros fs; simpl.
  - now intros [= <-].
  - destruct (readFlight h l); [|discriminate].
    destruct (readFlights h ls) as [fs'|]; [|discriminate].
    intros [= <-]. simpl. f_equal. now apply IH.
Qed.

(** One mutation that spares the footprint leaves the value. *)
Lemma mutate_frame (h : heap) r c m :
  readCache h r = Some c -> spares (footprint h r) m ->
  readCache (mutate h m) r = Some c /\ footprint (mutate h m) r = footprint h r.
Proof.
  intros Hr Hm. apply readCache_agree; [exact Hr|]. intros l Hl.
  destruct m as [o|l' o]; simpl in *.
  - apply lookup_app_l. now apply (footprint_allocated h r c).
  - apply list_lookup_insert_ne. intros ->. contradiction.
Qed.

Lemma mutations_frame ms : forall (h : heap) r c,
  readCache h r = Some c -> Forall (spares (footprint h r)) ms ->
  readCache (fold_left mutate ms h) r = Some c
  /\ footprint (fold_left mutate ms h) r = footprint h r.
Proof.
  induction ms as [|m ms IH]; intros h r c Hr Hms; simpl; [now split|].
  apply List.Forall_cons_iff in Hms as [Hm Hms].
  destruct (mutate_frame h r c m Hr Hm) as [Hr' Hf'].
  destruct (IH (mutate h m) r c Hr') as [H1 H2]; [now rewrite Hf'|].
  split; [exact H1 | congruence].
Qed.

(** *** Creating the objects of a copy *)

Lemma newFlights_result fs : forall h : heap,
  newFlights fs h = (Normal (seq (length h) (length fs)), h ++ map OFlight fs).
Proof.
  induction fs as [|f fs IH]; intros h; simpl.
  - unfold mret, Eff_ret. now rewrite app_nil_r.
  - unfold mbind, Eff_bind, new. rewrite IH. unfold mret, Eff_ret.
    rewrite length_app, Nat.add_1_r. now rewrite <- app_assoc.
Qed.

Lemma parse_result c (h : heap) :
  parse c h = (Normal (copyOf c h), copied c h).
Proof.
  unfold parse, newArray, mbind, Eff_bind, new. rewrite newFlights_result.
  unfold copyOf, copied. rewrite !length_app, length_map. simpl.
  rewrite Nat.add_1_r. now rewrite <- !app_assoc.
Qed.

Lemma readFlights_created fs : forall (h ext : heap),
  readFlights (h ++ map OFlight fs ++ ext) (seq (length h) (length fs)) = Some fs.
Proof.
  induction fs as [|f fs IH]; intros h ext; [reflexivity|].
  cbn [map length seq readFlights app]. unfold readFlight.
  rewrite list_lookup_middle by reflexivity.
  specialize (IH (h ++ [OFlight f]) ext).
  rewrite length_app, Nat.add_1_r, <- app_assoc in IH.
  cbn [app] in IH. now rewrite IH.
Qed.

Lemma copied_lookups c (h : heap) :
  copied c h !! copyOf c h
  = Some (OCache (length h + length (data c))%nat (lastFetched c) (isStale c))
  /\ copied c h !! (length h + length (data c))%nat
     = Some (OArray (seq (length h) (length (data c)))).
Proof.
  unfold copied, copyOf. split.
  - rewrite app_assoc.
    replace (S (length h + length (data c)))
      with (length (h ++ map OFlight (data c)) + 1)%nat
      by (rewrite length_app, length_map; lia).
    now rewrite lookup_app_r, Nat.add_comm, Nat.add_sub by lia.
  - rewrite app_assoc. apply list_lookup_middle.
    now rewrite length_app, length_map.
Qed.

(** The copy reads as the value copied, and is made of new objects only. *)
Lemma copied_read c (h : heap) :
  readCache (copied c h) (copyOf c h) = Some c
  /\ footprint (copied c h) (copyOf c h)
     = copyOf c h :: (length h + length (data c))%nat
         :: seq (length h) (length (data c)).
Proof.
  destruct (copied_lookups c h) as [H1 H2].
  unfold readCache, footprint, readArray. rewrite H1, H2. split; [|reflexivity].
  unfold copied. rewrite readFlights_created. now destruct c.
Qed.

Lemma copied_fresh c (h : heap) l :
  In l (footprint (copied c h) (copyOf c h)) -> (length h <= l)%nat.
Proof.
  rewrite (proj2 (copied_read c h)). unfold copyOf.
  intros [<-|[<-|Hl]]; try lia. apply in_seq in Hl. lia.
Qed.

(** What was there before the copy still reads the same. *)
Lemma copied_keeps c (h : heap) r v :
  readCache h r = Some v ->
  readCache (copied c h) r = Some v
  /\ footprint (copied c h) r = footprint h r.
Proof.
  intros Hr. apply readCache_agree; [exact Hr|]. intros l Hl.
  unfold copied. apply lookup_app_l. now apply (footprint_allocated h r v).
Qed.

Lemma deepCopy_result (h : heap) r c :
  readCache h r = Some c ->
  deepCopy r h = (Normal (copyOf c h), copied c h).
Proof.
  intros Hr. unfold deepCopy, mbind, Eff_bind, getState. rewrite Hr.
  apply parse_result.
Qed.

(** *** Assigning to the cache object *)

Lemma readCache_inv (h : heap) r c :
  readCache h r = Some c ->
  exists d elems,
    h !! r = Some (OCache d (lastFetched c) (isStale c))
    /\ h !! d = Some (OArray elems)
    /\ readFlights h elems = Some (data c).
Proof.
  unfold readCache, readArray. intros Hr.
  destruct (h !! r) as [[|?|d lf st]|]; try discriminate Hr.
  destruct (h !! d) as [[|elems|]|] eqn:D; try discriminate Hr.
  destruct (readFlights h elems) as [fs|] eqn:R; [|discriminate Hr].
  injection Hr as <-. now exists d, elems.
Qed.

Lemma readFlights_objects (h : heap) ls fs :
  readFlights h ls = Some fs ->
  forall l, In l ls -> exists f, h !! l = Some (OFlight f).
Proof.
  revert fs. induction ls as [|l0 ls IH]; intros fs Hr l; simpl; [intros []|].
  simpl in Hr. unfold readFlight in Hr.
  destruct (h !! l0) as [[f| |]|] eqn:E; try discriminate Hr.
  destruct (readFlights h ls) as [fs'|] eqn:R; [|discriminate Hr].
  intros [<-|Hl]; [now exists f | now apply (IH fs')].
Qed.

Lemma store_cache_read (h : heap) root d0 lf0 st0 arr elems fs lf st :
  h !! root = Some (OCache d0 lf0 st0) -> h !! arr = Some (OArray elems) ->
  readFlights h elems = Some fs ->
  readCache (<[root := OCache arr lf st]> h) root = Some (mkCache fs lf st).
Proof.
  intros Hroot Harr Hfs.
  unfold readCache, readArray.
  rewrite list_lookup_insert_eq by now apply lookup_lt_Some in Hroot.
  rewrite list_lookup_insert_ne by (intros ->; congruence).
  rewrite Harr.
  rewrite (readFlights_agree h); [now rewrite Hfs|].
  intros l Hl. apply list_lookup_insert_ne. intros ->.
  destruct (readFlights_objects h elems fs Hfs l Hl) as [f Hf]. congruence.
Qed.

(** Objects created and the cache object assigned to: what does not hold
    the cache object reads as before. *)
Lemma assign_root_frame (h ext : heap) root o r v :
  readCache h r = Some v -> ~ In root (footprint h r) ->
  readCache (<[root := o]> (h ++ ext)) r = Some v
  /\ footprint (<[root := o]> (h ++ ext)) r = footprint h r.
Proof.
  intros Hr Hroot. apply readCache_agree; [exact Hr|]. intros l Hl.
  rewrite list_lookup_insert_ne by (intros ->; contradiction).
  apply lookup_app_l. now apply (footprint_allocated h r v).
Qed.

Lemma loadCache_result (h : heap) l d lf st :
  h !! l = Some (OCache d lf st) -> loadCache l h = (Normal (d, lf, st), h).
Proof. intros H. unfold loadCache. now rewrite H. Qed.

Lemma setData_result (h : heap) l d lf st v :
  h !! l = Some (OCache d lf st) ->
  setData l v h = (Normal tt, <[l := OCache v lf st]> h).
Proof.
  intros H. unfold setData, mbind, Eff_bind.
  now rewrite (loadCache_result h l d lf st H).
Qed.

Lemma setLastFetched_result (h : heap) l d lf st v :
  h !! l = Some (OCache d lf st) ->
  setLastFetched l v h = (Normal tt, <[l := OCache d v st]> h).
Proof.
  intros H. unfold setLastFetched, mbind, Eff_bind.
  now rewrite (loadCache_result h l d lf st H).
Qed.

Lemma setIsStale_result (h : heap) l d lf st v :
  h !! l = Some (OCache d lf st) ->
  setIsStale l v h = (Normal tt, <[l := OCache d lf v]> h).
Proof.
  intros H. unfold setIsStale, mbind, Eff_bind.
  now rewrite (loadCache_result h l d lf st H).
Qed.

Lemma newArray_result fs (h : heap) :
  newArray fs h
  = (Normal (length h + length fs)%nat,
     h ++ map OFlight fs ++ [OArray (seq (length h) (length fs))]).
Proof.
  unfold newArray, mbind, Eff_bind, new. rewrite newFlights_result.
  now rewrite length_app, length_map, <- app_assoc.
Qed.

(** *** The store version computes what the value version computes *)

Lemma update_success forceRefresh now flights c :
  getCachedFlights_update forceRefresh now (Normal flights) c
  = (Normal tt, mkCache flights now false).
Proof. reflexivity. Qed.

Lemma update_failure forceRefresh now error c :
  getCachedFlights_update forceRefresh now (Throw error) c
  = if (0 <? length (data c))%nat && negb forceRefresh
    then (Normal tt, set_isStale true c)
    else (Throw error, c).
Proof.
  unfold getCachedFlights_update. run_eff.
  now destruct ((0 <? length (data c))%nat && negb forceRefresh).
Qed.

(** The [try] statement of [getCachedFlights], on the store. *)
Lemma update_on_store (h : heap) root c forceRefresh now scrape :
  readCache h root = Some c ->
  exists h1,
    tryCatchE
      (flights ← await scrape;
       flights ← newArray flights;
       setData root flights;;
       setLastFetched root now;;
       setIsStale root false)
      (fun error =>
         '(data, _, _) ← loadCache root;
         n ← arrayLength data;
         if (0 <? n)%nat && negb forceRefresh
         then setIsStale root true
         else throw error) h
    = (fst (getCachedFlights_update forceRefresh now scrape c), h1)
    /\ readCache h1 root
       = Some (snd (getCachedFlights_update forceRefresh now scrape c))
    /\ (length h <= length h1)%nat
    /\ (forall r v,
          readCache h r = Some v -> ~ In root (footprint h r) ->
          readCache h1 r = Some v /\ footprint h1 r = footprint h r).
Proof.
  intros Hr. destruct (readCache_inv h root c Hr) as (d & elems & Hroot & Hd & Hfs).
  pose proof (lookup_lt_Some _ _ _ Hroot) as Hlt.
  destruct scrape as [flights|error].
  - rewrite update_success.
    set (ext := map OFlight flights ++ [OArray (seq (length h) (length flights))]).
    set (arr := (length h + length flights)%nat).
    exists (<[root := OCache arr now false]> (h ++ ext)).
    assert (Hroot1 : (h ++ ext) !! root
                     = Some (OCache d (lastFetched c) (isStale c)))
      by now apply lookup_app_l_Some.
    split; [|split; [|split]].
    + unfold tryCatchE, mbind, Eff_bind, await. rewrite newArray_result.
      fold ext. fold arr.
      rewrite (setData_result _ _ _ _ _ arr Hroot1).
      rewrite (setLastFetched_result _ root arr (lastFetched c) (isStale c) now)
        by (apply list_lookup_insert_eq; rewrite length_app; lia).
      rewrite list_insert_insert_eq.
      rewrite (setIsStale_result _ root arr now (isStale c) false)
        by (apply list_lookup_insert_eq; rewrite length_app; lia).
      rewrite list_insert_insert_eq. reflexivity.
    + apply (store_cache_read (h ++ ext) root d (lastFetched c) (isStale c)
               arr (seq (length h) (length flights)) flights now false Hroot1).
      * unfold ext, arr. rewrite app_assoc. apply list_lookup_middle.
        now rewrite length_app, length_map.
      * unfold ext. apply readFlights_created.
    + rewrite length_insert, length_app. lia.
    + intros r v. apply assign_root_frame.
  - rewrite update_failure.
    unfold tryCatchE, mbind, Eff_bind, await.
    rewrite (loadCache_result h root d _ _ Hroot).
    unfold arrayLength. rewrite Hd.
    rewrite (readFlights_length h elems (data c) Hfs).
    destruct ((0 <? length (data c))%nat && negb forceRefresh).
    + exists (<[root := OCache d (lastFetched c) true]> h).
      rewrite (setIsStale_result h root d (lastFetched c) (isStale c) true Hroot).
      split; [reflexivity|]. split; [|split].
      * apply (store_cache_read h root d (lastFetched c) (isStale c) d elems
                 (data c) (lastFetched c) true Hroot Hd Hfs).
      * now rewrite length_insert.
      * intros r v Hv Hn.
        destruct (assign_root_frame h [] root
                    (OCache d (lastFetched c) true) r v Hv Hn) as [H1 H2].
        rewrite app_nil_r in H1, H2. now split.
    + exists h. unfold throw. cbn [fst snd].
      split; [reflexivity|]. split; [exact Hr|]. split; [lia|]. now intros r v.
Qed.

Lemma getCachedFlights_on_store (h : heap) root c forceRefresh now scrape :
  readCache h root = Some c ->
  exists h1,
    IndexHeap.getCachedFlights root forceRefresh now scrape h
    = match fst (IndexJs.getCachedFlights forceRefresh now scrape c) with
      | Normal v => (Normal (copyOf v h1), copied v h1)
      | Throw e => (Throw e, h1)
      end
    /\ readCache h1 root
       = Some (snd (IndexJs.getCachedFlights forceRefresh now scrape c))
    /\ (length h <= length h1)%nat
    /\ (forall r v,
          readCache h r = Some v -> ~ In root (footprint h r) ->
          readCache h1 r = Some v /\ footprint h1 r = footprint h r).
Proof.
  intros Hr. destruct (readCache_inv h root c Hr) as (d & elems & Hroot & Hd & Hfs).
  assert (Hpure : IndexJs.getCachedFlights forceRefresh now scrape c
                  = if updateNeeded forceRefresh now c then
                      match getCachedFlights_update forceRefresh now scrape c with
                      | (Normal _, c') => (Normal c', c')
                      | (Throw e, c') => (Throw e, c')
                      end
                    else (Normal c, c)).
  { unfold IndexJs.getCachedFlights, getCachedFlights_enter, mbind, Eff_bind,
      getState, mret, Eff_ret.
    destruct (updateNeeded forceRefresh now c); [|reflexivity].
    now destruct (getCachedFlights_update forceRefresh now scrape c) as [[[]|e] c']. }
  rewrite Hpure. unfold IndexHeap.getCachedFlights.
  unfold mbind at 1. unfold Eff_bind at 1.
  rewrite (loadCache_result h root d _ _ Hroot).
  change (forceRefresh || (now - lastFetched c >? CACHE_LIFETIME) || isStale c)
    with (updateNeeded forceRefresh now c).
  unfold mbind at 1. unfold Eff_bind at 1.
  destruct (updateNeeded forceRefresh now c).
  - destruct (update_on_store h root c forceRefresh now scrape Hr)
      as (h1 & Hrun & Hread & Hlen & Hframe).
    exists h1. rewrite Hrun.
    destruct (getCachedFlights_update forceRefresh now scrape c) as [[[]|e] c'].
    + cbn [fst snd] in *. rewrite (deepCopy_result h1 root c' Hread).
      split; [reflexivity|]. split; [exact Hread|]. split; assumption.
    + cbn [fst snd] in *.
      split; [reflexivity|]. split; [exact Hread|]. split; assumption.
  - exists h. unfold mret, Eff_ret. cbn [fst snd].
    rewrite (deepCopy_result h root c Hr). split; [reflexivity|].
    split; [exact Hr|]. split; [lia|]. now intros r v.
Qed.

(** *** Sorting an array in place *)

Lemma insertSorted_on_store (h : heap) x f : forall ls fs,
  readFlight h x = Some f -> readFlights h ls = Some fs ->
  readFlights h (insertSorted (compareAt h) x ls)
  = Some (insertSorted compareScheduled f fs).
Proof.
  induction ls as [|y ls IH]; intros fs Hx Hls; simpl in Hls.
  - injection Hls as <-. simpl. now rewrite Hx.
  - destruct (readFlight h y) as [g|] eqn:Hy; [|discriminate Hls].
    destruct (readFlights h ls) as [gs|] eqn:Hgs; [|discriminate Hls].
    injection Hls as <-. cbn [insertSorted].
    unfold compareAt at 1. rewrite Hx, Hy.
    destruct (compareScheduled f g <=? 0).
    + cbn [readFlights]. now rewrite Hx, Hy, Hgs.
    + cbn [readFlights]. now rewrite Hy, (IH gs Hx eq_refl).
Qed.

Lemma sort_on_store (h : heap) : forall ls fs,
  readFlights h ls = Some fs ->
  readFlights h (sort (compareAt h) ls) = Some (sort compareScheduled fs).
Proof.
  induction ls as [|x ls IH]; intros fs Hls; simpl in Hls.
  - now injection Hls as <-.
  - destruct (readFlight h x) as [f|] eqn:Hx; [|discriminate Hls].
    destruct (readFlights h ls) as [gs|] eqn:Hgs; [|discriminate Hls].
    injection Hls as <-. cbn [sort].
    apply insertSorted_on_store; [exact Hx | now apply IH].
Qed.

Lemma sortInPlace_result (h : heap) arr elems :
  h !! arr = Some (OArray elems) ->
  sortInPlace arr h
  = (Normal tt, mutate h (Assign arr (OArray (sort (compareAt h) elems)))).
Proof.
  intros H. unfold sortInPlace, mbind, Eff_bind, getState. now rewrite H.
Qed.

(** The holder of a cache value sorts its [data] in place: the value then
    has the records in order, and is otherwise the same. *)
Lemma sortInPlace_read (h : heap) r c arr lf st :
  readCache h r = Some c -> h !! r = Some (OCache arr lf st) ->
  readCache (snd (sortInPlace arr h)) r
  = Some (mkCache (sort compareScheduled (data c)) lf st).
Proof.
  intros Hr Hroot.
  destruct (readCache_inv h r c Hr) as (d & elems & Hroot' & Hd & Hfs).
  rewrite Hroot in Hroot'. injection Hroot' as <- -> ->.
  rewrite (sortInPlace_result h arr elems Hd). cbn [snd mutate].
  assert (Hne : arr <> r) by (intros ->; congruence).
  unfold readCache, readArray.
  rewrite list_lookup_insert_ne by exact Hne. rewrite Hroot.
  rewrite list_lookup_insert_eq by now apply lookup_lt_Some in Hd.
  rewrite (readFlights_agree h).
  - now rewrite (sort_on_store h elems (data c) Hfs).
  - intros l Hl. apply list_lookup_insert_ne. intros ->.
    assert (Hin : In l elems).
    { eapply Permutation_in; [|exact Hl].
      clear. induction elems as [|x ls IH]; simpl; [constructor|].
      etransitivity; [|apply perm_skip, IH].
      generalize (sort (compareAt h) ls). intros s.
      induction s as [|y s IHs]; simpl; [reflexivity|].
      destruct (compareAt h x y <=? 0); [reflexivity|].
      etransitivity; [apply perm_skip, IHs | apply perm_swap]. }
    destruct (readFlights_objects h elems (data c) Hfs l Hin) as [f Hf].
    congruence.
Qed.

(** Calls served later do not reach a value that does not hold the cache
    object. *)
Lemma serve_keeps (h : heap) root cv r v k :
  readCache h root = Some cv -> readCache h r = Some v ->
  ~ In root (footprint h r) ->
  (exists cv', readCache (serve root h k) root = Some cv')
  /\ readCache (serve root h k) r = Some v
  /\ footprint (serve root h k) r = footprint h r.
Proof.
  intros Hroot Hr Hn. unfold serve.
  destruct (getCachedFlights_on_store h root cv (forced k) (calledAt k)
              (settled k) Hroot)
    as (h1 & Hrun & Hread & _ & Hframe).
  destruct (Hframe r v Hr Hn) as [Hr1 Hf1]. rewrite Hrun.
  destruct (fst (IndexJs.getCachedFlights (forced k) (calledAt k) (settled k) cv))
    as [w|e]; cbn [snd].
  - destruct (copied_keeps w h1 root _ Hread) as [Hc _].
    destruct (copied_keeps w h1 r v Hr1) as [Hr2 Hf2].
    split; [eauto|]. split; [exact Hr2 | congruence].
  - split; [eauto|]. now split.
Qed.

Lemma serveAll_keeps calls : forall (h : heap) root cv r v,
  readCache h root = Some cv -> readCache h r = Some v ->
  ~ In root (footprint h r) ->
  readCache (serveAll root calls h) r = Some v.
Proof.
  unfold serveAll.
  induction calls as [|k calls IH]; intros h root cv r v Hroot Hr Hn; simpl;
    [exact Hr|].
  destruct (serve_keeps h root cv r v k Hroot Hr Hn) as ([cv' Hroot'] & Hr' & Hf').
  apply (IH _ root cv' r v Hroot' Hr'). now rewrite Hf'.
Qed.

(** C9.  When [getCachedFlights] returns, the value held by its caller is
    the value of the cache at that moment, made of objects created by the
    call itself: none of them is part of the cache or existed before.
    Whatever is created or assigned afterwards outside the copy - by
    the calls served later, refreshing the cache or not - leaves the value
    of the copy unchanged; whatever is created or assigned outside the cache - by the
    caller sorting the records it was given, for one - leaves the value of
    the cache unchanged.  The call throws exactly when the value model of
    it throws. *)
Theorem snapshot_is_isolated (h : heap) (flightCache : loc) (c : FlightCache)
    (forceRefresh : bool) (now : Z) (scrape : completion (list Flight)) :
  readCache h flightCache = Some c ->
  match fst (IndexJs.getCachedFlights forceRefresh now scrape c) with
  | Throw e =>
      fst (IndexHeap.getCachedFlights flightCache forceRefresh now scrape h)
      = Throw e
  | Normal v =>
      exists snapshot h',
        IndexHeap.getCachedFlights flightCache forceRefresh now scrape h
        = (Normal snapshot, h')
        /\ readCache h' snapshot = Some v
        /\ readCache h' flightCache = Some v
        /\ (forall l, In l (footprint h' snapshot) ->
              (length h <= l)%nat /\ ~ In l (footprint h' flightCache))
        /\ (forall ms, Forall (spares (footprint h' snapshot)) ms ->
              readCache (fold_left mutate ms h') snapshot = Some v)
        /\ (forall ms, Forall (spares (footprint h' flightCache)) ms ->
              readCache (fold_left mutate ms h') flightCache = Some v)
        /\ (forall calls,
              readCache (serveAll flightCache calls h') snapshot = Some v)
        /\ (forall arr lastFetched isStale,
              h' !! snapshot = Some (OCache arr lastFetched isStale) ->
              readCache (snd (sortInPlace arr h')) flightCache = Some v
              /\ readCache (snd (sortInPlace arr h')) snapshot
                 = Some (mkCache (sort compareScheduled (data v))
                           lastFetched isStale))
  end.
Proof.
  intros Hr.
  destruct (getCachedFlights_on_store h flightCache c forceRefresh now scrape Hr)
    as (h1 & Hrun & Hread & Hlen & _).
  destruct (IndexJs.getCachedFlights forceRefresh now scrape c) as [[v|e] c'] eqn:E;
    cbn [fst snd] in *; [|now rewrite Hrun].
  apply getCachedFlights_returns_cache in E as <-.
  exists (copyOf v h1), (copied v h1).
  destruct (copied_read v h1) as [Hsnap Hfoot].
  destruct (copied_keeps v h1 flightCache v Hread) as [Hcache Hcfoot].
  assert (Hdisj : forall l, In l (footprint (copied v h1) (copyOf v h1)) ->
                    (length h <= l)%nat
                    /\ ~ In l (footprint (copied v h1) flightCache)).
  { intros l Hl. pose proof (copied_fresh v h1 l Hl) as Hfresh.
    split; [lia|]. rewrite Hcfoot. intros Hin.
    apply (footprint_allocated h1 flightCache v Hread) in Hin. lia. }
  split; [exact Hrun|]. split; [exact Hsnap|]. split; [exact Hcache|].
  split; [exact Hdisj|]. split; [|split; [|split]].
  - intros ms Hms. now apply mutations_frame.
  - intros ms Hms. now apply mutations_frame.
  - intros calls.
    apply (serveAll_keeps calls (copied v h1) flightCache v _ v Hcache Hsnap).
    intros Hin. apply (proj2 (Hdisj flightCache Hin)).
    unfold footprint. destruct (copied v h1 !! flightCache) as [[| |]|];
      now left.
  - intros arr lf st Hobj. split.
    + destruct (readCache_inv _ _ _ Hsnap) as (d & elems & Hobj' & Hd & _).
      rewrite Hobj in Hobj'. injection Hobj' as <- _ _.
      rewrite (sortInPlace_result _ arr elems Hd). cbn [snd].
      apply (mutate_frame (copied v h1) flightCache v); [exact Hcache|].
      cbn [spares]. intros Hin.
      assert (Harr : In arr (footprint (copied v h1) (copyOf v h1)))
        by (unfold footprint; rewrite Hobj; right; now left).
      now apply (proj2 (Hdisj arr Harr)).
    + now apply sortInPlace_read.
Qed.

Lemma snapshot_is_isolated_witness :
  exists snapshot h',
    IndexHeap.getCachedFlights 1 false 1000
      (Normal [mkFlight "Departure" 9000 "TK316" "Istanbul" "Turkish Airlines" "Boarding";
               mkFlight "Arrival" 7000 "IA220" "Baghdad" "Iraqi Airways" "Landed"])
      [OArray []; OCache 0 0 true]
    = (Normal snapshot, h')
    /\ readCache h' snapshot = readCache h' 1%nat
    /\ forall ms, Forall (spares (footprint h' 1%nat)) ms ->
         readCache (fold_left mutate ms h') 1%nat
         = Some (mkCache
                   [mkFlight "Departure" 9000 "TK316" "Istanbul" "Turkish Airlines" "Boarding";
                    mkFlight "Arrival" 7000 "IA220" "Baghdad" "Iraqi Airways" "Landed"]
                   1000 false).
Proof.
  destruct (snapshot_is_isolated [OArray []; OCache 0 0 true] 1 flightCache0
              false 1000
              (Normal [mkFlight "Departure" 9000 "TK316" "Istanbul" "Turkish Airlines" "Boarding";
                       mkFlight "Arrival" 7000 "IA220" "Baghdad" "Iraqi Airways" "Landed"])
              eq_refl)
    as (snapshot & h' & Hrun & Hsnap & Hcache & _ & _ & Hframe & _).
  exists snapshot, h'. split; [exact Hrun|]. split; [congruence | exact Hframe].
Defined.

(** What the copy is for: had the handler sorted the array of the cache
    itself, the cache would hold the records in another order afterwards;
    sorting the array of the copy leaves the cache as it is. *)
Example sorting_the_cache_itself_changes_it :
  let h := [OFlight (mkFlight "Departure" 9000 "TK316" "Istanbul" "Turkish Airlines" "Boarding");
            OFlight (mkFlight "Arrival" 7000 "IA220" "Baghdad" "Iraqi Airways" "Landed");
            OArray [0; 1]%nat; OCache 2 1000 false] in
  readCache (snd (sortInPlace 2 h)) 3%nat <> readCache h 3%nat
  /\ (let '(snapshot, h') := IndexHeap.getCachedFlights 3 false 1001 (Throw "unused") h in
      snapshot = Normal 7%nat
      /\ readCache (snd (sortInPlace 6 h')) 3%nat = readCache h 3%nat
      /\ readCache (snd (sortInPlace 6 h')) 7%nat <> readCache h' 7%nat).
Proof. cbv zeta. split; [discriminate|]. vm_compute. repeat split; discriminate. Qed.

End Isolation.

(** * Further properties of the code *)

(** ** src/index.js: what the handler answers, and when the scraper is asked *)

Section IndexMore.

Import IndexJs.

Lemma isStale_after_failure now error c :
  updateNeeded false now c = true -> data c <> [] ->
  getCachedFlights false now (Throw error) c
  = (Normal (set_isStale true c), set_isStale true c).
Proof.
  intros E Hne. rewrite getCachedFlights_failure by exact E.
  apply nonempty_length in Hne. now rewrite Hne.
Qed.

(** What the handler answers to a request whose URL has parsed. *)
Lemma parsed_request_is_answered (req : Request) (now : Z)
    (scrape : completion (list Flight)) (c : FlightCache) :
  exists r,
    fst (handler req now scrape c) = Normal r
    /\ In (statusCode r) [200; 204; 404; 500]
    /\ (statusCode r = 204 <-> method req = "OPTIONS")
    /\ (statusCode r = 404 <->
        method req <> "OPTIONS" /\ isRefreshRequest req = false
        /\ isFlightsRequest req = false)
    /\ (statusCode r = 500 ->
        exists error,
          scrape = Throw error
          /\ body r = ErrorBody "Internal Server Error"
                        "A critical error occurred while processing the request."
                        (Some error)
          /\ snd (handler req now scrape c) = c)
    /\ (isRefreshRequest req = false -> isFlightsRequest req = false ->
        snd (handler req now scrape c) = c).
Proof.
  destruct (String.eqb_spec (method req) "OPTIONS") as [Ho|Ho].
  - unfold handler. rewrite Ho. cbn [String.eqb Ascii.eqb Bool.eqb].
    eexists. split; [reflexivity|]. cbn [statusCode fst snd mret Eff_ret].
    split; [cbn; tauto|]. split; [tauto|]. split; [|split].
    + split; [discriminate | intros [H _]; now elim H].
    + discriminate.
    + reflexivity.
  - destruct (isRefreshRequest req) eqn:R.
    + rewrite (handler_refresh _ _ _ _ R).
      destruct scrape as [flights|error]; eexists; (split; [reflexivity|]);
        cbn [statusCode fst snd body].
      * split; [cbn; tauto|]. split; [split; [discriminate|tauto]|].
        split; [split; [discriminate | intros (_ & F & _); discriminate F]|].
        split; [discriminate | discriminate].
      * split; [cbn; tauto|]. split; [split; [discriminate|tauto]|].
        split; [split; [discriminate | intros (_ & F & _); discriminate F]|].
        split; [intros _; now exists error | discriminate].
    + destruct (isFlightsRequest req) eqn:G.
      * rewrite (handler_flights _ _ _ _ G).
        destruct (getCachedFlights false now scrape c) as [[r0|error] c'] eqn:E;
          eexists; (split; [reflexivity|]); cbn [statusCode fst snd body].
        -- split; [cbn; tauto|]. split; [split; [discriminate|tauto]|].
           split; [split; [discriminate | intros (_ & _ & F); discriminate F]|].
           split; [discriminate | discriminate].
        -- split; [cbn; tauto|]. split; [split; [discriminate|tauto]|].
           split; [split; [discriminate | intros (_ & _ & F); discriminate F]|].
           split; [|discriminate]. intros _.
           destruct (updateNeeded false now c) eqn:U.
           ++ destruct scrape as [fl|err].
              ** rewrite getCachedFlights_success in E by exact U. discriminate E.
              ** rewrite getCachedFlights_failure in E by exact U.
                 destruct (_ && _); [discriminate E|].
                 injection E as <- <-. now exists err.
           ++ rewrite getCachedFlights_fresh in E by exact U. discriminate E.
      * unfold handler. apply String.eqb_neq in Ho. rewrite Ho, R, G.
        eexists. split; [reflexivity|]. cbn [statusCode fst snd body].
        apply String.eqb_neq in Ho.
        split; [cbn; tauto|]. split; [split; [discriminate|tauto]|].
        split; [tauto|]. split; [discriminate | reflexivity].
Qed.

(** Once the URL has parsed, the handler goes on as [handler] does on the
    parsed request. *)
Lemma respond_parsed pathname req now scrape path c :
  pathname (url req) ("http://" +:+ host req) = Normal path ->
  respond pathname req now scrape c
  = handler (mkRequest (httpMethod req) path) now scrape c.
Proof.
  intros H. unfold respond, handler. cbn [method IndexJs.path].
  destruct (String.eqb (httpMethod req) "OPTIONS"); [reflexivity|].
  unfold tryCatchE, evaluate. unfold mbind at 1. unfold Eff_bind at 1.
  rewrite H. reflexivity.
Qed.

(** A URL that does not parse is answered by the catch-all. *)
Lemma respond_unparsed pathname req now scrape error c :
  httpMethod req <> "OPTIONS" ->
  pathname (url req) ("http://" +:+ host req) = Throw error ->
  respond pathname req now scrape c
  = (Normal (mkResponse 500
               (ErrorBody "Internal Server Error"
                  "A critical error occurred while processing the request."
                  (Some error))),
     c).
Proof.
  intros Ho H. unfold respond. apply String.eqb_neq in Ho. rewrite Ho.
  unfold tryCatchE, evaluate. unfold mbind at 1. unfold Eff_bind at 1.
  rewrite H. reflexivity.
Qed.

(** The handler never throws.  Its status is 204 exactly for OPTIONS.  For
    any other method a URL that does not parse is answered 500, with the
    parser's error and nothing scraped; a URL that parses is answered 404
    exactly when it is for neither of the two routes, and 200 or 500 on the
    routes, a 500 there coming from a scrape that threw.  Every 500 carries
    the message of its error and leaves the cache as it was; a 204 and a
    404 leave the cache alone too. *)
Theorem handler_always_answers (pathname : string -> string -> completion string)
    (req : IncomingMessage) (now : Z) (scrape : completion (list Flight))
    (c : FlightCache) :
  let target := pathname (url req) ("http://" +:+ host req) in
  exists r,
    fst (respond pathname req now scrape c) = Normal r
    /\ In (statusCode r) [200; 204; 404; 500]
    /\ (statusCode r = 204 <-> httpMethod req = "OPTIONS")
    /\ (statusCode r = 404 <->
        httpMethod req <> "OPTIONS"
        /\ exists path,
             target = Normal path
             /\ isRefreshRequest (mkRequest (httpMethod req) path) = false
             /\ isFlightsRequest (mkRequest (httpMethod req) path) = false)
    /\ (statusCode r = 500 ->
        exists error,
          body r = ErrorBody "Internal Server Error"
                     "A critical error occurred while processing the request."
                     (Some error)
          /\ snd (respond pathname req now scrape c) = c
          /\ (target = Throw error
              \/ exists path, target = Normal path /\ scrape = Throw error))
    /\ (httpMethod req <> "OPTIONS" ->
        forall error, target = Throw error -> statusCode r = 500)
    /\ (statusCode r = 204 \/ statusCode r = 404 ->
        snd (respond pathname req now scrape c) = c).
Proof.
  cbv zeta.
  destruct (String.eqb_spec (httpMethod req) "OPTIONS") as [Ho|Ho].
  - unfold respond. rewrite Ho. cbn [String.eqb Ascii.eqb Bool.eqb].
    eexists. split; [reflexivity|]. cbn [statusCode fst snd mret Eff_ret].
    split; [cbn; tauto|]. split; [tauto|].
    split; [split; [discriminate | intros [H _]; now elim H]|].
    split; [discriminate|]. split; [intros H; now elim H | reflexivity].
  - destruct (pathname (url req) ("http://" +:+ host req)) as [path|error] eqn:T.
    + rewrite (respond_parsed _ _ _ _ _ _ T).
      destruct (parsed_request_is_answered (mkRequest (httpMethod req) path)
                  now scrape c) as (r & Hr & Hin & H204 & H404 & H500 & Hkeep).
      cbn [method] in H204, H404. exists r. split; [exact Hr|].
      split; [exact Hin|]. split; [exact H204|]. split; [|split; [|split]].
      * rewrite H404. split.
        -- intros (H1 & H2 & H3). split; [exact H1|]. now exists path.
        -- intros (H1 & p & [= <-] & H2 & H3). now repeat split.
      * intros H. destruct (H500 H) as (error & Hs & Hb & Hc).
        exists error. split; [exact Hb|]. split; [exact Hc|]. right.
        now exists path.
      * intros _ error H. discriminate H.
      * intros [H|H]; [apply H204 in H; contradiction|].
        apply H404 in H as (_ & H2 & H3). now apply Hkeep.
    + rewrite (respond_unparsed _ _ _ _ _ _ Ho T).
      eexists. split; [reflexivity|]. cbn [statusCode fst snd body].
      split; [cbn; tauto|]. split; [split; [discriminate|tauto]|].
      split; [split; [discriminate | intros (_ & p & H & _); discriminate H]|].
      split; [intros _; exists error; split; [reflexivity|]; split;
                [reflexivity | now left]|].
      split; [reflexivity | reflexivity].
Qed.

(** A request target of two slashes has no host to it and does not parse,
    whatever the route table says: it is answered 500 without a scrape. *)
Example unparsed_target_is_answered_500 :
  respond (fun url base => if String.eqb url "//" then Throw "Invalid URL"
                           else Normal url)
    (mkIncomingMessage "GET" "//" "localhost") 1000 (Normal []) flightCache0
  = (Normal (mkResponse 500
               (ErrorBody "Internal Server Error"
                  "A critical error occurred while processing the request."
                  (Some "Invalid URL"))),
     flightCache0).
Proof. reflexivity. Qed.

(** When the scrape fails while records are cached, a read is still
    answered 200: with the cached records of the route, in order, the time
    of the last fetch that succeeded, and 'Stale'; the cache is marked
    stale. *)
Theorem stale_records_are_served (req : Request) (now : Z) (error : string)
    (c : FlightCache) :
  isFlightsRequest req = true ->
  updateNeeded false now c = true ->
  data c <> [] ->
  handler req now (Throw error) c
  = (Normal (mkResponse 200
               (FlightsBody
                  (sort compareScheduled (fst (selectFlights (path req) (data c))))
                  (snd (selectFlights (path req) (data c)))
                  (lastFetched c) "Stale")),
     set_isStale true c).
Proof.
  intros G U Hne. rewrite (handler_flights _ _ _ _ G).
  now rewrite (isStale_after_failure now error c U Hne).
Qed.

Lemma stale_records_are_served_witness :
  handler (mkRequest "GET" "/api/flights/departures") 2000000 (Throw "timeout")
    (mkCache [mkFlight "Departure" 9000 "TK316" "Istanbul" "Turkish Airlines" "Boarding";
              mkFlight "Arrival" 7000 "IA220" "Baghdad" "Iraqi Airways" "Landed";
              mkFlight "Departure" 8000 "FZ206" "Dubai" "FlyDubai" "Scheduled"]
       1000 false)
  = (Normal (mkResponse 200
               (FlightsBody
                  [mkFlight "Departure" 8000 "FZ206" "Dubai" "FlyDubai" "Scheduled";
                   mkFlight "Departure" 9000 "TK316" "Istanbul" "Turkish Airlines" "Boarding"]
                  "departures" 1000 "Stale")),
     mkCache [mkFlight "Departure" 9000 "TK316" "Istanbul" "Turkish Airlines" "Boarding";
              mkFlight "Arrival" 7000 "IA220" "Baghdad" "Iraqi Airways" "Landed";
              mkFlight "Departure" 8000 "FZ206" "Dubai" "FlyDubai" "Scheduled"]
       1000 true).
Proof.
  apply (stale_records_are_served (mkRequest "GET" "/api/flights/departures")
           2000000 "timeout").
  - reflexivity.
  - reflexivity.
  - discriminate.
Defined.

(** After a scrape that succeeded at [now0] - with records or with none -
    the cache holds its result, and a later unforced call asks the scraper
    again exactly when more than fifteen minutes have passed; until then it
    returns the cache as it is, whatever the scraper would have said. *)
Theorem cache_is_fresh_for_its_lifetime (forceRefresh : bool) (now0 now1 : Z)
    (flights : list Flight) (scrape1 : completion (list Flight)) (c : FlightCache) :
  updateNeeded forceRefresh now0 c = true ->
  let c' := snd (getCachedFlights forceRefresh now0 (Normal flights) c) in
  c' = mkCache flights now0 false
  /\ updateNeeded false now1 c' = (now1 - now0 >? 900000)
  /\ (now1 - now0 <= 900000 ->
      getCachedFlights false now1 scrape1 c' = (Normal c', c')).
Proof.
  intros U. cbv zeta. rewrite getCachedFlights_success by exact U. cbn [snd].
  split; [reflexivity|].
  assert (H : updateNeeded false now1 (mkCache flights now0 false)
              = (now1 - now0 >? 900000)).
  { unfold updateNeeded. cbn [lastFetched isStale orb].
    now rewrite orb_false_r. }
  split; [exact H|]. intros Hle. apply getCachedFlights_fresh. rewrite H.
  rewrite Z.gtb_ltb. apply Z.ltb_ge. lia.
Qed.

Lemma cache_is_fresh_for_its_lifetime_witness :
  getCachedFlights false 900000 (Throw "unused")
    (snd (getCachedFlights false 0 (Normal []) flightCache0))
  = (Normal (mkCache [] 0 false), mkCache [] 0 false).
Proof.
  destruct (cache_is_fresh_for_its_lifetime false 0 900000 []
              (Throw "unused") flightCache0 eq_refl) as (_ & _ & H).
  apply H. lia.
Defined.

(** Once a failed scrape has left the cache stale, every unforced call asks
    the scraper again, however soon it comes: a success makes the cache
    fresh at that call's time, another failure leaves it as it is. *)
Theorem stale_cache_is_retried_on_every_read (now0 now1 : Z) (error : string)
    (scrape1 : completion (list Flight)) (c : FlightCache) :
  updateNeeded false now0 c = true ->
  data c <> [] ->
  let c' := snd (getCachedFlights false now0 (Throw error) c) in
  updateNeeded false now1 c' = true
  /\ getCachedFlights false now1 scrape1 c'
     = match scrape1 with
       | Normal flights =>
           (Normal (mkCache flights now1 false), mkCache flights now1 false)
       | Throw _ => (Normal c', c')
       end.
Proof.
  intros U Hne. cbv zeta. rewrite (isStale_after_failure now0 error c U Hne).
  cbn [snd].
  assert (H : updateNeeded false now1 (set_isStale true c) = true).
  { unfold updateNeeded. cbn [isStale set_isStale]. apply orb_true_r. }
  split; [exact H|]. destruct scrape1 as [flights|error1].
  - now apply getCachedFlights_success.
  - rewrite getCachedFlights_failure by exact H.
    cbn [data set_isStale]. apply nonempty_length in Hne. now rewrite Hne.
Qed.

Lemma stale_cache_is_retried_on_every_read_witness :
  updateNeeded false 1000001
    (snd (getCachedFlights false 1000000 (Throw "timeout")
            (mkCache [mkFlight "Arrival" 7000 "IA220" "Baghdad" "Iraqi Airways" "Landed"]
               1000 false)))
  = true.
Proof.
  apply (stale_cache_is_retried_on_every_read 1000000 1000001 "timeout"
           (Throw "again")
           (mkCache [mkFlight "Arrival" 7000 "IA220" "Baghdad" "Iraqi Airways" "Landed"]
              1000 false)).
  - reflexivity.
  - discriminate.
Defined.

End IndexMore.

(** ** src/index.js: which rows are kept, and when they are scheduled *)

Section ScraperMore.

Import IndexJs.

Variable tz : Z.
Variable Number : string -> num.

Lemma split_without_separator sep s :
  hasChar sep s = false -> split sep s = [s].
Proof.
  induction s as [|c rest IH]; simpl; [reflexivity|].
  intros H. apply orb_false_elim in H as [Hc Hrest].
  rewrite Hc, (IH Hrest). reflexivity.
Qed.

Lemma resolveScheduled_invalid now hour minute :
  hour = None \/ minute = None ->
  toISOString (resolveScheduled tz now hour minute) = Throw "Invalid time value".
Proof.
  unfold resolveScheduled, newDateToday, newDate.
  intros [-> | ->]; [reflexivity|]. now destruct hour.
Qed.

(** A row yields a record only if its time text splits at a colon into at
    least two parts of which the first two read as finite numbers; a text
    with no colon in it is never kept. *)
Theorem kept_rows_have_hour_and_minute (now : Z) (row : Row) :
  (hasChar ":" (cellText row 0) = false ->
   rowBody tz Number now row = Throw "Invalid time value"
   /\ rowYield tz Number now row = [])
  /\ (forall flight,
        rowBody tz Number now row = Normal flight ->
        hasChar ":" (cellText row 0) = true
        /\ exists h m rest,
             map Number (split ":" (cellText row 0)) = Some h :: Some m :: rest
             /\ resolveScheduled tz now (Some h) (Some m) = Some (scheduled flight)).
Proof.
  assert (Hno : hasChar ":" (cellText row 0) = false ->
                rowBody tz Number now row = Throw "Invalid time value").
  { intros H. unfold rowBody. rewrite (split_without_separator _ _ H).
    cbn [map nth]. now rewrite resolveScheduled_invalid by now right. }
  split.
  - intros H. split; [now apply Hno|]. unfold rowYield.
    rewrite (Hno H). now destruct (length (tds row) =? 6)%nat.
  - intros flight Hrow. split.
    + destruct (hasChar ":" (cellText row 0)) eqn:E; [reflexivity|].
      rewrite (Hno eq_refl) in Hrow. discriminate Hrow.
    + unfold rowBody in Hrow.
      destruct (map Number (split ":" (cellText row 0)))
        as [|[h|] [|[m|] rest]] eqn:E; cbn [nth] in Hrow;
        try (rewrite resolveScheduled_invalid in Hrow by tauto; discriminate Hrow).
      exists h, m, rest. split; [reflexivity|].
      destruct (resolveScheduled tz now (Some h) (Some m)) as [t|];
        cbn in Hrow; [|discriminate Hrow].
      now injection Hrow as <-.
Qed.

(** With the local zone at a fixed offset from UTC and a clock whose local
    year is not one of 0 to 99, a record is never scheduled in the past and
    never a day or more ahead: a row whose time reads HH:MM is scheduled at
    the first instant from now on at which the local clock shows HH:MM. *)
Theorem scheduled_within_the_next_day (now : Z) (row : Row) (h m : Z)
    (rest : list num) :
  Z.abs tz <= msPerDay -> Z.abs now <= maxTime - 3 * msPerDay ->
  getFullYear tz now < 0 \/ 99 < getFullYear tz now ->
  map Number (split ":" (cellText row 0)) = Some h :: Some m :: rest ->
  0 <= h < 24 -> 0 <= m < 60 ->
  exists flight,
    rowBody tz Number now row = Normal flight
    /\ now <= scheduled flight < now + msPerDay
    /\ localClock tz (scheduled flight) = MakeTime h m.
Proof.
  intros Htz Hnow Hyear Hparts Hh Hm.
  pose proof (MakeTime_within_day h m Hh Hm) as Hc.
  pose proof (local_parts tz now) as Hlocal.
  pose proof (localClock_range tz now) as Hclock.
  unfold rowBody. rewrite Hparts. cbn [nth].
  rewrite (resolveScheduled_value tz now h m Htz Hnow Hyear Hh Hm).
  cbn [toISOString mbind completion_bind mret completion_ret].
  eexists. split; [reflexivity|]. cbn [scheduled].
  set (d := localDate tz now + (if MakeTime h m <? localClock tz now then 1 else 0)).
  destruct (local_of_parts tz d (MakeTime h m) (UTC tz (d * msPerDay + MakeTime h m)))
    as [_ Hk]; [exact Hc | unfold LocalTime, UTC; lia |].
  split; [|exact Hk].
  unfold d, UTC, LocalTime in *.
  destruct (Z.ltb_spec (MakeTime h m) (localClock tz now)); unfold msPerDay in *; lia.
Qed.

(** Under the same conditions an hour of 24 to 47 is not refused: the
    record is scheduled on the next local date, at the hour less 24,
    whatever the time of day is now. *)
Theorem hour_past_midnight_rolls_over (now : Z) (row : Row) (h m : Z)
    (rest : list num) :
  Z.abs tz <= msPerDay -> Z.abs now <= maxTime - 3 * msPerDay ->
  getFullYear tz now < 0 \/ 99 < getFullYear tz now ->
  map Number (split ":" (cellText row 0)) = Some h :: Some m :: rest ->
  24 <= h < 48 -> 0 <= m < 60 ->
  exists flight,
    rowBody tz Number now row = Normal flight
    /\ localDate tz (scheduled flight) = localDate tz now + 1
    /\ localClock tz (scheduled flight) = MakeTime (h - 24) m.
Proof.
  intros Htz Hnow Hyear Hparts Hh Hm.
  assert (Hc : 0 <= MakeTime (h - 24) m < msPerDay)
    by (apply MakeTime_within_day; lia).
  assert (Hroll : MakeTime h m = msPerDay + MakeTime (h - 24) m)
    by (unfold MakeTime, msPerDay, msPerHour, msPerMinute; lia).
  pose proof (local_parts tz now) as Hlocal.
  pose proof (localClock_range tz now) as Hclock.
  unfold rowBody. rewrite Hparts. cbn [nth].
  unfold resolveScheduled. rewrite (newDateToday_value tz now h m Hyear).
  set (t := UTC tz (localDate tz now * msPerDay + MakeTime h m)).
  assert (Ht : LocalTime tz t
               = (localDate tz now + 1) * msPerDay + MakeTime (h - 24) m)
    by (unfold t, LocalTime, UTC; lia).
  rewrite TimeClip_in_range
    by (unfold t, UTC, LocalTime, maxTime, msPerDay in *; lia).
  cbn [dateLt].
  replace (t <? now) with false
    by (symmetry; apply Z.ltb_ge; unfold t, UTC, LocalTime in *; lia).
  cbn [toISOString mbind completion_bind mret completion_ret].
  eexists. split; [reflexivity|]. cbn [scheduled].
  now apply local_of_parts.
Qed.

End ScraperMore.

Lemma kept_rows_have_hour_and_minute_witness :
  IndexJs.rowBody 10800000 decimalNumber 1700000000000
    (IndexJs.mkRow ["DeparturesFlightRow"]
       ["1415"; "TK316"; "Istanbul"; "Turkish Airlines"; ""; "Boarding"])
  = Throw "Invalid time value"
  /\ IndexJs.rowYield 10800000 decimalNumber 1700000000000
       (IndexJs.mkRow ["DeparturesFlightRow"]
          ["1415"; "TK316"; "Istanbul"; "Turkish Airlines"; ""; "Boarding"])
     = [].
Proof.
  apply (proj1 (kept_rows_have_hour_and_minute 10800000 decimalNumber
                  1700000000000
                  (IndexJs.mkRow ["DeparturesFlightRow"]
                     ["1415"; "TK316"; "Istanbul"; "Turkish Airlines"; ""; "Boarding"]))).
  reflexivity.
Defined.

Lemma scheduled_within_the_next_day_witness :
  exists flight,
    IndexJs.rowBody 10800000 decimalNumber 1700000000000
      (IndexJs.mkRow ["ArrivalsFlightRow"]
         ["01:13"; "IA220"; "Baghdad"; "Iraqi Airways"; ""; "Landed"])
    = Normal flight
    /\ 1700000000000 <= IndexJs.scheduled flight < 1700000000000 + msPerDay
    /\ localClock 10800000 (IndexJs.scheduled flight) = MakeTime 1 13.
Proof.
  apply (scheduled_within_the_next_day 10800000 decimalNumber 1700000000000
           (IndexJs.mkRow ["ArrivalsFlightRow"]
              ["01:13"; "IA220"; "Baghdad"; "Iraqi Airways"; ""; "Landed"])
           1 13 []).
  - unfold msPerDay. lia.
  - unfold maxTime, msPerDay. lia.
  - right. reflexivity.
  - reflexivity.
  - lia.
  - lia.
Defined.

Lemma hour_past_midnight_rolls_over_witness :
  exists flight,
    IndexJs.rowBody 10800000 decimalNumber 1700000000000
      (IndexJs.mkRow ["ArrivalsFlightRow"]
         ["25:10"; "IA220"; "Baghdad"; "Iraqi Airways"; ""; "Landed"])
    = Normal flight
    /\ localDate 10800000 (IndexJs.scheduled flight)
       = localDate 10800000 1700000000000 + 1
    /\ localClock 10800000 (IndexJs.scheduled flight) = MakeTime (25 - 24) 10.
Proof.
  apply (hour_past_midnight_rolls_over 10800000 decimalNumber 1700000000000
           (IndexJs.mkRow ["ArrivalsFlightRow"]
              ["25:10"; "IA220"; "Baghdad"; "Iraqi Airways"; ""; "Landed"])
           25 10 []).
  - unfold msPerDay. lia.
  - unfold maxTime, msPerDay. lia.
  - right. reflexivity.
  - reflexivity.
  - lia.
  - lia.
Defined.

(** ** src/flights.js: the scrape that swallows its failures, and the handler *)

Section FlightsMore.

Import FlightsJs.

Lemma scrapeFlightData_result fetchedAt response c :
  scrapeFlightData fetchedAt response c
  = match response with
    | Normal tableRows =>
        (Normal (flat_map rowFlights tableRows),
         mkCache (flat_map rowFlights tableRows) (Some fetchedAt) ready)
    | Throw _ => (Normal (flights c), mkCache (flights c) (lastFetched c) stale)
    end.
Proof. unfold scrapeFlightData. run_eff. now destruct response. Qed.

(** [scrapeFlightData] never throws and always returns the list the cache
    holds afterwards.  A failed request leaves the records and the time of
    the last fetch alone and marks the cache stale; a request that went
    through replaces the records, stamps the time and marks the cache
    ready. *)
Theorem scrapeFlightData_swallows_failures (fetchedAt : Z)
    (response : completion (list (list string))) (c : FlightDataCache) :
  exists returned c',
    scrapeFlightData fetchedAt response c = (Normal returned, c')
    /\ returned = flights c'
    /\ match response with
       | Throw _ =>
           flights c' = flights c /\ lastFetched c' = lastFetched c
           /\ cacheStatus c' = stale
       | Normal tableRows =>
           flights c' = flat_map rowFlights tableRows
           /\ lastFetched c' = Some fetchedAt /\ cacheStatus c' = ready
       end.
Proof.
  rewrite scrapeFlightData_result.
  destruct response; eexists; eexists; (split; [reflexivity|]);
    cbn; repeat split; reflexivity.
Qed.

(** A scraped record always has a time, a flight number and a status: a
    row is kept exactly when it has five cells or more and cells 0, 2 and 4
    are not empty; city and airline may be empty. *)
Theorem scraped_rows_are_validated (tableRows : list (list string)) (f : Flight) :
  In f (flat_map rowFlights tableRows)
  <-> exists columns,
        In columns tableRows
        /\ (5 <= length columns)%nat
        /\ f = mkFlight (nth 0 columns "") (nth 1 columns "") (nth 2 columns "")
                 (nth 3 columns "") (nth 4 columns "")
        /\ scheduled f <> "" /\ flightNo f <> "" /\ status f <> "".
Proof.
  rewrite in_flat_map. split.
  - intros (columns & Hin & Hf). exists columns. split; [exact Hin|].
    unfold rowFlights in Hf.
    destruct (Nat.leb_spec 5 (length columns)) as [Hlen|Hlen]; [|destruct Hf].
    unfold truthy in Hf.
    destruct (String.eqb_spec (nth 0 columns "") "") as [|H0]; [destruct Hf|].
    destruct (String.eqb_spec (nth 2 columns "") "") as [|H2]; [destruct Hf|].
    destruct (String.eqb_spec (nth 4 columns "") "") as [|H4]; [destruct Hf|].
    destruct Hf as [<-|[]]. now repeat split.
  - intros (columns & Hin & Hlen & -> & H0 & H2 & H4). exists columns.
    split; [exact Hin|]. unfold rowFlights. cbn [scheduled flightNo status] in *.
    apply Nat.leb_le in Hlen. rewrite Hlen. unfold truthy.
    apply String.eqb_neq in H0, H2, H4. rewrite H0, H2, H4. now left.
Qed.

Lemma not_options_not_refresh req :
  isRefreshRequest req = true -> String.eqb (method req) "OPTIONS" = false.
Proof.
  unfold isRefreshRequest. intros H. apply andb_prop in H as [_ H].
  apply String.eqb_eq in H. now rewrite H.
Qed.

(** Whether line 134 sends the request to the scraper. *)
Lemma handler_read req now fetchedAt response c :
  String.eqb (method req) "OPTIONS" = false ->
  isRefreshRequest req = false ->
  let rescrape :=
    (now - match lastFetched c with Some t => t | None => 0 end >? MAX_CACHE_AGE_MS)
    || negb (isReady c) in
  let c' := if rescrape then snd (scrapeFlightData fetchedAt response c) else c in
  handler req now fetchedAt response c
  = (Normal (mkResponse 200
               (FlightsBody (filterBy (filterTypeOf (url req)) (flights c'))
                  (lastFetched c') (flightTypeOf (filterTypeOf (url req)))
                  "Erbil Airport")),
     c').
Proof.
  intros Ho Hr. unfold handler. rewrite Ho, Hr.
  unfold mbind, Eff_bind, getState, mret, Eff_ret. cbv beta iota zeta.
  match goal with
  | |- (let (_, _) := (if ?b then _ else _) _ in _) = _ =>
      change ((now - match lastFetched c with Some t => t | None => 0 end
               >? MAX_CACHE_AGE_MS) || negb (isReady c)) with b;
      destruct b
  end.
  - rewrite scrapeFlightData_result. destruct response; reflexivity.
  - reflexivity.
Qed.

Lemma scrapeFlightData_resume_result fetchedAt response c :
  scrapeFlightData_resume fetchedAt response c
  = match response with
    | Normal tableRows =>
        (Normal (flat_map rowFlights tableRows),
         mkCache (flat_map rowFlights tableRows) (Some fetchedAt) ready)
    | Throw _ => (Normal (flights c), mkCache (flights c) (lastFetched c) stale)
    end.
Proof. destruct response; reflexivity. Qed.

(** What a read that has to scrape carries to its [await]. *)
Lemma read_enter_awaits req now c locals c1 :
  read_enter req now c = (Normal (locals, None), c1) ->
  locals = mkLocals (filterTypeOf (url req)) (flightTypeOf (filterTypeOf (url req)))
             (filterBy (filterTypeOf (url req)) (flights c))
  /\ c1 = set_cacheStatus fetching c.
Proof.
  unfold read_enter, getState, send, scrapeFlightData_enter.
  unfold mbind, Eff_bind, mret, Eff_ret, assign. cbv beta iota zeta.
  destruct (_ || _); intros [= <- <-]; now split.
Qed.

(** The handler on a read is the read run to its [await] and, when it
    awaits, resumed at once. *)
Lemma handler_cut req now fetchedAt response c :
  String.eqb (method req) "OPTIONS" = false ->
  isRefreshRequest req = false ->
  handler req now fetchedAt response c
  = match read_enter req now c with
    | (Normal (_, Some r), c1) => (Normal r, c1)
    | (Normal (locals, None), c1) => read_resume locals fetchedAt response c1
    | (Throw error, c1) => (Throw error, c1)
    end.
Proof.
  intros Ho Hr. rewrite (handler_read req now fetchedAt response c Ho Hr).
  cbv zeta. unfold read_enter, getState, send, scrapeFlightData_enter.
  unfold mbind at 1 2 3. unfold Eff_bind, mret, Eff_ret, assign.
  cbv beta iota zeta.
  match goal with
  | |- context [(if ?b then _ else _) c] =>
      change ((now - match lastFetched c with Some t => t | None => 0 end
               >? MAX_CACHE_AGE_MS) || negb (isReady c)) with b;
      destruct b
  end; [|reflexivity].
  unfold read_resume, send, getState, mbind, Eff_bind, mret, Eff_ret.
  rewrite scrapeFlightData_result, scrapeFlightData_resume_result.
  destruct response; reflexivity.
Qed.

(** The handler never throws and never answers anything but 204 (to
    OPTIONS) or 200, whatever the method and the path.  The list of a read
    is filtered before the scrape is awaited and filtered again only when
    the scrape has left the cache ready.  For a read that nothing overlaps
    the list answered is still the filter of what the cache holds when the
    answer goes out.  For a read that awaits its scrape while other requests
    change the cache, it is the filter of the scraped rows when the scrape
    went through, and when the scrape failed the list filtered from the
    cache as the read found it, sent with the time of the last fetch the
    cache has by then. *)
Theorem flights_handler_answers_from_the_cache (req : Request) (now fetchedAt : Z)
    (response : completion (list (list string))) (c : FlightDataCache) :
  (exists r,
      fst (handler req now fetchedAt response c) = Normal r
      /\ (statusCode r = 204 <-> method req = "OPTIONS")
      /\ (method req <> "OPTIONS" -> statusCode r = 200)
      /\ (method req <> "OPTIONS" -> isRefreshRequest req = false ->
          body r
          = FlightsBody
              (filterBy (filterTypeOf (url req))
                 (flights (snd (handler req now fetchedAt response c))))
              (lastFetched (snd (handler req now fetchedAt response c)))
              (flightTypeOf (filterTypeOf (url req))) "Erbil Airport"))
  /\ (method req <> "OPTIONS" -> isRefreshRequest req = false ->
      handler req now fetchedAt response c
      = match read_enter req now c with
        | (Normal (_, Some r), c1) => (Normal r, c1)
        | (Normal (locals, None), c1) => read_resume locals fetchedAt response c1
        | (Throw error, c1) => (Throw error, c1)
        end)
  /\ (forall locals c1 later,
        read_enter req now c = (Normal (locals, None), c1) ->
        exists r,
          read_resume locals fetchedAt response later
          = (Normal r, snd (scrapeFlightData_resume fetchedAt response later))
          /\ statusCode r = 200
          /\ body r
             = FlightsBody
                 (match response with
                  | Normal tableRows =>
                      filterBy (filterTypeOf (url req)) (flat_map rowFlights tableRows)
                  | Throw _ => filterBy (filterTypeOf (url req)) (flights c)
                  end)
                 (match response with
                  | Normal _ => Some fetchedAt
                  | Throw _ => lastFetched later
                  end)
                 (flightTypeOf (filterTypeOf (url req))) "Erbil Airport").
Proof.
  split; [|split].
  - destruct (String.eqb_spec (method req) "OPTIONS") as [Ho|Ho].
    + unfold handler. rewrite Ho. cbn [String.eqb Ascii.eqb Bool.eqb].
      eexists. split; [reflexivity|]. cbn [statusCode].
      split; [tauto|]. split; intros H; now elim H.
    + assert (Hb := Ho). apply String.eqb_neq in Hb.
      destruct (isRefreshRequest req) eqn:R.
      * unfold handler. rewrite Hb, R. unfold mbind, Eff_bind.
        rewrite scrapeFlightData_result.
        destruct response; eexists; (split; [reflexivity|]); cbn [statusCode];
          (split; [split; [discriminate|tauto]|]); split;
          solve [reflexivity | discriminate].
      * rewrite (handler_read req now fetchedAt response c Hb R).
        eexists. split; [reflexivity|]. cbn [statusCode fst snd body].
        split; [split; [discriminate|tauto]|]. split; reflexivity.
  - intros Ho R. apply String.eqb_neq in Ho. now apply handler_cut.
  - intros locals c1 later H.
    apply read_enter_awaits in H as [-> _].
    unfold read_resume, send, getState, mbind, Eff_bind, mret, Eff_ret.
    rewrite scrapeFlightData_resume_result.
    destruct response; eexists; (split; [reflexivity|]); split; reflexivity.
Qed.

(** Two reads of a stale cache overlap.  The scrape of the other read goes
    through and stores a new record; the scrape of this read then fails.
    This read answers the list it filtered before it waited, the old
    record, under the time of the fetch that stored the new one. *)
Lemma flights_handler_answers_from_the_cache_witness :
  exists locals r,
    read_enter (mkRequest "GET" "/api/flights") 100
      (mkCache [mkFlight "10:00" "Baghdad" "IA220" "Iraqi Airways" "Landed"]
         (Some 1) stale)
    = (Normal (locals, None),
       mkCache [mkFlight "10:00" "Baghdad" "IA220" "Iraqi Airways" "Landed"]
         (Some 1) fetching)
    /\ read_resume locals 60 (Throw "timeout")
         (mkCache [mkFlight "16:00" "Dubai" "FZ206" "FlyDubai" "Scheduled"]
            (Some 50) ready)
       = (Normal r,
          mkCache [mkFlight "16:00" "Dubai" "FZ206" "FlyDubai" "Scheduled"]
            (Some 50) stale)
    /\ body r
       = FlightsBody [mkFlight "10:00" "Baghdad" "IA220" "Iraqi Airways" "Landed"]
           (Some 50) "all" "Erbil Airport".
Proof.
  exists (mkLocals "flights" "all"
            [mkFlight "10:00" "Baghdad" "IA220" "Iraqi Airways" "Landed"]).
  destruct (proj2 (proj2 (flights_handler_answers_from_the_cache
                            (mkRequest "GET" "/api/flights") 100 60 (Throw "timeout")
                            (mkCache [mkFlight "10:00" "Baghdad" "IA220"
                                        "Iraqi Airways" "Landed"]
                               (Some 1) stale)))
              (mkLocals "flights" "all"
                 [mkFlight "10:00" "Baghdad" "IA220" "Iraqi Airways" "Landed"])
              (mkCache [mkFlight "10:00" "Baghdad" "IA220" "Iraqi Airways" "Landed"]
                 (Some 1) fetching)
              (mkCache [mkFlight "16:00" "Dubai" "FZ206" "FlyDubai" "Scheduled"]
                 (Some 50) ready)
              eq_refl) as (r & Hrun & _ & Hbody).
  exists r. split; [reflexivity|]. split; [exact Hrun | exact Hbody].
Defined.

(** A cache that is ready is served as it is for fifteen minutes from the
    time of its scrape, without a look at the airport site; a cache that a
    failed scrape left stale is scraped again by the very next read. *)
Theorem ready_cache_is_served_for_its_age (req : Request) (now fetchedAt : Z)
    (response : completion (list (list string))) (c : FlightDataCache) :
  method req <> "OPTIONS" ->
  isRefreshRequest req = false ->
  (forall t, cacheStatus c = ready -> lastFetched c = Some t ->
             now - t <= 900000 ->
             snd (handler req now fetchedAt response c) = c)
  /\ (cacheStatus c <> ready ->
      snd (handler req now fetchedAt response c)
      = snd (scrapeFlightData fetchedAt response c)).
Proof.
  intros Ho R. apply String.eqb_neq in Ho.
  rewrite (handler_read req now fetchedAt response c Ho R). cbn [snd]. split.
  - intros t Hs Ht Hage. unfold isReady. rewrite Hs, Ht. cbn [negb].
    rewrite orb_false_r.
    replace (now - t >? MAX_CACHE_AGE_MS) with false; [reflexivity|].
    symmetry. rewrite Z.gtb_ltb. apply Z.ltb_ge. unfold MAX_CACHE_AGE_MS. lia.
  - intros Hs. unfold isReady.
    destruct (cacheStatus c); try (now rewrite orb_true_r). now elim Hs.
Qed.

Lemma ready_cache_is_served_for_its_age_witness :
  snd (handler (mkRequest "GET" "/api/flights") 900001 900002 (Throw "timeout")
         (mkCache [mkFlight "10:00" "Baghdad" "IA220" "Iraqi Airways" "Landed"]
            (Some 1) ready))
  = mkCache [mkFlight "10:00" "Baghdad" "IA220" "Iraqi Airways" "Landed"]
      (Some 1) ready
  /\ snd (handler (mkRequest "GET" "/api/flights") 5 6
            (Normal [["10:00"; "Baghdad"; "IA220"; "Iraqi Airways"; "Landed"]])
            (mkCache [] None stale))
     = snd (scrapeFlightData 6
              (Normal [["10:00"; "Baghdad"; "IA220"; "Iraqi Airways"; "Landed"]])
              (mkCache [] None stale)).
Proof.
  split.
  - apply (proj1 (ready_cache_is_served_for_its_age
                    (mkRequest "GET" "/api/flights") 900001 900002 (Throw "timeout")
                    (mkCache [mkFlight "10:00" "Baghdad" "IA220" "Iraqi Airways" "Landed"]
                       (Some 1) ready)
                    ltac:(discriminate) eq_refl) 1);
      [reflexivity | reflexivity | lia].
  - apply (proj2 (ready_cache_is_served_for_its_age
                    (mkRequest "GET" "/api/flights") 5 6
                    (Normal [["10:00"; "Baghdad"; "IA220"; "Iraqi Airways"; "Landed"]])
                    (mkCache [] None stale)
                    ltac:(discriminate) eq_refl)).
    discriminate.
Defined.

End FlightsMore.

(** ** src/index.js, lines 199-354, beside src/flights.js *)

Section TwoHandlers.

Import FlightsJs.

Lemma prefix_toLowerCase k : forall s,
  String.prefix k s = true ->
  String.prefix (toLowerCase k) (toLowerCase s) = true.
Proof.
  induction k as [|a k IH]; intros s; [now destruct s|].
  destruct s as [|b s]; simpl; [discriminate|].
  destruct (ascii_dec a b) as [->|]; [|discriminate].
  intros H. destruct (ascii_dec (lowerChar b) (lowerChar b)); [|congruence].
  now apply IH.
Qed.

Lemma includes_toLowerCase k s :
  includes s k = true -> includes (toLowerCase s) (toLowerCase k) = true.
Proof.
  induction s as [|b s IH]; simpl.
  - rewrite orb_false_r. intros H. rewrite orb_false_r.
    now apply (prefix_toLowerCase k EmptyString).
  - intros H. apply orb_true_iff in H as [H|H]; apply orb_true_iff.
    + left. now apply (prefix_toLowerCase k (String b s)).
    + right. now apply IH.
Qed.

(** The earlier handler looks for 'Arrival', 'Landed', 'Departure' and
    'Scheduled' as spelt, src/flights.js for the same words in any case: on
    every list, what the earlier filters keep is kept by the later ones. *)
Theorem spelt_keywords_select_less (l : list Flight) (f : Flight) :
  (In f (List.filter IndexJsV2.namesArrival l) -> In f (arrivals l))
  /\ (In f (List.filter IndexJsV2.namesDeparture l) -> In f (departures l)).
Proof.
  unfold arrivals, departures. rewrite !List.filter_In.
  unfold IndexJsV2.namesArrival, IndexJsV2.namesDeparture,
    mentionsArrival, mentionsDeparture.
  split; intros [Hin H]; (split; [exact Hin|]);
    apply orb_true_iff in H as [H|H]; apply includes_toLowerCase in H;
    apply orb_true_iff; tauto.
Qed.

Lemma spelt_keywords_select_less_witness :
  In (mkFlight "10:00" "Baghdad" "IA220" "Iraqi Airways" "Landed")
     (arrivals [mkFlight "10:00" "Baghdad" "IA220" "Iraqi Airways" "Landed";
                mkFlight "11:30" "Doha" "QR441" "Qatar Airways" "LANDED"])
  /\ List.filter IndexJsV2.namesArrival
       [mkFlight "10:00" "Baghdad" "IA220" "Iraqi Airways" "Landed";
        mkFlight "11:30" "Doha" "QR441" "Qatar Airways" "LANDED"]
     = [mkFlight "10:00" "Baghdad" "IA220" "Iraqi Airways" "Landed"]
  /\ arrivals [mkFlight "10:00" "Baghdad" "IA220" "Iraqi Airways" "Landed";
               mkFlight "11:30" "Doha" "QR441" "Qatar Airways" "LANDED"]
     = [mkFlight "10:00" "Baghdad" "IA220" "Iraqi Airways" "Landed";
        mkFlight "11:30" "Doha" "QR441" "Qatar Airways" "LANDED"].
Proof.
  split; [|split; reflexivity].
  apply (proj1 (spelt_keywords_select_less
                  [mkFlight "10:00" "Baghdad" "IA220" "Iraqi Airways" "Landed";
                   mkFlight "11:30" "Doha" "QR441" "Qatar Airways" "LANDED"]
                  (mkFlight "10:00" "Baghdad" "IA220" "Iraqi Airways" "Landed"))).
  now left.
Defined.

Lemma split_nonempty sep s : split sep s <> [].
Proof.
  destruct s as [|c s]; simpl; [discriminate|].
  destruct (Ascii.eqb c sep); [discriminate|].
  now destruct (split sep s).
Qed.

Lemma split_trailing sep s :
  split sep (s +:+ String sep EmptyString) = split sep s ++ [EmptyString].
Proof.
  induction s as [|c s IH]; simpl.
  - now rewrite Ascii.eqb_refl.
  - destruct (Ascii.eqb c sep); simpl in *; rewrite IH; [reflexivity|].
    pose proof (split_nonempty sep s) as Hne.
    now destruct (split sep s).
Qed.

Lemma last_snoc {A} (l : list A) x d : List.last (l ++ [x]) d = x.
Proof.
  induction l as [|y l IH]; [reflexivity|]. simpl.
  destruct (l ++ [x]) eqn:E; [now destruct l | exact IH].
Qed.

(** A slash at the end of the path.  The earlier handler drops empty path
    parts, so the route is the one without the slash; src/flights.js takes
    the empty part after the slash for the filter, and answers with all
    flights under the label 'all'. *)
Theorem trailing_slash_loses_the_filter (path : string) (l : list Flight) :
  IndexJsV2.lastPartOf (path +:+ "/") = IndexJsV2.lastPartOf path
  /\ filterTypeOf (path +:+ "/") = ""
  /\ filterBy (filterTypeOf (path +:+ "/")) l = l
  /\ flightTypeOf (filterTypeOf (path +:+ "/")) = "all".
Proof.
  assert (H : filterTypeOf (path +:+ "/") = "").
  { unfold filterTypeOf. rewrite (split_trailing "/" path).
    now rewrite last_snoc. }
  split.
  - unfold IndexJsV2.lastPartOf. rewrite (split_trailing "/" path).
    rewrite List.filter_app. simpl. now rewrite app_nil_r.
  - rewrite H. repeat split.
Qed.

(** The earlier handler too answers 204 to OPTIONS and 200 to everything
    else, never throwing; what it answers to a read is the selection from
    the cache as the scrape, if one was due, has left it. *)
Theorem earlier_handler_answers_from_the_cache (req : Request) (now fetchedAt : Z)
    (response : completion (list (list string))) (c : FlightDataCache) :
  exists r,
    fst (IndexJsV2.handler req now fetchedAt response c) = Normal r
    /\ (statusCode r = 204 <-> method req = "OPTIONS")
    /\ (method req <> "OPTIONS" -> statusCode r = 200)
    /\ (method req <> "OPTIONS" -> isRefreshRequest req = false ->
        snd (IndexJsV2.handler req now fetchedAt response c)
        = snd (handler req now fetchedAt response c)
        /\ body r
           = FlightsBody
               (snd (IndexJsV2.selectFlights (IndexJsV2.lastPartOf (url req))
                       (flights (snd (handler req now fetchedAt response c)))))
               (lastFetched (snd (handler req now fetchedAt response c)))
               (fst (IndexJsV2.selectFlights (IndexJsV2.lastPartOf (url req))
                       (flights (snd (handler req now fetchedAt response c)))))
               "Erbil Airport").
Proof.
  destruct (String.eqb_spec (method req) "OPTIONS") as [Ho|Ho].
  - unfold IndexJsV2.handler. rewrite Ho. cbn [String.eqb Ascii.eqb Bool.eqb].
    eexists. split; [reflexivity|]. cbn [statusCode].
    split; [tauto|]. split; intros H; now elim H.
  - assert (Hb := Ho). apply String.eqb_neq in Hb.
    destruct (isRefreshRequest req) eqn:R.
    + unfold IndexJsV2.handler. rewrite Hb, R. unfold mbind, Eff_bind.
      rewrite scrapeFlightData_result.
      destruct response; eexists; (split; [reflexivity|]); cbn [statusCode];
        (split; [split; [discriminate|tauto]|]); split;
        solve [reflexivity | discriminate].
    + rewrite (handler_read req now fetchedAt response c Hb R). cbn [snd].
      unfold IndexJsV2.handler. rewrite Hb, R.
      unfold mbind, Eff_bind, getState, mret, Eff_ret. cbv beta iota zeta.
      match goal with
      | |- context [(if ?b then _ else _) c] =>
          change ((now - match lastFetched c with Some t => t | None => 0 end
                   >? MAX_CACHE_AGE_MS) || negb (isReady c)) with b;
          destruct b
      end.
      * rewrite scrapeFlightData_result.
        destruct response; cbn [flights lastFetched fst snd];
          match goal with
          | |- context [IndexJsV2.selectFlights ?p ?fl] =>
              destruct (IndexJsV2.selectFlights p fl) eqn:E
          end;
          eexists; (split; [reflexivity|]); cbn [statusCode fst snd body];
          (split; [split; [discriminate|tauto]|]);
          (split; [reflexivity|]); intros _ _; now split.
      * destruct (IndexJsV2.selectFlights (IndexJsV2.lastPartOf (url req)) (flights c))
          eqn:E.
        eexists. split; [reflexivity|]. cbn [statusCode fst snd body].
        split; [split; [discriminate|tauto]|].
        split; [reflexivity|]. intros _ _. now split.
Qed.

End TwoHandlers.

(** ** src/unnamed/part_000: what is held and served *)

Section CronMore.

Import ServerCron.

Lemma orElse_filled s fallback : fallback <> "" -> orElse s fallback <> "".
Proof.
  unfold orElse, truthy. intros H.
  destruct (String.eqb_spec s ""); [exact H | assumption].
Qed.

Lemma orElse_blank s fallback :
  orElse s fallback = (if String.eqb s "" then fallback else s).
Proof. unfold orElse, truthy. now destruct (String.eqb s ""). Qed.

Lemma parseFlightRow_some idNow updatedNow tds table f :
  parseFlightRow idNow updatedNow tds table = Some f ->
  isDataRow tds = true /\ madeFrom table tds f /\ filledIn f
  /\ lastUpdated f = updatedNow.
Proof.
  unfold parseFlightRow, isDataRow. rewrite Nat.ltb_antisym.
  destruct (5 <=? length tds)%nat; [|discriminate]. cbn [negb].
  intros [= <-]. split; [reflexivity|]. split; [|split; [|reflexivity]].
  - unfold madeFrom. cbn [type airline flightNo city scheduled status id].
    rewrite !orElse_blank. repeat (split; [reflexivity|]). now exists idNow.
  - unfold filledIn. cbn. repeat split; apply orElse_filled; discriminate.
Qed.

Lemma parseFlightRow_none idNow updatedNow tds table :
  isDataRow tds = false -> parseFlightRow idNow updatedNow tds table = None.
Proof.
  unfold parseFlightRow, isDataRow. rewrite Nat.ltb_antisym. now intros ->.
Qed.

Lemma tableFlights_each clock i table rows :
  tableFlights clock i table rows = eachRow clock i table rows.
Proof. unfold tableFlights. now destruct rows. Qed.

(** The records of a table are made from its data rows, one each and in
    the order of the rows. *)
Lemma eachRow_madeFrom clock table rows : forall i,
  Forall2 (madeFrom table) (List.filter isDataRow rows) (eachRow clock i table rows).
Proof.
  induction rows as [|tds rows IH]; intros i; cbn [List.filter eachRow];
    [constructor|].
  destruct (isDataRow tds) eqn:E.
  - destruct (parseFlightRow (idAt clock i) (updatedAt clock i) tds table)
      as [f|] eqn:P.
    + cbn [app]. constructor; [|apply IH].
      now apply parseFlightRow_some in P as (_ & H & _).
    + unfold parseFlightRow, isDataRow in *. rewrite Nat.ltb_antisym, E in P.
      discriminate P.
  - rewrite parseFlightRow_none by exact E. apply IH.
Qed.

Lemma eachRow_all (P : Flight -> Prop) clock table rows :
  (forall idNow updatedNow tds f,
      parseFlightRow idNow updatedNow tds table = Some f -> P f) ->
  forall i, Forall P (eachRow clock i table rows).
Proof.
  intros H. induction rows as [|tds rows IH]; intros i; cbn [eachRow];
    [constructor|].
  apply Forall_app. split; [|apply IH].
  destruct (parseFlightRow (idAt clock i) (updatedAt clock i) tds table)
    as [f|] eqn:E; repeat constructor. exact (H _ _ _ _ E).
Qed.

Lemma scrapedFlights_all (P : Flight -> Prop) clock page :
  (forall idNow updatedNow tds table f,
      table = "Arrival" \/ table = "Departure" ->
      parseFlightRow idNow updatedNow tds table = Some f -> P f) ->
  Forall P (scrapedFlights clock page).
Proof.
  intros H. unfold scrapedFlights. rewrite !tableFlights_each.
  apply Forall_app. split; apply eachRow_all; intros idNow updatedNow tds f E.
  - apply (H idNow updatedNow tds "Arrival" f); [now left | exact E].
  - apply (H idNow updatedNow tds "Departure" f); [now right | exact E].
Qed.

(** What a fetch takes from the page: the records of the arrivals table
    followed by those of the departures table, one record for every row of
    five cells or more and in the order of the rows, shorter rows dropped.
    A record has the type of its table; its airline, flight number, city and
    time are the texts of cells 0 to 3, 'N/A' standing in for a blank, and
    its status the text of cell 4, 'Scheduled' standing in for a blank; so
    no record has one of these fields blank. *)
Theorem scraped_rows_are_typed_and_filled_in (clock : Clock) (page : Page) :
  exists arrivals departures,
    scrapedFlights clock page = arrivals ++ departures
    /\ Forall2 (madeFrom "Arrival") (List.filter isDataRow (arrivalRows page))
         arrivals
    /\ Forall2 (madeFrom "Departure") (List.filter isDataRow (departureRows page))
         departures
    /\ Forall filledIn (scrapedFlights clock page).
Proof.
  exists (eachRow clock 0 "Arrival" (arrivalRows page)),
    (eachRow clock (length (arrivalRows page)) "Departure" (departureRows page)).
  split; [unfold scrapedFlights; now rewrite !tableFlights_each|].
  split; [apply eachRow_madeFrom|]. split; [apply eachRow_madeFrom|].
  apply scrapedFlights_all. intros idNow updatedNow tds table f _ H.
  now apply parseFlightRow_some in H as (_ & _ & H & _).
Qed.

(** A page with a row too short in each table: the two data rows give an
    arrival and then a departure, blanks filled in. *)
Example arrivals_are_scraped_before_departures :
  scrapedFlights
    (mkClock (fun i => 2000 + Z.of_nat i) (fun i => 2010 + Z.of_nat i) 2020
       (fun i => 2030 + Z.of_nat i))
    (mkPage [["no data"]; ["Iraqi Airways"; "IA220"; "Baghdad"; "10:00"; "Landed"]]
       [["FlyDubai"; ""; "Dubai"; "16:00"; ""]; ["no"; "data"]])
  = [mkFlight "IA220-10:00-2001" "Arrival" "Iraqi Airways" "IA220" "Baghdad" "10:00"
       "Landed" 2011;
     mkFlight "-16:00-2002" "Departure" "FlyDubai" "N/A" "Dubai" "16:00" "Scheduled"
       2012].
Proof. reflexivity. Qed.

Lemma resume_not_empty clock response s :
  flightData (snd (fetchFlights_resume clock response s)) <> [].
Proof.
  rewrite resume_result. cbn [snd flightData set_isFetching].
  destruct (fetchedNothing clock response) eqn:N.
  - destruct (flightData s) eqn:E; cbn [length Nat.eqb].
    + discriminate.
    + rewrite E. discriminate.
  - destruct response as [page|error]; [|discriminate N].
    cbn [fetchedNothing] in N. cbn [flightData set_lastFetched set_flightData].
    destruct (scrapedFlights clock page); [discriminate N | discriminate].
Qed.

Lemma step_flightData e sys sys' :
  step e sys = Some sys' ->
  flightData (state sys') = flightData (state sys)
  \/ (exists clock response,
        e = Settle clock response
        /\ state sys' = snd (fetchFlights_resume clock response (state sys))).
Proof.
  destruct e as [|clock response|route]; simpl.
  - unfold fetchFlights_enter. run_eff.
    destruct (isFetching (state sys)); intros [= <-]; now left.
  - destruct (pending sys); [discriminate|]. intros [= <-]. right.
    now exists clock, response.
  - intros [= <-]. now left.
Qed.

Lemma run_keeps_data events : forall sys sys',
  run events sys = Some sys' ->
  flightData (state sys) <> [] -> flightData (state sys') <> [].
Proof.
  induction events as [|e rest IH]; intros sys sys'; simpl.
  - now intros [= <-].
  - destruct (step e sys) as [sys1|] eqn:E; [|discriminate]. intros R Hne.
    apply (IH sys1 sys' R).
    destruct (step_flightData e sys sys1 E) as [->|(clock & response & _ & ->)];
      [exact Hne | apply resume_not_empty].
Qed.

(** Once a request to the airport site has settled - gone through or not -
    the server holds flights for good: GET /api/flights answers 'OK' with a
    list that is not empty from then on, whatever happens later. *)
Theorem data_is_never_empty_after_a_fetch (events : list Event) (sys0 sys : System) :
  run events sys0 = Some sys ->
  hasSettled events = true ->
  flightData (state sys) <> []
  /\ flights (get AllFlights (state sys)) <> []
  /\ responseStatus (get AllFlights (state sys)) = "OK".
Proof.
  intros R S.
  assert (Hne : flightData (state sys) <> []).
  { revert sys0 R S. induction events as [|e rest IH]; intros sys0; simpl;
      [discriminate|].
    destruct (step e sys0) as [sys1|] eqn:E; [|discriminate]. intros R S.
    destruct e as [|clock response|route]; cbn [orb] in S;
      try (now apply (IH sys1 R S)).
    apply (run_keeps_data rest sys1 sys R).
    destruct (step_flightData _ _ _ E) as [Hsame|(n & r & [= <- <-] & ->)].
    - simpl in E. destruct (pending sys0); [discriminate|].
      injection E as <-. apply resume_not_empty.
    - apply resume_not_empty. }
  split; [exact Hne|]. unfold get. cbn [routeFlights flights responseStatus].
  split; [exact Hne|]. now destruct (flightData (state sys)).
Qed.

Lemma data_is_never_empty_after_a_fetch_witness :
  exists sys,
    run [Invoke; Settle (standing 1000) (Throw "timeout"); Invoke;
         Settle (standing 2000) (Normal (mkPage [] [])); Read Arrivals] system0
    = Some sys
    /\ flightData (state sys) <> []
    /\ flights (get AllFlights (state sys)) <> []
    /\ responseStatus (get AllFlights (state sys)) = "OK".
Proof.
  eexists. split; [reflexivity|].
  apply (data_is_never_empty_after_a_fetch
           [Invoke; Settle (standing 1000) (Throw "timeout"); Invoke;
            Settle (standing 2000) (Normal (mkPage [] [])); Read Arrivals] system0);
    reflexivity.
Defined.

Lemma sample_wellTyped readings : Forall wellTyped (getSampleData readings).
Proof. unfold getSampleData, wellTyped. repeat constructor; cbn; tauto. Qed.

Lemma scraped_wellTyped clock page : Forall wellTyped (scrapedFlights clock page).
Proof.
  apply scrapedFlights_all. intros idNow updatedNow tds table f Htable H.
  apply parseFlightRow_some in H as (_ & (Hty & _) & _).
  unfold wellTyped. rewrite Hty. exact Htable.
Qed.

Lemma resume_wellTyped clock response s :
  Forall wellTyped (flightData s) ->
  Forall wellTyped (flightData (snd (fetchFlights_resume clock response s))).
Proof.
  intros H. rewrite resume_result. cbn [snd flightData set_isFetching].
  destruct (fetchedNothing clock response).
  - destruct (length (flightData s) =? 0)%nat; [apply sample_wellTyped | exact H].
  - destruct response as [page|error]; [apply scraped_wellTyped | exact H].
Qed.

Lemma run_wellTyped events : forall sys sys',
  run events sys = Some sys' ->
  Forall wellTyped (flightData (state sys)) ->
  Forall wellTyped (flightData (state sys')).
Proof.
  induction events as [|e rest IH]; intros sys sys'; simpl.
  - now intros [= <-].
  - destruct (step e sys) as [sys1|] eqn:E; [|discriminate]. intros R H.
    apply (IH sys1 sys' R).
    destruct (step_flightData e sys sys1 E) as [->|(clock & response & _ & ->)];
      [exact H | now apply resume_wellTyped].
Qed.

(** Whatever the server has been through since it started, every flight it
    holds - scraped or sample - is an 'Arrival' or a 'Departure', so the
    arrivals route and the departures route split what the all-flights
    route serves. *)
Theorem cron_routes_split_the_data (events : list Event) (sys : System) :
  run events system0 = Some sys ->
  Forall wellTyped (flightData (state sys))
  /\ partitions (flights (get Arrivals (state sys)))
                (flights (get Departures (state sys)))
                (flights (get AllFlights (state sys))).
Proof.
  intros R.
  assert (H : Forall wellTyped (flightData (state sys)))
    by (apply (run_wellTyped events system0 sys R); constructor).
  split; [exact H|]. unfold get. cbn [flights routeFlights].
  apply filters_partition. revert H. apply List.Forall_impl.
  intros f [-> | ->]; reflexivity.
Qed.

Lemma cron_routes_split_the_data_witness :
  exists sys,
    run [Invoke;
         Settle (standing 1000)
           (Normal (mkPage [["Iraqi Airways"; "IA220"; "Baghdad"; "10:00"; "Landed"]]
                      [["FlyDubai"; "FZ206"; "Dubai"; "16:00"; ""]]))]
      system0 = Some sys
    /\ Forall wellTyped (flightData (state sys))
    /\ partitions (flights (get Arrivals (state sys)))
                  (flights (get Departures (state sys)))
                  (flights (get AllFlights (state sys))).
Proof.
  eexists. split; [reflexivity|].
  apply (cron_routes_split_the_data
           [Invoke;
            Settle (standing 1000)
              (Normal (mkPage [["Iraqi Airways"; "IA220"; "Baghdad"; "10:00"; "Landed"]]
                         [["FlyDubai"; "FZ206"; "Dubai"; "16:00"; ""]]))]).
  reflexivity.
Defined.

Lemma fetchFlights_result clock response s :
  fetchFlights clock response s
  = if isFetching s then (Normal tt, s)
    else fetchFlights_resume clock response (set_isFetching true s).
Proof.
  unfold fetchFlights, mbind, Eff_bind. destruct (isFetching s) eqn:F.
  - now rewrite enter_busy.
  - now rewrite enter_idle.
Qed.

(** [fetchFlights] never throws.  When the page has rows that parse, they
    replace whatever was held - sample records too - and the time read
    once they are stored is recorded, a reading of its own beside those
    kept in the records; in every other case the time recorded stays as it
    was. *)
Theorem fetched_rows_replace_the_data (clock : Clock) (response : completion Page)
    (s : State) :
  fst (fetchFlights clock response s) = Normal tt
  /\ (isFetching s = false -> fetchedNothing clock response = false ->
      exists page,
        response = Normal page
        /\ snd (fetchFlights clock response s)
           = mkState (scrapedFlights clock page) (Some (fetchedAt clock)) false)
  /\ (isFetching s = true \/ fetchedNothing clock response = true ->
      lastFetched (snd (fetchFlights clock response s)) = lastFetched s).
Proof.
  rewrite fetchFlights_result. destruct (isFetching s) eqn:F.
  - split; [reflexivity|]. split; [discriminate|reflexivity].
  - rewrite resume_result. cbn [fst snd]. split; [reflexivity|]. split.
    + intros _ N. rewrite N.
      destruct response as [page|error]; [|discriminate N]. now exists page.
    + intros [H|N]; [discriminate H|]. rewrite N.
      change (flightData (set_isFetching true s)) with (flightData s).
      now destruct (length (flightData s) =? 0)%nat.
Qed.

(** The clock moves while a page of one row is taken in: the id is stamped
    2000, the record 2003 and the fetch 2007. *)
Lemma fetched_rows_replace_the_data_witness :
  exists page,
    Normal (mkPage [["Iraqi Airways"; "IA220"; "Baghdad"; "10:00"; "Landed"]] [])
    = Normal page
    /\ snd (fetchFlights (mkClock (fun _ => 2000) (fun _ => 2003) 2007 (fun _ => 2009))
              (Normal (mkPage [["Iraqi Airways"; "IA220"; "Baghdad"; "10:00"; "Landed"]] []))
              (mkState (getSampleData (fun _ => 1000)) None false))
       = mkState
           [mkFlight "IA220-10:00-2000" "Arrival" "Iraqi Airways" "IA220" "Baghdad"
              "10:00" "Landed" 2003]
           (Some 2007) false.
Proof.
  destruct (proj1 (proj2 (fetched_rows_replace_the_data
                            (mkClock (fun _ => 2000) (fun _ => 2003) 2007 (fun _ => 2009))
                            (Normal (mkPage [["Iraqi Airways"; "IA220"; "Baghdad"; "10:00"; "Landed"]] []))
                            (mkState (getSampleData (fun _ => 1000)) None false)))
              eq_refl eq_refl) as (page & Hpage & Hstate).
  exists page. split; [exact Hpage|]. rewrite Hstate.
  injection Hpage as <-. reflexivity.
Defined.

Lemma fetchFlights_normal clock response s :
  exists s', fetchFlights clock response s = (Normal tt, s').
Proof.
  rewrite fetchFlights_result. destruct (isFetching s); [now exists s|].
  rewrite resume_result. eauto.
Qed.

(** POST /api/flights/refresh never fails: it answers with the number of
    flights held once [fetchFlights] has returned.  When a fetch was
    already under way it answers at once, for what is held, and changes
    nothing; otherwise the number it reports is never zero. *)
Theorem refresh_reports_what_is_held (clock : Clock) (response : completion Page)
    (s : State) :
  exists r,
    postRefresh clock response s = (Normal r, snd (fetchFlights clock response s))
    /\ message r = "Refresh complete."
    /\ flightCount r = length (flightData (snd (fetchFlights clock response s)))
    /\ (isFetching s = true ->
        snd (fetchFlights clock response s) = s
        /\ flightCount r = length (flightData s))
    /\ (isFetching s = false -> (1 <= flightCount r)%nat).
Proof.
  unfold postRefresh, mbind, Eff_bind.
  destruct (fetchFlights_normal clock response s) as [u Hu].
  rewrite Hu. cbn [fst snd getState mret Eff_ret].
  eexists. split; [reflexivity|]. cbn [message flightCount].
  split; [reflexivity|]. split; [reflexivity|].
  rewrite fetchFlights_result in Hu. split.
  - intros F. rewrite F in Hu. injection Hu as <-. now split.
  - intros F. rewrite F in Hu.
    pose proof (resume_not_empty clock response (set_isFetching true s)) as Hne.
    rewrite Hu in Hne. cbn [snd] in Hne.
    destruct (flightData u); [now elim Hne | cbn; lia].
Qed.

Lemma refresh_reports_what_is_held_witness :
  exists r,
    postRefresh (standing 1000) (Throw "timeout") state0
    = (Normal r, snd (fetchFlights (standing 1000) (Throw "timeout") state0))
    /\ flightCount r = 4%nat.
Proof.
  destruct (refresh_reports_what_is_held (standing 1000) (Throw "timeout") state0)
    as (r & Hrun & _ & Hcount & _).
  exists r. split; [exact Hrun | exact Hcount].
Defined.

End CronMore.

(** ** src/index.js: when the scrape fails, and calls that overlap *)

Section IndexScrape.

Import IndexJs.

(** [scrapeFlights] throws only when the request (or the parse of its body)
    fails, and then with the message of that failure behind a fixed
    prefix; a page that was fetched always gives a list, the rows that
    convert, be it empty. *)
Theorem scrape_fails_only_with_the_request (tz : Z) (Number : string -> num)
    (clock : nat -> Z) (response : completion (list Row)) :
  scrapeFlights tz Number clock response
  = match response with
    | Normal flightRows => Normal (rowsYield tz Number clock 0 flightRows)
    | Throw message =>
        Throw ("Failed to access or parse the source website: " +:+ message)
    end.
Proof.
  unfold scrapeFlights. destruct response as [rows|message]; [|reflexivity].
  cbn [mbind completion_bind tryCatch]. now rewrite extractRows_yield.
Qed.

(** Two unforced calls overlap, both on their way to the scraper.  The
    scrape of the first brings records; the scrape of the second then
    fails.  The second call does not throw, though it found the cache as
    empty as the first did: it keeps the records the first call has just
    stored and marks them stale. *)
Theorem late_failure_marks_new_records_stale (now1 now2 : Z)
    (flights : list Flight) (error : string) (c : FlightCache) :
  updateNeeded false now1 c = true ->
  updateNeeded false now2 c = true ->
  flights <> [] ->
  run [Call false now1; Call false now2; Settle (Normal flights);
       Settle (Throw error)] (mkSystem c [] 0)
  = Some (mkSystem (mkCache flights now1 true) [] 2)
  /\ getCachedFlights_update false now2 (Throw error) (mkCache flights now1 false)
     = (Normal tt, mkCache flights now1 true).
Proof.
  intros U1 U2 Hne.
  assert (Hlate : getCachedFlights_update false now2 (Throw error)
                    (mkCache flights now1 false)
                  = (Normal tt, mkCache flights now1 true)).
  { rewrite update_failure. cbn [data]. apply nonempty_length in Hne.
    now rewrite Hne. }
  split; [|exact Hlate].
  assert (Henter : forall now, getCachedFlights_enter false now c
                               = (Normal (updateNeeded false now c), c))
    by reflexivity.
  cbn [run step cache]. rewrite Henter, U1.
  cbn [run step cache awaiting scrapes app]. rewrite Henter, U2.
  cbn [run step cache awaiting scrapes app].
  rewrite update_success. cbn [snd]. now rewrite Hlate.
Qed.

Lemma late_failure_marks_new_records_stale_witness :
  run [Call false 1000; Call false 1001;
       Settle (Normal [mkFlight "Arrival" 7000 "IA220" "Baghdad" "Iraqi Airways" "Landed"]);
       Settle (Throw "timeout")] (mkSystem flightCache0 [] 0)
  = Some (mkSystem
            (mkCache [mkFlight "Arrival" 7000 "IA220" "Baghdad" "Iraqi Airways" "Landed"]
               1000 true) [] 2).
Proof.
  apply (late_failure_marks_new_records_stale 1000 1001
           [mkFlight "Arrival" 7000 "IA220" "Baghdad" "Iraqi Airways" "Landed"]
           "timeout" flightCache0).
  - reflexivity.
  - reflexivity.
  - discriminate.
Defined.

End IndexScrape.

(** ** src/unnamed/part_000: the origins let in *)

(** The origin check lets every request in: with an Origin header or
    without, on the list of allowed origins or not, and whatever that list
    holds. *)
Theorem every_origin_is_allowed (allowed : list string) (origin : option string) :
  ServerCron.corsOrigin allowed origin = (None, true).
Proof.
  unfold ServerCron.corsOrigin. destruct origin as [o|]; [|reflexivity].
  destruct (negb (truthy o)); [reflexivity|].
  now destruct (existsb (String.eqb o) allowed || (length allowed =? 0)%nat).
Qed.

(** ** src/server.js: the made-up flights *)

Section SortByKey.

Context {A : Type} (key : A -> Z).

Lemma insertSorted_permutation (compare : A -> A -> Z) x l :
  Permutation (insertSorted compare x l) (x :: l).
Proof.
  induction l as [|y l IH]; simpl; [reflexivity|].
  destruct (compare x y <=? 0); [reflexivity|].
  rewrite IH. apply perm_swap.
Qed.

Lemma sort_permutation (compare : A -> A -> Z) l :
  Permutation (sort compare l) l.
Proof.
  induction l as [|x l IH]; simpl; [constructor|].
  rewrite insertSorted_permutation. now constructor.
Qed.

Lemma insertSorted_by_key x l :
  StronglySorted (fun a b => key a <= key b) l ->
  StronglySorted (fun a b => key a <= key b)
    (insertSorted (fun a b => key a - key b) x l).
Proof.
  induction 1 as [|y l Hs IH Hy]; simpl.
  - repeat constructor.
  - destruct (Z.leb_spec (key x - key y) 0) as [Hle|Hgt].
    + constructor; [now constructor|].
      constructor; [lia|].
      rewrite List.Forall_forall in Hy |- *. intros z Hz.
      specialize (Hy z Hz). simpl in Hy. lia.
    + constructor; [exact IH|].
      rewrite List.Forall_forall in Hy |- *. intros z Hz.
      apply (Permutation_in _ (insertSorted_permutation _ x l)) in Hz.
      destruct Hz as [<-|Hz]; [lia | now apply Hy].
Qed.

Lemma sort_by_key l :
  StronglySorted (fun a b => key a <= key b) (sort (fun a b => key a - key b) l).
Proof.
  induction l as [|x l IH]; simpl; [constructor|].
  now apply insertSorted_by_key.
Qed.

Lemma filter_length_permutation (p : A -> bool) l l' :
  Permutation l l' -> length (List.filter p l) = length (List.filter p l').
Proof.
  induction 1 as [|x l l' _ IH|x y l|l l' l'' _ IH1 _ IH2]; simpl.
  - reflexivity.
  - destruct (p x); simpl; congruence.
  - destruct (p x), (p y); reflexivity.
  - congruence.
Qed.

Lemma filter_sorted (R : A -> A -> Prop) (p : A -> bool) l :
  StronglySorted R l -> StronglySorted R (List.filter p l).
Proof.
  induction 1 as [|x l Hs IH Hx]; simpl; [constructor|].
  destruct (p x); [|exact IH]. constructor; [exact IH|].
  rewrite List.Forall_forall in Hx |- *. intros y Hy.
  apply List.filter_In in Hy as [Hy _]. now apply Hx.
Qed.

End SortByKey.

Section Simulation.

Import ServerSim.

Variable tz : Z.

Lemma hours_keep_the_minutes now k :
  Z.abs tz <= msPerDay -> Z.abs now <= maxTime - 3 * msPerDay ->
  -2 <= k <= 2 ->
  setHours tz (getHours tz now + k) (Some now) = Some (now + k * msPerHour).
Proof.
  intros Htz Hnow Hk. unfold setHours, getHours.
  replace (UTC tz (localDate tz now * msPerDay
                   + ((localClock tz now / msPerHour + k) * msPerHour
                      + localClock tz now mod msPerHour)))
    with (now + k * msPerHour).
  - apply TimeClip_in_range. unfold maxTime, msPerDay, msPerHour in *. lia.
  - pose proof (local_parts tz now) as Hl. unfold UTC, LocalTime in *.
    pose proof (Z.div_mod (localClock tz now) msPerHour) as Hh.
    unfold msPerHour in *. lia.
Qed.

Lemma minutes_replaced t m :
  Z.abs tz <= msPerDay -> Z.abs t <= maxTime - msPerDay ->
  0 <= m < 60 ->
  setMinutes tz m (Some t) = Some (t + (m - getMinutes tz t) * msPerMinute).
Proof.
  intros Htz Ht Hm. unfold setMinutes, getMinutes, getHours.
  pose proof (local_parts tz t) as Hl.
  pose proof (localClock_range tz t) as Hc.
  set (c := localClock tz t) in *.
  assert (Hparts : c = c / msPerHour * msPerHour
                       + (c mod msPerHour / msPerMinute) * msPerMinute
                       + c mod msPerMinute).
  { unfold msPerHour, msPerMinute. clearbody c. clear.
    Z.div_mod_to_equations. lia. }
  assert (Hmin : 0 <= c mod msPerHour / msPerMinute < 60).
  { unfold msPerHour, msPerMinute. clearbody c. clear.
    Z.div_mod_to_equations. lia. }
  replace (UTC tz (localDate tz t * msPerDay
                   + (c / msPerHour * msPerHour + m * msPerMinute
                      + c mod msPerMinute)))
    with (t + (m - c mod msPerHour / msPerMinute) * msPerMinute).
  - apply TimeClip_in_range. unfold maxTime, msPerDay, msPerMinute in *. lia.
  - unfold UTC, LocalTime in *. lia.
Qed.

Lemma minutes_after_hours t k :
  getMinutes tz (t + k * msPerHour) = getMinutes tz t.
Proof.
  unfold getMinutes, localClock, TimeWithinDay, LocalTime, msPerDay, msPerHour,
    msPerMinute.
  f_equal. Z.div_mod_to_equations. lia.
Qed.

Lemma generateFlight_result type id now d :
  Z.abs tz <= msPerDay -> Z.abs now <= maxTime - 3 * msPerDay ->
  0 <= hourDraw d < 5 -> 0 <= minuteDraw d < 60 ->
  generateFlight tz type id now d = Normal (generated tz type id now d).
Proof.
  intros Htz Hnow Hh Hm. unfold generateFlight, generated.
  replace (getHours tz now + hourDraw d - 2)
    with (getHours tz now + (hourDraw d - 2)) by lia.
  rewrite hours_keep_the_minutes by (try assumption; lia).
  rewrite minutes_replaced
    by (try assumption; unfold maxTime, msPerDay, msPerHour in *; lia).
  now rewrite minutes_after_hours.
Qed.

(** A made-up flight is scheduled within three hours of the moment it is
    made: at the hour of that moment moved by two hours at most either
    way, and at a minute drawn anew - not within two hours, as the comment
    in the source has it.  It is a 'Departure' when asked for 'departures'
    and an 'Arrival' for anything else. *)
Theorem generated_flight_is_within_three_hours (type id : string) (now : Z)
    (d : Draws) :
  Z.abs tz <= msPerDay -> Z.abs now <= maxTime - 3 * msPerDay ->
  inRange d ->
  exists f,
    generateFlight tz type id now d = Normal f
    /\ ServerSim.id f = id
    /\ ServerSim.type f
       = (if String.eqb type "departures" then "Departure" else "Arrival")
    /\ scheduled f
       = now + (hourDraw d - 2) * msPerHour
         + (minuteDraw d - getMinutes tz now) * msPerMinute
    /\ now - 3 * msPerHour < scheduled f < now + 3 * msPerHour.
Proof.
  intros Htz Hnow (_ & _ & _ & Hh & Hm & _).
  exists (generated tz type id now d).
  split; [now apply generateFlight_result|].
  split; [reflexivity|]. split; [reflexivity|]. split; [reflexivity|].
  cbn [scheduled generated].
  assert (0 <= getMinutes tz now < 60).
  { unfold getMinutes, msPerHour, msPerMinute.
    generalize (localClock tz now). intros c. Z.div_mod_to_equations. lia. }
  unfold msPerHour, msPerMinute. lia.
Qed.

Lemma generatePairs_result clock draws rounds : forall i newFlights,
  (1 <= i)%nat ->
  Z.abs tz <= msPerDay ->
  (forall call, (call < 2 * (i - 1 + rounds))%nat ->
     Z.abs (clock call) <= maxTime - 3 * msPerDay /\ inRange (draws call)) ->
  generatePairs tz clock draws i rounds newFlights
  = Normal (newFlights ++ generatedPairs tz clock draws i rounds).
Proof.
  induction rounds as [|rounds IH]; intros i newFlights Hi Htz Hok.
  - unfold generatedPairs. simpl. unfold mret, completion_ret.
    now rewrite app_nil_r.
  - cbn [generatePairs].
    destruct (Hok (2 * (i - 1))%nat ltac:(lia)) as (Hc1 & _ & _ & _ & Hh1 & Hm1 & _).
    destruct (Hok (S (2 * (i - 1)))%nat ltac:(lia)) as (Hc2 & _ & _ & _ & Hh2 & Hm2 & _).
    rewrite (generateFlight_result _ _ _ _ Htz Hc1 Hh1 Hm1).
    cbn [mbind completion_bind].
    rewrite (generateFlight_result _ _ _ _ Htz Hc2 Hh2 Hm2).
    cbn [mbind completion_bind].
    rewrite IH; [| lia | exact Htz |].
    + unfold generatedPairs. cbn [seq flat_map]. now rewrite <- app_assoc.
    + intros call Hcall. apply Hok. lia.
Qed.

Lemma refreshCache_result clock draws fetchedAt c :
  plausible tz clock draws ->
  refreshCache tz clock draws fetchedAt c
  = (Normal tt,
     mkCache (sort compareScheduled (generatedPairs tz clock draws 1 8))
       (Some fetchedAt)).
Proof.
  intros [Htz Hok]. unfold refreshCache, mbind, Eff_bind, evaluate.
  rewrite generatePairs_result; [reflexivity | lia | exact Htz | exact Hok].
Qed.

Lemma generatedPairs_ids clock draws :
  map id (generatedPairs tz clock draws 1 8)
  = ["A1"; "D1"; "A2"; "D2"; "A3"; "D3"; "A4"; "D4";
     "A5"; "D5"; "A6"; "D6"; "A7"; "D7"; "A8"; "D8"].
Proof. reflexivity. Qed.

Lemma generatedPairs_types clock draws :
  map type (generatedPairs tz clock draws 1 8)
  = ["Arrival"; "Departure"; "Arrival"; "Departure"; "Arrival"; "Departure";
     "Arrival"; "Departure"; "Arrival"; "Departure"; "Arrival"; "Departure";
     "Arrival"; "Departure"; "Arrival"; "Departure"].
Proof. reflexivity. Qed.

Lemma filter_by_type (p : string -> bool) (l : list Flight) :
  length (List.filter (fun f => p (type f)) l)
  = length (List.filter p (map type l)).
Proof.
  induction l as [|f l IH]; simpl; [reflexivity|].
  destruct (p (type f)); simpl; congruence.
Qed.

(** [refreshCache] always leaves sixteen flights, A1 to A8 and D1 to D8, in
    non-decreasing order of their scheduled time, eight of them arrivals
    and eight departures, with the time of the refresh; what the cache held
    before is gone. *)
Theorem refresh_builds_sixteen_sorted_flights (clock : nat -> Z)
    (draws : nat -> Draws) (fetchedAt : Z) (c : FlightDataCache) :
  plausible tz clock draws ->
  exists newFlights,
    refreshCache tz clock draws fetchedAt c
    = (Normal tt, mkCache newFlights (Some fetchedAt))
    /\ Permutation (map id newFlights)
         ["A1"; "D1"; "A2"; "D2"; "A3"; "D3"; "A4"; "D4";
          "A5"; "D5"; "A6"; "D6"; "A7"; "D7"; "A8"; "D8"]
    /\ length newFlights = 16%nat
    /\ StronglySorted notLater newFlights
    /\ length (List.filter isArrival newFlights) = 8%nat
    /\ length (List.filter isDeparture newFlights) = 8%nat.
Proof.
  intros Hp. eexists. split; [now apply refreshCache_result|].
  pose proof (sort_permutation compareScheduled (generatedPairs tz clock draws 1 8))
    as Hperm.
  split; [|split; [|split; [|split]]].
  - rewrite <- (generatedPairs_ids clock draws). now apply Permutation_map.
  - now rewrite (Permutation_length Hperm).
  - apply (sort_by_key scheduled).
  - rewrite (filter_length_permutation isArrival _ _ Hperm).
    unfold isArrival.
    rewrite (filter_by_type (fun t => String.eqb t "Arrival")).
    now rewrite generatedPairs_types.
  - rewrite (filter_length_permutation isDeparture _ _ Hperm).
    unfold isDeparture.
    rewrite (filter_by_type (fun t => String.eqb t "Departure")).
    now rewrite generatedPairs_types.
Qed.

(** After a refresh every read route answers with a list in non-decreasing
    order of the scheduled time, though the routes themselves do not sort:
    the arrivals route with eight flights, the departures route with the
    eight others, and each with the time of the refresh. *)
Theorem simulated_routes_serve_sorted_halves (clock : nat -> Z)
    (draws : nat -> Draws) (fetchedAt : Z) (c : FlightDataCache) :
  plausible tz clock draws ->
  let c' := snd (refreshCache tz clock draws fetchedAt c) in
  (forall route,
      StronglySorted notLater (flights (get route c'))
      /\ lastFetched (get route c') = Some fetchedAt)
  /\ length (flights (get Arrivals c')) = 8%nat
  /\ length (flights (get Departures c')) = 8%nat
  /\ partitions (flights (get Arrivals c')) (flights (get Departures c'))
       (flights (get AllFlights c')).
Proof.
  intros Hp. cbv zeta. rewrite (refreshCache_result clock draws fetchedAt c Hp).
  cbn [snd].
  set (l := generatedPairs tz clock draws 1 8).
  pose proof (sort_permutation compareScheduled l) as Hperm.
  assert (Hsorted : StronglySorted notLater (sort compareScheduled l))
    by apply (sort_by_key scheduled).
  split; [|split; [|split]].
  - intros route. destruct route; cbn [get flights lastFetched];
      (split; [|reflexivity]);
      [exact Hsorted | now apply filter_sorted | now apply filter_sorted].
  - cbn [get flights].
    rewrite (filter_length_permutation isArrival _ _ Hperm). unfold isArrival.
    rewrite (filter_by_type (fun t => String.eqb t "Arrival")).
    unfold l. now rewrite generatedPairs_types.
  - cbn [get flights].
    rewrite (filter_length_permutation isDeparture _ _ Hperm). unfold isDeparture.
    rewrite (filter_by_type (fun t => String.eqb t "Departure")).
    unfold l. now rewrite generatedPairs_types.
  - cbn [get flights]. apply filters_partition.
    rewrite List.Forall_forall. intros f Hf.
    apply (Permutation_in _ Hperm) in Hf.
    assert (Ht : In (type f) (map type l)) by now apply in_map.
    unfold l in Ht. rewrite generatedPairs_types in Ht.
    unfold isArrival, isDeparture.
    repeat (destruct Ht as [<-|Ht]; [reflexivity|]). destruct Ht.
Qed.

End Simulation.

Lemma generated_flight_is_within_three_hours_witness :
  exists f,
    ServerSim.generateFlight 10800000 "departures" "D1" 1700000000000
      (ServerSim.mkDraws 3 4 1 4 59 456) = Normal f
    /\ ServerSim.type f = "Departure"
    /\ 1700000000000 - 3 * msPerHour < ServerSim.scheduled f
       < 1700000000000 + 3 * msPerHour.
Proof.
  destruct (generated_flight_is_within_three_hours 10800000 "departures" "D1"
              1700000000000 (ServerSim.mkDraws 3 4 1 4 59 456))
    as (f & Hf & _ & Htype & _ & Hwithin).
  - vm_compute. intros H. discriminate H.
  - vm_compute. intros H. discriminate H.
  - unfold ServerSim.inRange. cbn. lia.
  - exists f. split; [exact Hf | split; [exact Htype | exact Hwithin]].
Defined.

Lemma refresh_builds_sixteen_sorted_flights_witness :
  exists newFlights,
    ServerSim.refreshCache 10800000
      (fun call => 1700000000000 + Z.of_nat call)
      (fun call => ServerSim.mkDraws (call mod 7) (call mod 7) (call mod 4)
                     (Z.of_nat (call mod 5)) (Z.of_nat (call mod 60))
                     (Z.of_nat call))
      1700000000020 ServerSim.flightDataCache0
    = (Normal tt, ServerSim.mkCache newFlights (Some 1700000000020))
    /\ length newFlights = 16%nat
    /\ StronglySorted ServerSim.notLater newFlights.
Proof.
  destruct (refresh_builds_sixteen_sorted_flights 10800000
              (fun call => 1700000000000 + Z.of_nat call)
              (fun call => ServerSim.mkDraws (call mod 7) (call mod 7) (call mod 4)
                             (Z.of_nat (call mod 5)) (Z.of_nat (call mod 60))
                             (Z.of_nat call))
              1700000000020 ServerSim.flightDataCache0)
    as (fl & Hrun & _ & Hlen & Hsorted & _).
  - split; [vm_compute; intros H; discriminate H|].
    intros call Hcall. unfold ServerSim.inRange. cbn [ServerSim.cityDraw
      ServerSim.airlineDraw ServerSim.statusDraw ServerSim.hourDraw
      ServerSim.minuteDraw ServerSim.numberDraw].
    pose proof (Nat.mod_upper_bound call 7 ltac:(lia)).
    pose proof (Nat.mod_upper_bound call 4 ltac:(lia)).
    pose proof (Nat.mod_upper_bound call 5 ltac:(lia)).
    pose proof (Nat.mod_upper_bound call 60 ltac:(lia)).
    unfold maxTime, msPerDay. lia.
  - exists fl. split; [exact Hrun | split; [exact Hlen | exact Hsorted]].
Defined.

Lemma simulated_routes_serve_sorted_halves_witness :
  let c' := snd (ServerSim.refreshCache 10800000
                   (fun call => 1700000000000 + Z.of_nat call)
                   (fun call => ServerSim.mkDraws (call mod 7) (call mod 7)
                                  (call mod 4) (Z.of_nat (call mod 5))
                                  (Z.of_nat (call mod 60)) (Z.of_nat call))
                   1700000000020 ServerSim.flightDataCache0) in
  length (ServerSim.flights (ServerSim.get ServerSim.Arrivals c')) = 8%nat
  /\ length (ServerSim.flights (ServerSim.get ServerSim.Departures c')) = 8%nat.
Proof.
  destruct (simulated_routes_serve_sorted_halves 10800000
              (fun call => 1700000000000 + Z.of_nat call)
              (fun call => ServerSim.mkDraws (call mod 7) (call mod 7) (call mod 4)
                             (Z.of_nat (call mod 5)) (Z.of_nat (call mod 60))
                             (Z.of_nat call))
              1700000000020 ServerSim.flightDataCache0)
    as (_ & Harr & Hdep & _).
  - split; [vm_compute; intros H; discriminate H|].
    intros call Hcall. unfold ServerSim.inRange. cbn [ServerSim.cityDraw
      ServerSim.airlineDraw ServerSim.statusDraw ServerSim.hourDraw
      ServerSim.minuteDraw ServerSim.numberDraw].
    pose proof (Nat.mod_upper_bound call 7 ltac:(lia)).
    pose proof (Nat.mod_upper_bound call 4 ltac:(lia)).
    pose proof (Nat.mod_upper_bound call 5 ltac:(lia)).
    pose proof (Nat.mod_upper_bound call 60 ltac:(lia)).
    unfold maxTime, msPerDay. lia.
  - split; [exact Harr | exact Hdep].
Defined.
